(** * entsoe-client: the response parsers of [Parsers/ParserUtils.py]

    A shallow embedding of the parser utilities that turn an ENTSO-E
    response tree (root -> TimeSeries -> Period -> Point) into tabular
    records, and the properties of the specification that were checked
    against it.

    Conventions of the embedding:
    - a Python exception is a value of [exn]; a computation that may raise
      returns a [result];
    - a Python [dict] is an association list in insertion order ([pydict]):
      assigning to a key that is present replaces its value in place,
      assigning to a new key appends it;
    - the [lxml] tree is an ordered tree of tagged nodes with optional text;
      tags are compared as plain strings (name-space resolution is lxml's);
    - a Python list that is mutated through a reference lives in a store
      ([heap]) and is passed around by location. *)

From Stdlib Require Import ZArith String Ascii List Lia DecimalString DecimalZ DecimalPos.
From stdpp Require Import base option list gmap strings sorting.

Set Warnings "-register-all".

Local Open Scope string_scope.
Local Open Scope list_scope.
Local Open Scope Z_scope.

(** ** Exceptions and results *)

Inductive exn : Set :=
| IndexError
| KeyError
| ValueError
| TypeError
| AttributeError
| AssertionError
| OverflowError
| SystemError.

Inductive result (A : Type) : Type :=
| Ok (a : A)
| Raise (e : exn).
Arguments Ok {A} a.
Arguments Raise {A} e.

#[export] Instance result_ret : MRet result := fun A a => Ok a.
#[export] Instance result_bind : MBind result := fun A B f m =>
  match m with
  | Ok a => f a
  | Raise e => Raise e
  end.

#[export] Instance result_fmap : FMap result := fun A B f m =>
  match m with
  | Ok a => Ok (f a)
  | Raise e => Raise e
  end.

Definition of_option {A} (e : exn) (o : option A) : result A :=
  match o with
  | Some a => Ok a
  | None => Raise e
  end.

(** [[f x for x in xs]] where [f] may raise: left to right, the first
    exception wins. *)
Fixpoint map_result {A B} (f : A -> result B) (xs : list A) : result (list B) :=
  match xs with
  | [] => Ok []
  | x :: xs' => y ← f x; ys ← map_result f xs'; mret (y :: ys)
  end.

(** ** Python values held by the dictionaries *)

Inductive pyval : Set :=
| VNone
| VStr (s : string)
| VInt (z : Z).

#[export] Instance pyval_eq_dec : EqDecision pyval.
Proof. solve_decision. Defined.

(** [node.text]: [None] or a string. *)
Definition of_text (t : option string) : pyval :=
  match t with
  | Some s => VStr s
  | None => VNone
  end.

(** ** [int(...)] and [str(...)] on integers *)

(** White space skipped by [int]: TAB..CR, FS..US and the blank. *)
Definition is_space (c : ascii) : bool :=
  let n := nat_of_ascii c in
  ((9 <=? n)%nat && (n <=? 13)%nat) || ((28 <=? n)%nat && (n <=? 32)%nat).

Definition is_digit (c : ascii) : bool :=
  let n := nat_of_ascii c in (48 <=? n)%nat && (n <=? 57)%nat.

Fixpoint lstrip (s : string) : string :=
  match s with
  | EmptyString => EmptyString
  | String c s' => if is_space c then lstrip s' else s
  end.

Fixpoint rstrip (s : string) : string :=
  match s with
  | EmptyString => EmptyString
  | String c s' =>
      match rstrip s' with
      | EmptyString => if is_space c then EmptyString else String c EmptyString
      | r => String c r
      end
  end.

Definition strip (s : string) : string := rstrip (lstrip s).

(** Removes the digit separators of an integer literal: a single [_] is
    allowed between two digits only. [after_digit] tells whether the
    previous character was a digit. *)
Fixpoint ungroup (after_digit : bool) (s : string) : option string :=
  match s with
  | EmptyString => if after_digit then Some EmptyString else None
  | String c s' =>
      if is_digit c then String c <$> ungroup true s'
      else if Ascii.eqb c "_" && after_digit then ungroup false s'
      else None
  end.

Definition digits_value (s : string) : option Z :=
  d ← ungroup false s; u ← NilEmpty.uint_of_string d; Some (Z.of_uint u).

(** [int(s)] for a string, base 10: white space around, a sign, digits
    with single underscores between them. Strings are sequences of bytes
    here; the decimal digits and white space outside ASCII that Python also
    accepts are not part of the model. *)
Definition int_of_str (s : string) : option Z :=
  match strip s with
  | String "-" r => Z.opp <$> digits_value r
  | String "+" r => digits_value r
  | r => digits_value r
  end.

(** Every character of [s] satisfies [p]. *)
Fixpoint string_forall (p : ascii -> bool) (s : string) : bool :=
  match s with
  | EmptyString => true
  | String c s' => p c && string_forall p s'
  end.

(** [int(v)] *)
Definition py_int (v : pyval) : result Z :=
  match v with
  | VNone => Raise TypeError
  | VStr s => of_option ValueError (int_of_str s)
  | VInt z => Ok z
  end.

(** [str(z)] for an integer. *)
Definition py_str (z : Z) : string := NilZero.string_of_int (Z.to_int z).

(** ** Dictionaries in insertion order *)

Section Dict.
Context {K V : Type} `{EqDecision K}.

Definition pydict := list (K * V).

Fixpoint dict_get (k : K) (d : pydict) : option V :=
  match d with
  | [] => None
  | (k', v) :: d' => if decide (k = k') then Some v else dict_get k d'
  end.

(** [d[k] = v] *)
Fixpoint dict_set (k : K) (v : V) (d : pydict) : pydict :=
  match d with
  | [] => [(k, v)]
  | (k', v') :: d' =>
      if decide (k = k') then (k', v) :: d' else (k', v') :: dict_set k v d'
  end.

(** [d.pop(k, None)], the value dropped. *)
Fixpoint dict_pop (k : K) (d : pydict) : pydict :=
  match d with
  | [] => []
  | (k', v') :: d' =>
      if decide (k = k') then d' else (k', v') :: dict_pop k d'
  end.

(** [dict(pairs)], also the dict comprehension: later pairs overwrite. *)
Definition dict_of_pairs (ps : list (K * V)) : pydict :=
  fold_left (fun d p => dict_set p.1 p.2 d) ps [].

(** [{**d1, **d2, ...}] *)
Definition dict_merge (ds : list pydict) : pydict :=
  dict_of_pairs (concat ds).

Definition dict_keys (d : pydict) : list K := d.*1.

(** [k in d] *)
Definition dict_mem (k : K) (d : pydict) : bool := bool_decide (is_Some (dict_get k d)).

(** [d[k]] *)
Definition dict_getitem (k : K) (d : pydict) : result V :=
  of_option KeyError (dict_get k d).
End Dict.
Arguments pydict : clear implicits.

(** [xs[i]] on a list, with Python's negative indices. *)
Definition py_index {A} (xs : list A) (i : Z) : result A :=
  let n := Z.of_nat (length xs) in
  let j := if i <? 0 then i + n else i in
  if (0 <=? j) && (j <? n) then of_option IndexError (xs !! Z.to_nat j)
  else Raise IndexError.

(** [range(a, b)] *)
Definition py_range (a b : Z) : list Z :=
  seqZ a (b - a).

(** ** The document tree

    An element is kept as what the parsers read of it: its tag, its text
    and its children. Attributes and tail text, which no function of
    [ParserUtils.py] reads, are not represented. *)

Inductive node : Type :=
| Node (tag : string) (text : option string) (children : list node).

Definition node_tag (n : node) : string := let 'Node t _ _ := n in t.
Definition node_text (n : node) : option string := let 'Node _ x _ := n in x.
Definition getchildren (n : node) : list node := let 'Node _ _ cs := n in cs.

(** [n.xpath("./t")]: the children named [t], in document order. *)
Definition xpath_child (t : string) (n : node) : list node :=
  filter (fun c => node_tag c = t) (getchildren n).

(** [n.xpath("./t1/t2/...")] *)
Fixpoint xpath_path (path : list string) (n : node) : list node :=
  match path with
  | [] => [n]
  | t :: path' => xpath_child t n ≫= xpath_path path'
  end.

(** The node and its descendants in document order. *)
Fixpoint descendants_or_self (n : node) : list node :=
  let 'Node _ _ cs := n in
  n :: ((fix go (l : list node) : list node :=
           match l with
           | [] => []
           | c :: l' => descendants_or_self c ++ go l'
           end) cs).

(** [root.xpath("//t")]: every node named [t] of the document. The outage
    parser is applied to the root of the document, which is where [//]
    starts. *)
Definition xpath_anywhere (t : string) (root : node) : list node :=
  filter (fun c => node_tag c = t) (descendants_or_self root).

(** [dict([(prefix + datum.tag, datum.text) for datum in n.iterchildren()])] *)
Definition children_dict (prefix : string) (n : node) : pydict string pyval :=
  dict_of_pairs ((fun c => (prefix +:+ node_tag c, of_text (node_text c))) <$> getchildren n).

(** ** unfold_node *)

Inductive unfolded : Type :=
| UText (t : option string)
| UDict (d : list (string * unfolded)).

Fixpoint unfold_node (n : node) : string * unfolded :=
  let 'Node tag text children := n in
  match children with
  | [] => (tag, UText text)
  | _ :: _ => (tag, UDict (dict_of_pairs (unfold_node <$> children)))
  end.

(** ** Time stamps and the resolution table *)

(** A time stamp is a number of minutes since 1970-01-01T00:00Z. *)
Abbreviation timestamp := Z (only parsing).

Definition resolution_map : pydict string string :=
  [ ("P1Y", "12M"); ("P1M", "1M"); ("P7D", "7D"); ("P1D", "1D");
    ("PT60M", "60min"); ("PT30M", "30min"); ("PT15M", "15min"); ("PT1M", "1min") ].

(** [resolution_map[r]] for the text [r] of a resolution element; the keys
    are strings, so [None] is not among them. *)
Definition resolution_lookup (r : pyval) : result string :=
  match r with
  | VStr s => dict_getitem s resolution_map
  | _ => Raise KeyError
  end.

(** [n.name] of [lxml.objectify]: the first child of that name. *)
Definition getattr (name : string) (n : node) : result node :=
  of_option AttributeError (head (xpath_child name n)).

(** [index[:-1] if index.size > 1 else index] *)
Definition half_open {A} (index : list A) : list A :=
  if (1 <? Z.of_nat (length index)) then removelast index else index.

(** The data frame is kept as its three ingredients: the index, the rows
    passed as [data], and the columns broadcast by [assign]. *)
Record DataFrame : Type := mkDataFrame {
  df_index : list timestamp;
  df_data : list (pydict string pyval);
  df_assigned : pydict string pyval
}.

(** [', '.join(values)] *)
Fixpoint join (sep : string) (values : list pyval) : result string :=
  match values with
  | [] => Ok ""
  | v :: rest =>
      match v with
      | VStr s =>
          match rest with
          | [] => Ok s
          | _ :: _ => r ← join sep rest; mret (s +:+ sep +:+ r)
          end
      | _ => Raise TypeError
      end
  end.

(** [result.setdefault(key, []).append(value)] *)
Definition setdefault_append (key : string) (value : pyval)
    (result : pydict string (list pyval)) : pydict string (list pyval) :=
  match dict_get key result with
  | Some values => dict_set key (values ++ [value]) result
  | None => dict_set key [value] result
  end.

(** [{key: f(values) for key, values in d.items()}] where [f] may raise. *)
Definition dict_map_result {A B} (f : A -> result B) (d : pydict string A)
  : result (pydict string B) :=
  map_result (fun kv => v ← f kv.2; mret (kv.1, v)) d.

Section Extractors.
(** What the parsers take from their surroundings: [pd.date_range(start,
    end, freq=f)], the clock of [get_index] (now, cut to the hour) and
    [str(element)] of [lxml.objectify]. *)
Variable date_range : pyval -> pyval -> string -> result (list timestamp).
Variable now_hour : timestamp.
Variable element_str : node -> string.

Definition get_Period_index (Period : node) : result (list timestamp) :=
  start ← node_text <$> (getattr "timeInterval" Period ≫= getattr "start");
  end_ ← node_text <$> (getattr "timeInterval" Period ≫= getattr "end");
  resolution ← node_text <$> getattr "resolution" Period;
  freq ← resolution_lookup (of_text resolution);
  index ← date_range (of_text start) (of_text end_) freq;
  mret (half_open index).

Definition get_index (Period : node) : result (list timestamp) :=
  let points := xpath_child "unavailability_Time_Period.timeInterval" Period in
  data ← py_index (children_dict "" <$> points) 0;
  start ← dict_getitem "start" data;
  end_ ← dict_getitem "end" data;
  let resolution := xpath_path ["TimeSeries"; "Available_Period"; "resolution"] Period in
  match resolution with
  | [] => mret [now_hour]
  | r :: _ =>
      freq ← resolution_lookup (of_text (node_text r));
      index ← date_range start end_ freq;
      mret (half_open index)
  end.

Definition get_data (Period : node)
  : result (list timestamp * list (pydict string pyval)) :=
  index ← get_index Period;
  let points := xpath_path ["TimeSeries"; "Available_Period"; "Point"] Period in
  let data := children_dict "" <$> points in
  match data with
  | [] => mret (index, [[("position", VInt (-1)); ("quantity", VInt 0)]])
  | _ :: _ =>
      new_ind ← map_result (fun elem =>
                   position ← dict_getitem "position" elem;
                   p ← py_int position;
                   py_index index (p - 1)) data;
      mret (new_ind, data)
  end.

Definition resource_placeholder : pydict string pyval :=
  [ ("Asset_RegisteredResource.mRID", VStr "");
    ("Asset_RegisteredResource.name", VStr "");
    ("Asset_RegisteredResource.asset_PSRType.psrType", VStr "");
    ("Asset_RegisteredResource.location.name", VStr "") ].

(** The result is [None] when the function falls off its end. *)
Definition get_resource (Period : node) : result (option (pydict string pyval)) :=
  let tag_available := head (xpath_path ["TimeSeries"; "Asset_RegisteredResource"] Period) in
  match tag_available with
  | Some _ =>
      let points := xpath_path ["TimeSeries"; "Asset_RegisteredResource"] Period in
      let data := children_dict "Asset_RegisteredResource." <$> points in
      let data := if bool_decide (length data = 0%nat) then [resource_placeholder] else data in
      let result :=
        fold_left (fun result entry =>
                     fold_left (fun result kv => setdefault_append kv.1 kv.2 result)
                               entry result)
                  data [] in
      result ← dict_map_result (fun values => VStr <$> join ", " values) result;
      mret (Some result)
  | None => mret None
  end.

Definition get_infos (Period : node) : result (pydict string pyval) :=
  let points := xpath_anywhere "TimeSeries" Period in
  data ← py_index (children_dict "TimeSeries." <$> points) 0;
  let data := dict_pop "TimeSeries.Asset_RegisteredResource" data in
  let data := dict_pop "TimeSeries.Available_Period" data in
  let data := dict_pop "TimeSeries.Reason" data in
  mret data.

Definition reason_blank : string :=
  String (ascii_of_nat 10) "    ".

Definition get_reason (Period : node) : result (pydict string pyval) :=
  let points := xpath_child "Reason" Period in
  data ← py_index (children_dict "Reason." <$> points) 0;
  match dict_get "Reason.text" data with
  | None => mret (dict_set "Reason.text" (VStr "") data)
  | Some t =>
      if decide (t = VStr reason_blank)
      then mret (dict_set "Reason.text" (VStr "") data)
      else mret data
  end.

(** [str(xs[0]) if len(xs) == 1 else None] *)
Definition single_str (xs : list node) : pyval :=
  match xs with
  | [x] => VStr (element_str x)
  | _ => VNone
  end.

Definition get_createdatetime (Period : node) : result (pydict string pyval) :=
  let created := xpath_child "createdDateTime" Period in
  let docstat := xpath_path ["docStatus"; "value"] Period in
  let revision := xpath_child "revisionNumber" Period in
  let resolution := xpath_anywhere "TimeSeries" Period
                      ≫= xpath_path ["Available_Period"; "resolution"] in
  resolved ← match resolution with
             | [r] => VStr <$> resolution_lookup (of_text (node_text r))
             | _ => mret VNone
             end;
  mret [ ("CreatedDateTime", single_str created);
         ("DocStatus", single_str docstat);
         ("RevisionNumber", single_str revision);
         ("Resolution", resolved) ].

Definition outage_dataframe (Period : node) : result DataFrame :=
  '(index, data) ← get_data Period;
  if bool_decide (length data = length index) then
    resource ← get_resource Period;
    infos ← get_infos Period;
    reason ← get_reason Period;
    created ← get_createdatetime Period;
    match resource with
    | Some resource =>
        mret (mkDataFrame index data
                (dict_merge [resource; infos; reason; created]))
    | None =>
        mret (mkDataFrame index data
                (dict_merge [infos; reason; created]))
    end
  else Raise AssertionError.
End Extractors.

(** ** A reference [date_range]

    [pd.date_range] belongs to pandas. The reference model below covers the
    time stamps of the ENTSO-E documents ([YYYY-MM-DDThh:mmZ]) and the eight
    frequencies of [resolution_map]: a fixed step for the minute and day
    frequencies, month ends for the month frequencies. pandas keeps a time
    stamp as a signed 64-bit number of nanoseconds since 1970: a time stamp
    outside this range is refused ([OutOfBoundsDatetime], a [ValueError]),
    and so is a range whose generation leaves it. *)

(** The last and the first minute pandas can represent: 2262-04-11T23:47Z
    and 1677-09-21T00:13Z. *)
Definition timestamp_max : Z := (2 ^ 63 - 1) / 60000000000.
Definition timestamp_min : Z := - timestamp_max.

Definition days_from_civil (y m d : Z) : Z :=
  let y := if m <=? 2 then y - 1 else y in
  let era := y / 400 in
  let yoe := y - era * 400 in
  let doy := (153 * (if 2 <? m then m - 3 else m + 9) + 2) / 5 + d - 1 in
  let doe := yoe * 365 + yoe / 4 - yoe / 100 + doy in
  era * 146097 + doe - 719468.

Definition civil_from_days (z : Z) : Z * Z * Z :=
  let z := z + 719468 in
  let era := z / 146097 in
  let doe := z - era * 146097 in
  let yoe := (doe - doe / 1460 + doe / 36524 - doe / 146096) / 365 in
  let doy := doe - (365 * yoe + yoe / 4 - yoe / 100) in
  let mp := (5 * doy + 2) / 153 in
  let d := doy - (153 * mp + 2) / 5 + 1 in
  let m := if mp <? 10 then mp + 3 else mp - 9 in
  (if m <=? 2 then yoe + era * 400 + 1 else yoe + era * 400, m, d).

(** The value of a string of decimal digits. *)
Definition number (s : string) : option Z :=
  if bool_decide (s = "") then None
  else Z.of_uint <$> NilEmpty.uint_of_string s.

Definition parse_timestamp (s : string) : option timestamp :=
  if bool_decide (String.length s = 17%nat
                  ∧ substring 4 1 s = "-" ∧ substring 7 1 s = "-"
                  ∧ substring 10 1 s = "T" ∧ substring 13 1 s = ":"
                  ∧ substring 16 1 s = "Z")
  then
    y ← number (substring 0 4 s);
    m ← number (substring 5 2 s);
    d ← number (substring 8 2 s);
    hh ← number (substring 11 2 s);
    mm ← number (substring 14 2 s);
    let day := days_from_civil y m d in
    let t := day * 1440 + hh * 60 + mm in
    if bool_decide (civil_from_days day = (y, m, d) ∧ hh < 24 ∧ mm < 60
                    ∧ timestamp_min <= t <= timestamp_max)
    then Some t
    else None
  else None.

Inductive frequency : Set :=
| Every (minutes : Z)
| MonthEnd (months : Z).

Definition parse_freq (f : string) : option frequency :=
  if bool_decide (f = "12M") then Some (MonthEnd 12)
  else if bool_decide (f = "1M") then Some (MonthEnd 1)
  else if bool_decide (f = "7D") then Some (Every 10080)
  else if bool_decide (f = "1D") then Some (Every 1440)
  else if bool_decide (f = "60min") then Some (Every 60)
  else if bool_decide (f = "30min") then Some (Every 30)
  else if bool_decide (f = "15min") then Some (Every 15)
  else if bool_decide (f = "1min") then Some (Every 1)
  else None.

(** [start, start + step, ...] up to [stop] included. *)
Definition regular_range (start stop step : Z) : list timestamp :=
  if start <=? stop
  then (fun i => start + Z.of_nat i * step) <$> seq 0 (Z.to_nat ((stop - start) / step + 1))
  else [].

(** The last day of the month numbered [mi = 12 * year + (month - 1)]. *)
Definition month_end_day (mi : Z) : Z :=
  days_from_civil ((mi + 1) / 12) ((mi + 1) mod 12 + 1) 1 - 1.

(** The month ends from [start] on, every [n] months, up to [stop]
    included, at the time of day of [start]. pandas steps from one month
    end to the next until it is past [stop], or at [stop]; the month ends
    it computes on the way must be representable. *)
Definition month_end_range (start stop n : Z) : result (list timestamp) :=
  let '(y, m, _) := civil_from_days (start / 1440) in
  let mi := 12 * y + (m - 1) in
  let at_ (k : nat) := month_end_day (mi + Z.of_nat k * n) * 1440 + start mod 1440 in
  let candidates := at_ <$> seq 0 (Z.to_nat ((stop - start) / (40320 * n) + 2)) in
  let generated := filter (fun t => t <= stop) candidates in
  let computed :=
    at_ 0%nat ::
    (if bool_decide (last generated = Some stop) then []
     else option_list (head (filter (fun t => stop < t) candidates))) in
  if bool_decide (Forall (fun t => t <= timestamp_max) computed)
  then Ok generated
  else Raise ValueError.

(** The end of the half-open interval of nanoseconds that pandas hands to
    [np.arange] for a fixed step:
    [b + (end - b) // stride * stride + stride // 2 + 1]. *)
Definition arange_stop (start stop step : Z) : Z :=
  let b := start * 60000000000 in
  let stride := step * 60000000000 in
  b + (stop * 60000000000 - b) / stride * stride + stride / 2 + 1.

Definition pd_date_range (start end_ : pyval) (freq : string) : result (list timestamp) :=
  match start, end_ with
  | VStr s, VStr e =>
      f ← of_option ValueError (parse_freq freq);
      ts ← of_option ValueError (parse_timestamp s);
      te ← of_option ValueError (parse_timestamp e);
      match f with
      | Every step =>
          if bool_decide (arange_stop ts te step <= 2 ^ 63 - 1)
          then mret (regular_range ts te step)
          else Raise OverflowError
      | MonthEnd n => month_end_range ts te n
      end
  | _, _ => Raise ValueError
  end.

(** ** The store of mutable lists

    [check_period_data_missing] sorts and extends the list it is given, and
    [get_Period_data] goes on with the list that comes back. A list of
    records is therefore kept in a store and named by its location; the
    records themselves are never written to after they are built and are
    kept by value. An exception leaves the store as it was when raised. *)

Abbreviation record := (pydict string pyval) (only parsing).
Abbreviation loc := nat (only parsing).
Abbreviation heap := (gmap nat (list (pydict string pyval))) (only parsing).

Definition M (A : Type) : Type := heap -> heap * result A.

#[export] Instance M_ret : MRet M := fun A a h => (h, Ok a).
#[export] Instance M_bind : MBind M := fun A B f m h =>
  match m h with
  | (h', Ok a) => f a h'
  | (h', Raise e) => (h', Raise e)
  end.

Definition lift {A} (r : result A) : M A := fun h => (h, r).

(** A fresh list object. *)
Definition new_list (xs : list record) : M loc := fun h =>
  let l := fresh (dom h) in (<[l := xs]> h, Ok l).

(** The contents of a list object. A location that was never allocated
    cannot be reached from Python; reading it is reported as a
    [SystemError]. *)
Definition read_list (l : loc) : M (list record) := fun h =>
  (h, of_option SystemError (h !! l)).

Definition write_list (l : loc) (xs : list record) : M unit := fun h =>
  (<[l := xs]> h, Ok tt).

(** [data.append(x)] *)
Definition list_append (l : loc) (x : record) : M unit :=
  xs ← read_list l; write_list l (xs ++ [x]).

(** [data += new] *)
Definition list_extend (l : loc) (new : list record) : M unit :=
  xs ← read_list l; write_list l (xs ++ new).

(** [list.sort] is stable, and a stable sort has one possible outcome: the
    one of this insertion sort on the (key, element) pairs. *)
Fixpoint insert_by_key {A} (kx : Z * A) (l : list (Z * A)) : list (Z * A) :=
  match l with
  | [] => [kx]
  | ky :: l' => if kx.1 <=? ky.1 then kx :: ky :: l' else ky :: insert_by_key kx l'
  end.

Definition stable_sort {A} (l : list (Z * A)) : list (Z * A) :=
  foldr insert_by_key [] l.

(** [data.sort(key=key)]: the keys are computed first; when one of them
    raises, the list keeps its order. *)
Definition list_sort (l : loc) (key : record -> result Z) : M unit :=
  xs ← read_list l;
  ks ← lift (map_result key xs);
  write_list l (stable_sort (zip ks xs)).*2.

(** [for x in xs: body] *)
Fixpoint for_each {A} (xs : list A) (body : A -> M unit) : M unit :=
  match xs with
  | [] => mret tt
  | x :: xs' => body x;; for_each xs' body
  end.

(** [int(x['position'])] *)
Definition position_of (x : record) : result Z :=
  dict_getitem "position" x ≫= py_int.

(** [max(keys)] *)
Definition py_max (keys : list Z) : result Z :=
  match keys with
  | [] => Raise ValueError
  | k :: keys' => Ok (foldl Z.max k keys')
  end.

(** [max(keys, default=d)] *)
Definition py_max_default (d : Z) (keys : list Z) : Z :=
  match keys with
  | [] => d
  | k :: keys' => foldl Z.max k keys'
  end.

Definition check_period_data_missing (data : loc) (key : string) : M loc :=
  list_sort data position_of;;
  xs ← read_list data;
  complete_data ← lift (dict_of_pairs <$>
                          map_result (fun pos => p ← position_of pos;
                                                 v ← dict_getitem key pos;
                                                 mret (p, v)) xs);
  top ← lift (py_max (dict_keys complete_data));
  for_each (py_range 1 (top + 1)) (fun position =>
    if dict_mem position complete_data then mret tt
    else
      let prev_position :=
        py_max_default 0 (filter (fun x => x < position) (dict_keys complete_data)) in
      v ← lift (dict_getitem prev_position complete_data);
      list_append data (dict_of_pairs [("position", VStr (py_str position)); (key, v)]));;
  list_sort data position_of;;
  mret data.

Definition get_Period_data (Period : node) (length_ : Z) : M loc :=
  let points := xpath_child "Point" Period in
  data ← new_list (children_dict "" <$> points);
  xs ← read_list data;
  key ← lift (first ← py_index xs 0; py_index (dict_keys first) 1);
  data ← check_period_data_missing data key;
  xs ← read_list data;
  if bool_decide (length_ ≠ Z.of_nat (length xs)) then
    new ← lift (map_result (fun i => last_ ← py_index xs (-1);
                                     v ← dict_getitem key last_;
                                     mret (dict_of_pairs [("position", VStr (py_str (i + 1)));
                                                          (key, v)]))
                  (py_range 0 (length_ - Z.of_nat (length xs))));
    list_extend data new;;
    mret data
  else mret data.

(** The list a computation returns, read from the store it leaves; the
    computation starts in the empty store. *)
Definition returned_list (m : M loc) : result (list record) :=
  let '(h, r) := m ∅ in
  l ← r; of_option SystemError (h !! l).

(** ** The reconciliation read off the store

    What [check_period_data_missing] leaves in the list it was given and
    whether it returns, as a function of the contents of that list. The
    statements about the store are proved against the definitions above;
    these functions only name their outcome. *)

(** The records appended by the loop over the positions [ps], and whether
    the loop ends normally. *)
Fixpoint fill_gaps (key : string) (complete_data : pydict Z pyval) (ps : list Z)
  : list (pydict string pyval) * result unit :=
  match ps with
  | [] => ([], Ok tt)
  | position :: ps' =>
      if dict_mem position complete_data then fill_gaps key complete_data ps'
      else
        let prev_position :=
          py_max_default 0 (filter (fun x => x < position) (dict_keys complete_data)) in
        match dict_getitem prev_position complete_data with
        | Raise e => ([], Raise e)
        | Ok v =>
            let '(filled, outcome) := fill_gaps key complete_data ps' in
            (dict_of_pairs [("position", VStr (py_str position)); (key, v)] :: filled,
             outcome)
        end
  end.

(** The list sorted by position; the keys are those of [position_of]. *)
Definition sorted_by_position (ks : list Z) (xs : list (pydict string pyval))
  : list (pydict string pyval) :=
  (stable_sort (zip ks xs)).*2.

Definition reconciled (xs : list (pydict string pyval)) (key : string)
  : list (pydict string pyval) * result unit :=
  match map_result position_of xs with
  | Raise e => (xs, Raise e)
  | Ok ks =>
      let sorted := sorted_by_position ks xs in
      match map_result (fun pos => p ← position_of pos;
                                   v ← dict_getitem key pos;
                                   mret (p, v)) sorted with
      | Raise e => (sorted, Raise e)
      | Ok pairs =>
          let complete_data := dict_of_pairs pairs in
          match py_max (dict_keys complete_data) with
          | Raise e => (sorted, Raise e)
          | Ok top =>
              let '(filled, outcome) :=
                fill_gaps key complete_data (py_range 1 (top + 1)) in
              match outcome with
              | Raise e => (sorted ++ filled, Raise e)
              | Ok _ =>
                  match map_result position_of (sorted ++ filled) with
                  | Raise e => (sorted ++ filled, Raise e)
                  | Ok ks' => (sorted_by_position ks' (sorted ++ filled), Ok tt)
                  end
              end
          end
      end
  end.

(** The list [get_Period_data] returns for the Point records [data]. *)
Definition padded (data : list (pydict string pyval)) (length_ : Z)
  : result (list (pydict string pyval)) :=
  key ← (first ← py_index data 0; py_index (dict_keys first) 1);
  _ ← (reconciled data key).2;
  let xs := (reconciled data key).1 in
  if bool_decide (length_ ≠ Z.of_nat (length xs)) then
    new ← map_result (fun i => last_ ← py_index xs (-1);
                               v ← dict_getitem key last_;
                               mret (dict_of_pairs [("position", VStr (py_str (i + 1)));
                                                    (key, v)]))
            (py_range 0 (length_ - Z.of_nat (length xs)));
    mret (xs ++ new)
  else mret xs.

(** The value of a result, [d] when it raised. *)
Definition result_default {A} (d : A) (r : result A) : A :=
  match r with
  | Ok a => a
  | Raise _ => d
  end.

(** The position of a record as a number ([0] when it has none). *)
Definition position (x : pydict string pyval) : Z := result_default 0 (position_of x).

(** The record of a Point: its position and one value field. *)
Definition record_of (position field value : string) : pydict string pyval :=
  [("position", VStr position); (field, VStr value)].

(** A record that [check_period_data_missing] can read: its position is
    an integer and it has the value field [key]. *)
Definition readable (key : string) (x : pydict string pyval) : Prop :=
  (exists p, position_of x = Ok p) /\ is_Some (dict_get key x).

(** The pair a record contributes to [complete_data]. *)
Definition position_value (key : string) (x : pydict string pyval) : Z * pyval :=
  (position x, default VNone (dict_get key x)).

(** ** Documents used in the statements *)

(** The codes of [resolution_map]. *)
Definition resolution_codes : list string :=
  ["P1Y"; "P1M"; "P7D"; "P1D"; "PT60M"; "PT30M"; "PT15M"; "PT1M"].


(** A Period with its time interval, its resolution and its Points. *)
Definition period_node (start end_ resolution : string) (points : list node) : node :=
  Node "Period" None
    (Node "timeInterval" None [Node "start" (Some start) []; Node "end" (Some end_) []]
     :: Node "resolution" (Some resolution) []
     :: points).

(** A Point with its position and one value field. *)
Definition point_node (position : string) (field value : string) : node :=
  Node "Point" None [Node "position" (Some position) []; Node field (Some value) []].

(** [str(element)] for a string data element: its text, or the empty
    string. *)
Definition text_or_empty (n : node) : string := default "" (node_text n).

(** An affected resource with its identifier and name. *)
Definition resource_node (mRID name : string) : node :=
  Node "Asset_RegisteredResource" None
    [Node "mRID" (Some mRID) []; Node "name" (Some name) []].

(** An outage document with the given affected resources and, in its
    available period, the given children (resolution and Points). *)
Definition outage_document (resources available : list node) : node :=
  Node "Unavailability_MarketDocument" None
    [ Node "createdDateTime" (Some "2023-01-01T00:00:00Z") [];
      Node "unavailability_Time_Period.timeInterval" None
        [Node "start" (Some "2023-01-01T00:00Z") [];
         Node "end" (Some "2023-01-01T02:00Z") []];
      Node "TimeSeries" None
        (Node "businessType" (Some "A53") []
         :: resources ++ [Node "Available_Period" None available]);
      Node "Reason" None [Node "code" (Some "B19") []] ].

(** The values of [key] in the entries that have it, in their order. *)
Definition field_values (key : string) (entries : list (pydict string pyval)) : list pyval :=
  omap (dict_get key) entries.


(** Two affected resources, R1 and R2, and two hourly Points. *)
Definition two_resources_document : node :=
  outage_document
    [resource_node "R1" "Unit A"; resource_node "R2" "Unit B"]
    [Node "resolution" (Some "PT60M") [];
     point_node "1" "quantity" "5"; point_node "2" "quantity" "7"].

(** No affected resource, no resolution and no Point. *)
Definition empty_outage_document : node := outage_document [] [].

(** ** The remaining parsers *)

(** [n.xpath("./*[not(self::t)]")]: the children not named [t]. *)
Definition xpath_not_child (t : string) (n : node) : list node :=
  filter (fun c => node_tag c ≠ t) (getchildren n).

(** [s.partition(sep)[2]]: what follows the first [sep], the empty string
    when [sep] does not occur. *)
Fixpoint after_first (sep : ascii) (s : string) : string :=
  match s with
  | EmptyString => EmptyString
  | String c s' => if Ascii.eqb c sep then s' else after_first sep s'
  end.

(** The [subnode_tag] argument of [decompose_node]: [None], a string or a
    list of strings. *)
Inductive subnode_tag : Type :=
| NoTag
| TagName (name : string)
| TagList (names : list string).

(** [not subnode_tag] *)
Definition falsy (t : subnode_tag) : bool :=
  match t with
  | NoTag => true
  | TagName s => bool_decide (s = "")
  | TagList l => bool_decide (l = [])
  end.

(** What [decompose_node] puts in its list: sub-nodes, or the one data
    mapping of the case without tag. *)
Inductive subtree : Type :=
| Subnode (n : node)
| Data (d : list (string * unfolded)).

(** [decompose_node] returns its pair or raises [NotImplementedError]; it
    has no other way to fail. *)
Inductive decomposed : Type :=
| Returned (metadata : list (string * unfolded)) (subtrees : list subtree)
| NotImplementedError.

Definition decompose_node (n : node) (t : subnode_tag) : decomposed :=
  if falsy t then
    let data_nodes := getchildren n in
    let data := [(after_first "}" (node_tag n),
                  UDict (dict_of_pairs (unfold_node <$> data_nodes)))] in
    Returned [] [Data data]
  else
    match t with
    | TagName name =>
        let subnodes := xpath_child name n in
        let metadata_nodes := xpath_not_child name n in
        let metadata := [(node_tag n,
                          UDict (dict_of_pairs (unfold_node <$> metadata_nodes)))] in
        Returned metadata (Subnode <$> subnodes)
    | _ => NotImplementedError
    end.

(** [for x in xs: acc = f(acc, x)] where [f] may raise. *)
Fixpoint fold_result {A B} (f : B -> A -> result B) (acc : B) (xs : list A) : result B :=
  match xs with
  | [] => Ok acc
  | x :: xs' => acc' ← f acc x; fold_result f acc' xs'
  end.

Definition direction_map : pydict string string :=
  [("A01", "up"); ("A02", "down"); ("A03", "up_and_down")].

(** [direction_map[d]] for the text [d] of a direction element. *)
Definition direction_lookup (d : pyval) : result string :=
  match d with
  | VStr s => dict_getitem s direction_map
  | _ => Raise KeyError
  end.

(** One turn of the loop over [Point.Financial_Price]. The assigned value
    [fp.amount.text] is evaluated before the key. *)
Definition add_Financial_Price (datum : pydict string pyval) (fp : node)
  : result (pydict string pyval) :=
  value ← node_text <$> getattr "amount" fp;
  direction ← node_text <$> getattr "direction" fp;
  name ← direction_lookup (of_text direction);
  amount ← getattr "amount" fp;
  mret (dict_set (node_tag fp +:+ "." +:+ name +:+ "." +:+ node_tag amount)
                 (of_text value) datum).

(** [Point.Financial_Price] is the first child of that name
    ([AttributeError] without one); iterating over it gives all the
    children of that name. *)
Definition get_Point_Financial_Price_data (Point : node) : result (pydict string pyval) :=
  position ← getattr "position" Point;
  let datum := [(node_tag position, of_text (node_text position))] in
  _ ← getattr "Financial_Price" Point;
  fold_result add_Financial_Price datum (xpath_child "Financial_Price" Point).

Definition get_Period_Financial_Price_data (Period : node)
  : result (list (pydict string pyval)) :=
  map_result get_Point_Financial_Price_data (xpath_child "Point" Period).

Section Period_to_DataFrame.
(** [pd.date_range] as before, and [pd.json_normalize(metadata).iloc[0]
    .to_dict()], which is pandas' own. *)
Variable date_range : pyval -> pyval -> string -> result (list timestamp).
Variable json_normalize : list (string * unfolded) -> pydict string pyval.

(** [Period_to_DataFrame_fn(get_Period_data)], applied to a Period. *)
Definition Period_to_DataFrame_fn (get_Period_data : node -> Z -> M nat) (Period : node)
  : result DataFrame :=
  index ← get_Period_index date_range Period;
  data ← returned_list (get_Period_data Period (Z.of_nat (length index)));
  if bool_decide (length data = length index) then
    let metadata_nodes := xpath_not_child "Point" Period in
    let metadata := [(node_tag Period,
                      UDict (dict_of_pairs (unfold_node <$> metadata_nodes)))] in
    mret (mkDataFrame index data (json_normalize metadata))
  else Raise AssertionError.

Definition StandardPeriodParser : node -> result DataFrame :=
  Period_to_DataFrame_fn get_Period_data.
End Period_to_DataFrame.

(** ** Reading a decomposition back *)

(** The node that decomposes into [(tag, u)]. *)
Fixpoint rebuild (tag : string) (u : unfolded) : node :=
  match u with
  | UText t => Node tag t []
  | UDict d =>
      Node tag None
        ((fix go (l : list (string * unfolded)) : list node :=
            match l with
            | [] => []
            | kv :: l' => rebuild kv.1 kv.2 :: go l'
            end) d)
  end.

(** A tree that [unfold_node] takes apart without loss: no node with
    children has a text, and the children of a node have distinct tags. *)
Fixpoint lossless (n : node) : Prop :=
  let 'Node _ text children := n in
  (children <> [] -> text = None) /\
  NoDup (node_tag <$> children) /\
  (fix go (l : list node) : Prop :=
     match l with
     | [] => True
     | c :: l' => lossless c /\ go l'
     end) children.

(** A Point with its position and the prices of the given (direction,
    amount) pairs. *)
Definition price_point (position : string) (prices : list (string * string)) : node :=
  Node "Point" None
    (Node "position" (Some position) []
     :: ((fun da : string * string =>
            Node "Financial_Price" None
              [Node "amount" (Some da.2) []; Node "direction" (Some da.1) []])
           <$> prices)).

(** The key and the value one [Financial_Price] adds to the row. *)
Definition price_entry (fp : node) : result (string * pyval) :=
  value ← node_text <$> getattr "amount" fp;
  direction ← node_text <$> getattr "direction" fp;
  name ← direction_lookup (of_text direction);
  amount ← getattr "amount" fp;
  mret (node_tag fp +:+ "." +:+ name +:+ "." +:+ node_tag amount, of_text value).

(** The columns a row of prices can have. *)
Definition price_columns : list string :=
  ["position"; "Financial_Price.up.amount"; "Financial_Price.down.amount";
   "Financial_Price.up_and_down.amount"].

(** * Properties *)

(** ** [int] reads back what [str] prints *)

Lemma uint_string_digits (d : Decimal.uint) :
  string_forall is_digit (NilEmpty.string_of_uint d) = true.
Proof. induction d; simpl; auto. Qed.

Lemma digit_not_space (c : ascii) : is_digit c = true -> is_space c = false.
Proof.
  unfold is_digit, is_space. generalize (nat_of_ascii c). intros n Hn.
  apply andb_true_iff in Hn as [H1 H2].
  apply Nat.leb_le in H1, H2.
  apply orb_false_iff; split; apply andb_false_iff.
  - right. apply Nat.leb_gt. lia.
  - right. apply Nat.leb_gt. lia.
Qed.

Lemma rstrip_no_space (s : string) :
  string_forall (fun c => negb (is_space c)) s = true -> rstrip s = s.
Proof.
  induction s as [|c s IH]; simpl; [done|].
  intros [Hc Hs]%andb_true_iff. rewrite (IH Hs).
  apply negb_true_iff in Hc. rewrite Hc. by destruct s.
Qed.

Lemma string_forall_impl (p q : ascii -> bool) (s : string) :
  (forall c, p c = true -> q c = true) ->
  string_forall p s = true -> string_forall q s = true.
Proof.
  intros Hpq. induction s as [|c s IH]; simpl; [done|].
  intros [Hc Hs]%andb_true_iff. rewrite (Hpq _ Hc), (IH Hs). done.
Qed.

Lemma strip_digits (s : string) :
  string_forall is_digit s = true -> strip s = s.
Proof.
  intros Hs. unfold strip.
  assert (lstrip s = s) as ->.
  { destruct s as [|c s]; simpl in *; [done|].
    apply andb_true_iff in Hs as [Hc _]. by rewrite (digit_not_space _ Hc). }
  apply rstrip_no_space. revert Hs. apply string_forall_impl.
  intros c Hc. by rewrite (digit_not_space _ Hc).
Qed.

Lemma ungroup_uint_string (d : Decimal.uint) (b : bool) :
  ungroup b (NilEmpty.string_of_uint d) =
  match d with
  | Decimal.Nil => if b then Some EmptyString else None
  | _ => Some (NilEmpty.string_of_uint d)
  end.
Proof.
  revert b. induction d; intros b; simpl; try done;
    rewrite (IHd true); by destruct d.
Qed.

Lemma ungroup_digits (d : Decimal.uint) (b : bool) :
  d <> Decimal.Nil ->
  ungroup b (NilEmpty.string_of_uint d) = Some (NilEmpty.string_of_uint d).
Proof. intros Hd. rewrite ungroup_uint_string. by destruct d. Qed.

Lemma digits_value_uint (d : Decimal.uint) :
  d <> Decimal.Nil ->
  digits_value (NilEmpty.string_of_uint d) = Some (Z.of_uint d).
Proof.
  intros Hd. unfold digits_value. rewrite (ungroup_digits _ _ Hd). simpl.
  by rewrite NilEmpty.usu.
Qed.

Lemma int_of_str_digits (d : Decimal.uint) :
  d <> Decimal.Nil ->
  int_of_str (NilEmpty.string_of_uint d) = Some (Z.of_uint d).
Proof.
  intros Hd. unfold int_of_str.
  rewrite (strip_digits _ (uint_string_digits d)).
  rewrite <- (digits_value_uint d Hd).
  destruct d; try done.
Qed.

Lemma int_of_str_minus_digits (d : Decimal.uint) :
  d <> Decimal.Nil ->
  int_of_str (String "-" (NilEmpty.string_of_uint d)) = Some (- Z.of_uint d).
Proof.
  intros Hd. unfold int_of_str, strip.
  change (lstrip (String "-" ?s)) with (String "-" s).
  rewrite rstrip_no_space.
  - by rewrite (digits_value_uint d Hd).
  - simpl. generalize (uint_string_digits d). apply string_forall_impl.
    intros c Hc. by rewrite (digit_not_space _ Hc).
Qed.

Lemma py_int_py_str (z : Z) : py_int (VStr (py_str z)) = Ok z.
Proof.
  unfold py_int, py_str. destruct z as [|p|p]; simpl.
  - done.
  - pose proof (Unsigned.to_uint_nonnil p) as Hp.
    replace (NilZero.string_of_uint (Pos.to_uint p))
      with (NilEmpty.string_of_uint (Pos.to_uint p)) by (by destruct (Pos.to_uint p)).
    rewrite (int_of_str_digits _ Hp). unfold Z.of_uint.
    by rewrite Unsigned.of_to.
  - pose proof (Unsigned.to_uint_nonnil p) as Hp.
    replace (NilZero.string_of_uint (Pos.to_uint p))
      with (NilEmpty.string_of_uint (Pos.to_uint p)) by (by destruct (Pos.to_uint p)).
    rewrite (int_of_str_minus_digits _ Hp). unfold Z.of_uint.
    by rewrite Unsigned.of_to.
Qed.

(** ** Dictionaries *)

Section DictFacts.
Context {K V : Type} `{EqDecision K}.
Implicit Types (d : pydict K V) (k : K) (v : V) (ps : list (K * V)).

Lemma dict_get_app k d1 d2 :
  dict_get k (d1 ++ d2) = from_option Some (dict_get k d2) (dict_get k d1).
Proof.
  induction d1 as [|[k' v'] d1 IH]; simpl; [done|]. by case_decide.
Qed.

Lemma dict_get_set k k' v d :
  dict_get k (dict_set k' v d) = if decide (k = k') then Some v else dict_get k d.
Proof.
  induction d as [|[k1 v1] d IH]; simpl; [done|].
  destruct (decide (k' = k1)) as [->|Hne]; simpl.
  - by destruct (decide (k = k1)).
  - rewrite IH. destruct (decide (k = k1)) as [->|?]; [|done].
    by rewrite decide_False.
Qed.

Lemma dict_get_Some_keys k d : is_Some (dict_get k d) <-> k ∈ dict_keys d.
Proof.
  unfold dict_keys. induction d as [|[k' v'] d IH]; simpl.
  - split; [by intros [? ?]|by intros ?%elem_of_nil].
  - rewrite elem_of_cons. destruct (decide (k = k')) as [->|Hne].
    + split; [by left|by eexists].
    + rewrite IH. split; [by right|by intros [?|?]].
Qed.

Lemma dict_get_None_keys k d : dict_get k d = None <-> k ∉ dict_keys d.
Proof. rewrite <- dict_get_Some_keys, eq_None_not_Some. done. Qed.

Lemma dict_mem_keys k d : dict_mem k d = true <-> k ∈ dict_keys d.
Proof.
  unfold dict_mem. rewrite <- dict_get_Some_keys.
  split; [apply bool_decide_eq_true_1 | apply bool_decide_eq_true_2].
Qed.

Lemma dict_keys_set_in k v d :
  k ∈ dict_keys d -> dict_keys (dict_set k v d) = dict_keys d.
Proof.
  unfold dict_keys. induction d as [|[k' v'] d IH]; intros Hin.
  - by apply elem_of_nil in Hin.
  - cbn [dict_set]. destruct (decide (k = k')) as [->|Hne]; [done|].
    rewrite !fmap_cons. f_equal. apply IH.
    rewrite fmap_cons in Hin. by apply elem_of_cons in Hin as [?|?].
Qed.

Lemma dict_keys_set_notin k v d :
  k ∉ dict_keys d -> dict_keys (dict_set k v d) = dict_keys d ++ [k].
Proof.
  unfold dict_keys. induction d as [|[k' v'] d IH]; intros Hnin; [done|].
  cbn [dict_set]. rewrite fmap_cons in Hnin. apply not_elem_of_cons in Hnin as [Hne Hnin].
  rewrite decide_False by done. rewrite !fmap_cons. cbn [fst].
  by rewrite (IH Hnin).
Qed.

Lemma dict_keys_set k v d :
  dict_keys (dict_set k v d) =
  if decide (k ∈ dict_keys d) then dict_keys d else dict_keys d ++ [k].
Proof.
  destruct (decide (k ∈ dict_keys d));
    [by apply dict_keys_set_in | by apply dict_keys_set_notin].
Qed.

Lemma dict_set_NoDup k v d : NoDup (dict_keys d) -> NoDup (dict_keys (dict_set k v d)).
Proof.
  intros Hd. rewrite dict_keys_set. case_decide; [done|].
  apply NoDup_app. split_and!; [done| |apply NoDup_singleton].
  intros x Hx ->%list_elem_of_singleton. done.
Qed.

(** The pairs written one after the other into [d]. *)
Lemma dict_get_fold_set k ps d :
  dict_get k (fold_left (fun d p => dict_set p.1 p.2 d) ps d) =
  from_option Some (dict_get k d) (dict_get k (reverse ps)).
Proof.
  revert d. induction ps as [|[k' v'] ps IH]; intros d; simpl; [done|].
  rewrite IH, reverse_cons, dict_get_app, dict_get_set. simpl.
  destruct (dict_get k (reverse ps)); simpl; [done|]. by case_decide.
Qed.

Lemma fold_set_NoDup ps d :
  NoDup (dict_keys d) ->
  NoDup (dict_keys (fold_left (fun d p => dict_set p.1 p.2 d) ps d)).
Proof.
  revert d. induction ps as [|p ps IH]; intros d Hd; simpl; [done|].
  by apply IH, dict_set_NoDup.
Qed.

Lemma dict_of_pairs_NoDup ps : NoDup (dict_keys (dict_of_pairs ps)).
Proof. apply fold_set_NoDup. constructor. Qed.

(** In [dict(pairs)] a key holds the value of its last pair. *)
Lemma dict_get_of_pairs k ps :
  dict_get k (dict_of_pairs ps) = dict_get k (reverse ps).
Proof.
  unfold dict_of_pairs. rewrite dict_get_fold_set. simpl.
  by destruct (dict_get k (reverse ps)).
Qed.

Lemma dict_keys_of_pairs k ps : k ∈ dict_keys (dict_of_pairs ps) <-> k ∈ ps.*1.
Proof.
  rewrite <- dict_get_Some_keys, dict_get_of_pairs, dict_get_Some_keys.
  unfold dict_keys. rewrite fmap_reverse, elem_of_reverse. done.
Qed.

Lemma dict_get_of_pairs_last k v ps1 ps2 :
  k ∉ ps2.*1 -> dict_get k (dict_of_pairs (ps1 ++ (k, v) :: ps2)) = Some v.
Proof.
  intros Hk. rewrite dict_get_of_pairs, reverse_app, reverse_cons, dict_get_app.
  rewrite dict_get_app.
  assert (dict_get k (reverse ps2) = None) as ->.
  { apply dict_get_None_keys. unfold dict_keys.
    by rewrite fmap_reverse, elem_of_reverse. }
  simpl. by rewrite decide_True.
Qed.

End DictFacts.

(** ** unfold_node *)

Lemma unfold_node_tag (n : node) : (unfold_node n).1 = node_tag n.
Proof. by destruct n as [t x [|c cs]]. Qed.

(** C7: a leaf decomposes into its tag and text; a node with children into
    its tag and a mapping whose keys are the distinct tags of the children,
    where each tag holds the decomposition of the last child that bears it. *)
Theorem unfold_node_spec (tag : string) (text : option string) (children : list node) :
  (children = [] -> unfold_node (Node tag text children) = (tag, UText text)) /\
  (children <> [] ->
   exists m,
     unfold_node (Node tag text children) = (tag, UDict m) /\
     NoDup (dict_keys m) /\
     (forall k, k ∈ dict_keys m <-> exists c, c ∈ children /\ node_tag c = k) /\
     (forall before c after,
         children = before ++ c :: after ->
         (forall c', c' ∈ after -> node_tag c' <> node_tag c) ->
         dict_get (node_tag c) m = Some (unfold_node c).2)).
Proof.
  split.
  - by intros ->.
  - intros Hne. exists (dict_of_pairs (unfold_node <$> children)).
    split_and!.
    + by destruct children.
    + apply dict_of_pairs_NoDup.
    + intros k. rewrite dict_keys_of_pairs, list_elem_of_fmap. split.
      * intros [[t u] [-> [c [Hc Hin]]%list_elem_of_fmap]].
        exists c. split; [done|]. by rewrite <- unfold_node_tag, <- Hc.
      * intros [c [Hin <-]]. exists (unfold_node c). split.
        -- by rewrite unfold_node_tag.
        -- apply list_elem_of_fmap. by exists c.
    + intros before c after -> Hlast.
      rewrite fmap_app, fmap_cons.
      rewrite (surjective_pairing (unfold_node c)), unfold_node_tag.
      apply dict_get_of_pairs_last.
      intros [[t u] [Ht [c' [Hc' Hin]]%list_elem_of_fmap]]%list_elem_of_fmap.
      apply (Hlast c' Hin). simpl in Ht. rewrite Ht.
      by rewrite <- unfold_node_tag, <- Hc'.
Qed.

Lemma unfold_node_spec_witness :
  exists m,
    unfold_node (Node "Point" None
                   [Node "position" (Some "1") [];
                    Node "quantity" (Some "5") [];
                    Node "quantity" (Some "7") []])
    = ("Point", UDict m) /\
    dict_get "quantity" m = Some (UText (Some "7")).
Proof.
  destruct (proj2 (unfold_node_spec "Point" None
                     [Node "position" (Some "1") [];
                      Node "quantity" (Some "5") [];
                      Node "quantity" (Some "7") []]))
    as [m [Hm [_ [_ Hlast]]]].
  - discriminate.
  - exists m. split; [exact Hm|].
    apply (Hlast [Node "position" (Some "1") []; Node "quantity" (Some "5") []]
                 (Node "quantity" (Some "7") []) [] eq_refl).
    intros c' Hc'. by apply elem_of_nil in Hc'.
Defined.

(** ** The time index *)


Lemma resolution_lookup_codes (code : string) :
  code ∈ resolution_codes <-> exists freq, resolution_lookup (VStr code) = Ok freq.
Proof.
  unfold resolution_codes, resolution_lookup, dict_getitem, resolution_map.
  split.
  - rewrite !elem_of_cons, elem_of_nil.
    intros [->|[->|[->|[->|[->|[->|[->|[->|[]]]]]]]]]; eexists; reflexivity.
  - intros [freq Hf]. cbn [dict_get] in Hf.
    repeat (case_decide; [subst; set_solver|]). done.
Qed.

Lemma resolution_lookup_unknown (r : option string) :
  (forall code, code ∈ resolution_codes -> r <> Some code) ->
  resolution_lookup (of_text r) = Raise KeyError.
Proof.
  intros Hr. destruct r as [s|]; [|done].
  cbn [of_text]. unfold resolution_lookup, dict_getitem.
  destruct (dict_get s resolution_map) as [freq|] eqn:Hg; [|done].
  destruct (Hr s); [|done]. apply resolution_lookup_codes. exists freq.
  unfold resolution_lookup, dict_getitem. by rewrite Hg.
Qed.


Lemma get_Period_index_fields date_range Period start end_ resolution :
  getattr "timeInterval" Period ≫= getattr "start" = Ok start ->
  getattr "timeInterval" Period ≫= getattr "end" = Ok end_ ->
  getattr "resolution" Period = Ok resolution ->
  get_Period_index date_range Period =
  (freq ← resolution_lookup (of_text (node_text resolution));
   index ← date_range (of_text (node_text start)) (of_text (node_text end_)) freq;
   mret (half_open index)).
Proof. intros Hs He Hr. unfold get_Period_index. by rewrite Hs, He, Hr. Qed.

Lemma not_resolution_code (s : string) :
  bool_decide (s ∈ resolution_codes) = false ->
  forall code, code ∈ resolution_codes -> Some s <> Some code.
Proof.
  intros Hs code Hin [= ->]. apply bool_decide_eq_false in Hs. by apply Hs.
Qed.

(** C9: every code of the enumeration is found in the resolution table,
    and the index builder raises the lookup failure ([KeyError]) for a
    Period whose resolution is any other text, whatever [date_range] is. *)
Theorem resolution_table_complete
    (date_range : pyval -> pyval -> string -> result (list timestamp)) :
  (forall code, code ∈ resolution_codes ->
     exists freq, dict_get code resolution_map = Some freq /\
                  resolution_lookup (VStr code) = Ok freq) /\
  (forall Period start end_ resolution,
     getattr "timeInterval" Period ≫= getattr "start" = Ok start ->
     getattr "timeInterval" Period ≫= getattr "end" = Ok end_ ->
     getattr "resolution" Period = Ok resolution ->
     (forall code, code ∈ resolution_codes -> node_text resolution <> Some code) ->
     get_Period_index date_range Period = Raise KeyError).
Proof.
  split.
  - intros code [freq Hf]%resolution_lookup_codes. exists freq. split; [|done].
    unfold resolution_lookup, dict_getitem in Hf.
    destruct (dict_get code resolution_map); simpl in Hf; congruence.
  - intros Period start end_ resolution Hs He Hr Hcode.
    rewrite (get_Period_index_fields _ _ _ _ _ Hs He Hr).
    by rewrite (resolution_lookup_unknown _ Hcode).
Qed.

Lemma resolution_table_complete_witness :
  get_Period_index pd_date_range
    (period_node "2023-01-01T00:00Z" "2023-01-01T02:00Z" "PT5M" []) = Raise KeyError.
Proof.
  apply (proj2 (resolution_table_complete pd_date_range)
           (period_node "2023-01-01T00:00Z" "2023-01-01T02:00Z" "PT5M" [])
           (Node "start" (Some "2023-01-01T00:00Z") [])
           (Node "end" (Some "2023-01-01T02:00Z") [])
           (Node "resolution" (Some "PT5M") [])).
  - reflexivity.
  - reflexivity.
  - reflexivity.
  - apply not_resolution_code. reflexivity.
Defined.

Lemma regular_range_single (t step : Z) : 0 < step -> regular_range t t step = [t].
Proof.
  intros Hstep. unfold regular_range.
  rewrite Z.leb_refl, Z.sub_diag, Z.div_0_l by lia.
  change (Z.to_nat (0 + 1)) with 1%nat. cbn. f_equal. lia.
Qed.









(** ** The affected resources of an outage document *)

Lemma setdefault_append_get key k v (acc : pydict string (list pyval)) :
  dict_get key (setdefault_append k v acc) =
  if decide (key = k) then Some (default [] (dict_get k acc) ++ [v]) else dict_get key acc.
Proof.
  unfold setdefault_append.
  destruct (dict_get k acc) as [values|] eqn:Hk; by rewrite dict_get_set.
Qed.

(** One entry poured into the accumulated lists. *)
Lemma collect_entry key (entry : pydict string pyval) (acc : pydict string (list pyval)) :
  NoDup (dict_keys entry) ->
  dict_get key (fold_left (fun result kv => setdefault_append kv.1 kv.2 result) entry acc) =
  match dict_get key entry with
  | Some v => Some (default [] (dict_get key acc) ++ [v])
  | None => dict_get key acc
  end.
Proof.
  revert acc. induction entry as [|[k v] entry IH]; intros acc Hnd; [done|].
  unfold dict_keys in Hnd. rewrite fmap_cons in Hnd.
  apply NoDup_cons in Hnd as [Hk Hnd]. cbn [fst] in Hk.
  cbn [fold_left dict_get fst snd]. rewrite (IH _ Hnd), setdefault_append_get.
  destruct (decide (key = k)) as [->|Hne].
  - apply dict_get_None_keys in Hk. by rewrite Hk.
  - done.
Qed.

Lemma collect_entries key (data : list (pydict string pyval))
    (acc : pydict string (list pyval)) :
  Forall (fun entry => NoDup (dict_keys entry)) data ->
  dict_get key
    (fold_left (fun result entry =>
                  fold_left (fun result kv => setdefault_append kv.1 kv.2 result)
                            entry result) data acc) =
  match dict_get key acc, field_values key data with
  | None, [] => None
  | o, vs => Some (default [] o ++ vs)
  end.
Proof.
  revert acc. induction data as [|entry data IH]; intros acc Hnd.
  - cbn. destruct (dict_get key acc); [|done]. by rewrite app_nil_r.
  - apply Forall_cons in Hnd as [Hentry Hnd].
    cbn [fold_left]. rewrite (IH _ Hnd), (collect_entry _ _ _ Hentry).
    unfold field_values. cbn [omap list_omap].
    destruct (dict_get key entry) as [v|]; [|done].
    cbn. rewrite <- app_assoc. cbn.
    by destruct (dict_get key acc), (omap (dict_get key) data).
Qed.



Lemma dict_get_elem_of {K V} `{EqDecision K} (k : K) (v : V) (d : pydict K V) :
  dict_get k d = Some v -> (k, v) ∈ d.
Proof.
  induction d as [|[k' v'] d IH]; [done|]. cbn.
  destruct (decide (k = k')) as [->|?].
  - intros [= ->]. by left.
  - intros Hd. right. by apply IH.
Qed.


Lemma children_dict_NoDup prefix n : NoDup (dict_keys (children_dict prefix n)).
Proof. apply dict_of_pairs_NoDup. Qed.

Lemma get_resource_entries (Period : node) :
  xpath_path ["TimeSeries"; "Asset_RegisteredResource"] Period <> [] ->
  get_resource Period =
  (result ← dict_map_result (fun values => VStr <$> join ", " values)
      (fold_left (fun result entry =>
                    fold_left (fun result kv => setdefault_append kv.1 kv.2 result)
                              entry result)
         (children_dict "Asset_RegisteredResource."
            <$> xpath_path ["TimeSeries"; "Asset_RegisteredResource"] Period) []);
   mret (Some result)).
Proof.
  intros Hne. unfold get_resource.
  destruct (xpath_path _ Period) as [|p points]; [done|].
  cbn [head]. by rewrite bool_decide_eq_false_2.
Qed.

Lemma collected_fields (entries : list (pydict string pyval)) (key : string) :
  Forall (fun entry => NoDup (dict_keys entry)) entries ->
  dict_get key
    (fold_left (fun result entry =>
                  fold_left (fun result kv => setdefault_append kv.1 kv.2 result)
                            entry result) entries []) =
  match field_values key entries with
  | [] => None
  | values => Some values
  end.
Proof.
  intros Hnd. rewrite (collect_entries key entries [] Hnd). cbn.
  by destruct (field_values key entries).
Qed.

Lemma dict_get_elem_of_NoDup {K V} `{EqDecision K} (k : K) (v : V) (d : pydict K V) :
  NoDup (dict_keys d) -> (k, v) ∈ d -> dict_get k d = Some v.
Proof.
  unfold dict_keys. induction d as [|[k' v'] d IH]; intros Hnd Hin.
  - by apply elem_of_nil in Hin.
  - rewrite fmap_cons in Hnd. apply NoDup_cons in Hnd as [Hk Hnd]. cbn.
    apply elem_of_cons in Hin as [[= -> ->]|Hin].
    + by rewrite decide_True.
    + destruct (decide (k = k')) as [->|?]; [|by apply IH].
      destruct Hk. apply list_elem_of_fmap. by exists (k', v).
Qed.

Lemma setdefault_append_NoDup k v (acc : pydict string (list pyval)) :
  NoDup (dict_keys acc) -> NoDup (dict_keys (setdefault_append k v acc)).
Proof.
  intros Hnd. unfold setdefault_append.
  destruct (dict_get k acc); by apply dict_set_NoDup.
Qed.

Lemma collected_NoDup (entries : list (pydict string pyval)) :
  NoDup (dict_keys
    (fold_left (fun result entry =>
                  fold_left (fun result kv => setdefault_append kv.1 kv.2 result)
                            entry result) entries [])).
Proof.
  generalize (NoDup_nil_2 (A:=string)).
  change (@nil string) with (dict_keys (@nil (string * list pyval))).
  generalize (@nil (string * list pyval)) as acc.
  induction entries as [|entry entries IH]; intros acc Hacc; [done|].
  cbn [fold_left]. apply IH. clear IH. revert acc Hacc.
  induction entry as [|[k v] entry IH]; intros acc Hacc; [done|].
  cbn [fold_left]. by apply IH, setdefault_append_NoDup.
Qed.




(** ** Documents without affected resources or without data points *)

Lemma get_resource_none (Period : node) :
  xpath_path ["TimeSeries"; "Asset_RegisteredResource"] Period = [] ->
  get_resource Period = Ok None.
Proof. intros Hnil. unfold get_resource. by rewrite Hnil. Qed.

Lemma py_index_elem_of {A} (xs : list A) (i : Z) (x : A) :
  py_index xs i = Ok x -> x ∈ xs.
Proof.
  unfold py_index. destruct (_ && _); [|done].
  destruct (xs !! _) as [y|] eqn:Hy; [|done]. intros [= <-].
  by eapply list_elem_of_lookup_2.
Qed.

Lemma dict_pop_keys {K V} `{EqDecision K} (k k' : K) (d : pydict K V) :
  k ∈ dict_keys (dict_pop k' d) -> k ∈ dict_keys d.
Proof.
  unfold dict_keys. induction d as [|[k1 v1] d IH]; [done|]. cbn [dict_pop].
  destruct (decide (k' = k1)) as [->|?].
  - intros Hin. rewrite fmap_cons. by right.
  - rewrite !fmap_cons. intros [->|Hin]%elem_of_cons; [by left|right; by apply IH].
Qed.

Lemma children_dict_keys prefix n key :
  key ∈ dict_keys (children_dict prefix n) -> exists t, key = prefix +:+ t.
Proof.
  unfold children_dict. rewrite dict_keys_of_pairs.
  intros [[k v] [-> [c [[= -> ->] _]]%list_elem_of_fmap]]%list_elem_of_fmap.
  by eexists.
Qed.

Lemma dict_merge_get_None {K V} `{EqDecision K} (k : K) (ds : list (pydict K V)) :
  Forall (fun d => k ∉ dict_keys d) ds -> dict_get k (dict_merge ds) = None.
Proof.
  intros Hds. apply dict_get_None_keys. unfold dict_merge.
  rewrite dict_keys_of_pairs. intros [[k' v] [-> Hin]]%list_elem_of_fmap.
  apply list_elem_of_In, in_concat in Hin as [d [Hd Hin]].
  rewrite Forall_forall in Hds. apply (Hds d); [by apply list_elem_of_In|].
  apply list_elem_of_fmap. exists (k', v). split; [done|]. by apply list_elem_of_In.
Qed.

Lemma get_infos_keys (Period : node) infos key :
  get_infos Period = Ok infos -> key ∈ dict_keys infos -> exists t, key = "TimeSeries." +:+ t.
Proof.
  unfold get_infos.
  destruct (py_index _ 0) as [data|] eqn:Hdata; [|done]. intros [= <-] Hkey.
  do 3 apply dict_pop_keys in Hkey.
  apply py_index_elem_of, list_elem_of_fmap in Hdata as [n [-> _]].
  by apply children_dict_keys in Hkey.
Qed.

Lemma get_reason_keys (Period : node) reason key :
  get_reason Period = Ok reason -> key ∈ dict_keys reason -> exists t, key = "Reason." +:+ t.
Proof.
  unfold get_reason.
  destruct (py_index _ 0) as [data|] eqn:Hdata; [|done].
  apply py_index_elem_of, list_elem_of_fmap in Hdata as [n [-> _]].
  assert (key ∈ dict_keys (dict_set "Reason.text" (VStr "") (children_dict "Reason." n)) ->
          exists t, key = "Reason." +:+ t) as Hset.
  { rewrite dict_keys_set. case_decide; [apply children_dict_keys|].
    intros [Hin| ->%list_elem_of_singleton]%elem_of_app;
      [by apply children_dict_keys in Hin | by exists "text"]. }
  cbn [mbind result_bind].
  destruct (dict_get "Reason.text" (children_dict "Reason." n)) as [t|].
  - case_decide; intros [= <-]; [done | apply children_dict_keys].
  - by intros [= <-].
Qed.

Lemma get_createdatetime_keys element_str (Period : node) created key :
  get_createdatetime element_str Period = Ok created ->
  key ∈ dict_keys created ->
  key ∈ ["CreatedDateTime"; "DocStatus"; "RevisionNumber"; "Resolution"].
Proof.
  unfold get_createdatetime.
  destruct (match _ with [r] => _ | _ => _ end) as [resolved|]; [|done].
  by intros [= <-].
Qed.

Lemma placeholder_key_prefix (key : string) :
  key ∈ dict_keys resource_placeholder ->
  (forall t, key <> "TimeSeries." +:+ t) /\
  (forall t, key <> "Reason." +:+ t) /\
  key ∉ ["CreatedDateTime"; "DocStatus"; "RevisionNumber"; "Resolution"].
Proof.
  unfold dict_keys, resource_placeholder. cbn [fmap list_fmap fst].
  rewrite !elem_of_cons, elem_of_nil.
  intros [->|[->|[->|[->|[]]]]];
    (split; [intros t; discriminate|]; split; [intros t; discriminate|]);
    intros [?|[?|[?|[?|[]]]]]; discriminate.
Qed.

(** C4, what the code does: without affected resources [get_resource]
    gives no mapping at all, and the metadata that [outage_dataframe] merges
    and assigns to the table has none of the four placeholder fields. The
    placeholder of [get_resource] is out of reach: a mapping is built only
    when [find] meets a resource, and then the list of entries is never
    empty. *)
Theorem outage_dataframe_without_resources
    (date_range : pyval -> pyval -> string -> result (list timestamp))
    (now_hour : timestamp) (element_str : node -> string) (Period : node) :
  xpath_path ["TimeSeries"; "Asset_RegisteredResource"] Period = [] ->
  get_resource Period = Ok None /\
  (forall df key,
      outage_dataframe date_range now_hour element_str Period = Ok df ->
      key ∈ dict_keys resource_placeholder ->
      dict_get key (df_assigned df) = None) /\
  (forall document,
      head (xpath_path ["TimeSeries"; "Asset_RegisteredResource"] document) <> None ->
      bool_decide
        (length (children_dict "Asset_RegisteredResource."
                   <$> xpath_path ["TimeSeries"; "Asset_RegisteredResource"] document)
         = 0%nat) = false).
Proof.
  intros Hnil. pose proof (get_resource_none _ Hnil) as Hres. split; [done|].
  split.
  2:{ intros document Hhead. apply bool_decide_eq_false_2.
      by destruct (xpath_path _ document). }
  intros df key Hdf Hkey. unfold outage_dataframe in Hdf. rewrite Hres in Hdf.
  destruct (get_data _ _ _) as [[index data]|]; [|done]. cbn in Hdf.
  destruct (bool_decide _); [|done]. cbn in Hdf.
  destruct (get_infos Period) as [infos|] eqn:Hinfos; [|done]. cbn in Hdf.
  destruct (get_reason Period) as [reason|] eqn:Hreason; [|done]. cbn in Hdf.
  destruct (get_createdatetime element_str Period) as [created|] eqn:Hcreated; [|done].
  injection Hdf as <-. cbn [df_assigned].
  destruct (placeholder_key_prefix _ Hkey) as [Hts [Hre Hcr]].
  change (dict_get key (dict_merge [infos; reason; created]) = None).
  apply dict_merge_get_None. repeat apply Forall_cons_2; [| | |by apply Forall_nil].
  - intros [t Ht]%(get_infos_keys _ _ _ Hinfos). by apply (Hts t).
  - intros [t Ht]%(get_reason_keys _ _ _ Hreason). by apply (Hre t).
  - intros Hin%(get_createdatetime_keys _ _ _ _ Hcreated). by apply Hcr.
Qed.

Lemma outage_dataframe_without_resources_witness :
  get_resource empty_outage_document = Ok None /\
  dict_get "Asset_RegisteredResource.mRID"
    [("TimeSeries.businessType", VStr "A53"); ("Reason.code", VStr "B19");
     ("Reason.text", VStr ""); ("CreatedDateTime", VStr "2023-01-01T00:00:00Z");
     ("DocStatus", VNone); ("RevisionNumber", VNone); ("Resolution", VNone)] = None.
Proof.
  destruct (outage_dataframe_without_resources pd_date_range 27875520 text_or_empty
              empty_outage_document eq_refl) as [Hres [Hdf _]].
  split; [exact Hres|].
  apply (Hdf (mkDataFrame [27875520]
                [[("position", VInt (-1)); ("quantity", VInt 0)]]
                [("TimeSeries.businessType", VStr "A53"); ("Reason.code", VStr "B19");
                 ("Reason.text", VStr ""); ("CreatedDateTime", VStr "2023-01-01T00:00:00Z");
                 ("DocStatus", VNone); ("RevisionNumber", VNone); ("Resolution", VNone)])).
  - reflexivity.
  - by left.
Defined.

(** C4 at a document without affected resources: the metadata assigned to
    its table has no [Asset_RegisteredResource.mRID], where the placeholder
    would have put the empty string. *)
Lemma zero_resources_no_placeholder :
  xpath_path ["TimeSeries"; "Asset_RegisteredResource"] empty_outage_document = [] /\
  exists df,
    outage_dataframe pd_date_range 27875520 text_or_empty empty_outage_document = Ok df /\
    dict_get "Asset_RegisteredResource.mRID" (df_assigned df) = None /\
    ~ (forall key value,
          (key, value) ∈ resource_placeholder ->
          dict_get key (df_assigned df) = Some (VStr "")).
Proof.
  split; [reflexivity|]. eexists. split; [reflexivity|]. split; [reflexivity|].
  intros Hall.
  specialize (Hall "Asset_RegisteredResource.mRID" (VStr "")). cbn in Hall.
  discriminate Hall. by left.
Qed.

(** C5, the part that holds: without data points [get_data] returns the
    index of [get_index] with the single sentinel row; when moreover no
    resolution is declared, the index is the clock's hour. *)
Theorem get_data_without_points
    (date_range : pyval -> pyval -> string -> result (list timestamp))
    (now_hour : timestamp) (Period : node) :
  xpath_path ["TimeSeries"; "Available_Period"; "Point"] Period = [] ->
  (forall index,
      get_index date_range now_hour Period = Ok index ->
      get_data date_range now_hour Period =
      Ok (index, [[("position", VInt (-1)); ("quantity", VInt 0)]])) /\
  (forall interval,
      py_index (children_dict "" <$>
                  xpath_child "unavailability_Time_Period.timeInterval" Period) 0
        = Ok interval ->
      is_Some (dict_get "start" interval) ->
      is_Some (dict_get "end" interval) ->
      xpath_path ["TimeSeries"; "Available_Period"; "resolution"] Period = [] ->
      get_data date_range now_hour Period =
      Ok ([now_hour], [[("position", VInt (-1)); ("quantity", VInt 0)]])).
Proof.
  intros Hnil.
  assert (forall index,
      get_index date_range now_hour Period = Ok index ->
      get_data date_range now_hour Period =
      Ok (index, [[("position", VInt (-1)); ("quantity", VInt 0)]])) as Hdata.
  { intros index Hindex. unfold get_data. by rewrite Hindex, Hnil. }
  split; [done|].
  intros interval Hint [start Hstart] [end_ Hend] Hres. apply Hdata.
  unfold get_index. rewrite Hint, Hres. cbn [mbind result_bind].
  unfold dict_getitem. by rewrite Hstart, Hend.
Qed.

(** The sentinel row is one row: when a resolution is declared and the
    interval spans more than one step, the index is longer and the
    assertion of [outage_dataframe] fails. *)
Lemma outage_dataframe_sentinel_against_index :
  get_data pd_date_range 27875520
    (outage_document [] [Node "resolution" (Some "PT60M") []])
  = Ok ([27875520; 27875580], [[("position", VInt (-1)); ("quantity", VInt 0)]]) /\
  outage_dataframe pd_date_range 27875520 text_or_empty
    (outage_document [] [Node "resolution" (Some "PT60M") []])
  = Raise AssertionError.
Proof. split; reflexivity. Qed.

Lemma get_data_without_points_witness :
  get_data pd_date_range 27875520 empty_outage_document =
  Ok ([27875520], [[("position", VInt (-1)); ("quantity", VInt 0)]]).
Proof.
  apply (proj2 (get_data_without_points pd_date_range 27875520 empty_outage_document
                  eq_refl)
           [("start", VStr "2023-01-01T00:00Z"); ("end", VStr "2023-01-01T02:00Z")]).
  - reflexivity.
  - by eexists.
  - by eexists.
  - reflexivity.
Defined.

(** ** The store *)

Lemma bind_run {A B} (m : M A) (f : A -> M B) (h : heap) :
  (m ≫= f) h =
  match m h with
  | (h', Ok a) => f a h'
  | (h', Raise e) => (h', Raise e)
  end.
Proof. reflexivity. Qed.

Lemma read_list_run (l : loc) (xs : list record) (h : heap) :
  h !! l = Some xs -> read_list l h = (h, Ok xs).
Proof. intros Hl. unfold read_list. by rewrite Hl. Qed.

Lemma list_append_run (l : loc) (x : record) (xs : list record) (h : heap) :
  h !! l = Some xs -> list_append l x h = (<[l := xs ++ [x]]> h, Ok tt).
Proof. intros Hl. unfold list_append. by rewrite bind_run, (read_list_run _ _ _ Hl). Qed.

Lemma list_extend_run (l : loc) (new xs : list record) (h : heap) :
  h !! l = Some xs -> list_extend l new h = (<[l := xs ++ new]> h, Ok tt).
Proof. intros Hl. unfold list_extend. by rewrite bind_run, (read_list_run _ _ _ Hl). Qed.

Lemma list_sort_run (l : loc) (xs : list record) (h : heap) :
  h !! l = Some xs ->
  list_sort l position_of h =
  match map_result position_of xs with
  | Ok ks => (<[l := sorted_by_position ks xs]> h, Ok tt)
  | Raise e => (h, Raise e)
  end.
Proof.
  intros Hl. unfold list_sort. rewrite bind_run, (read_list_run _ _ _ Hl), bind_run.
  unfold lift. by destruct (map_result position_of xs).
Qed.

Lemma fill_gaps_run (l : loc) (key : string) (complete_data : pydict Z pyval)
    (ps : list Z) (xs : list record) (h : heap) :
  h !! l = Some xs ->
  for_each ps (fun position =>
    if dict_mem position complete_data then mret tt
    else
      let prev_position :=
        py_max_default 0 (filter (fun x => x < position) (dict_keys complete_data)) in
      v ← lift (dict_getitem prev_position complete_data);
      list_append l (dict_of_pairs [("position", VStr (py_str position)); (key, v)])) h =
  (<[l := xs ++ (fill_gaps key complete_data ps).1]> h, (fill_gaps key complete_data ps).2).
Proof.
  revert xs h. induction ps as [|position ps IH]; intros xs h Hl.
  - cbn. by rewrite app_nil_r, insert_id.
  - cbn [for_each fill_gaps]. rewrite bind_run.
    destruct (dict_mem position complete_data).
    + cbn. by apply IH.
    + rewrite bind_run. unfold lift at 1.
      destruct (dict_getitem _ complete_data) as [v|e].
      * rewrite (list_append_run _ _ _ _ Hl).
        rewrite (IH (xs ++ [dict_of_pairs [("position", VStr (py_str position)); (key, v)]])
                    _ (lookup_insert_eq _ _ _)).
        rewrite insert_insert_eq, <- app_assoc.
        by destruct (fill_gaps key complete_data ps).
      * cbn. by rewrite app_nil_r, insert_id.
Qed.

(** [check_period_data_missing] works in the list it is given. *)
Lemma check_period_data_missing_run (l : loc) (key : string) (xs : list record) (h : heap) :
  h !! l = Some xs ->
  check_period_data_missing l key h =
  (<[l := (reconciled xs key).1]> h, (fun _ => l) <$> (reconciled xs key).2).
Proof.
  intros Hl. unfold check_period_data_missing, reconciled.
  rewrite bind_run, (list_sort_run _ _ _ Hl).
  destruct (map_result position_of xs) as [ks|e]; [|by rewrite insert_id].
  rewrite bind_run, (read_list_run _ (sorted_by_position ks xs)) by apply lookup_insert_eq.
  rewrite bind_run. unfold lift at 1.
  destruct (map_result _ (sorted_by_position ks xs)) as [pairs|e];
    [|done].
  cbn [fmap result_fmap]. rewrite bind_run. unfold lift at 1.
  destruct (py_max _) as [top|e]; [|done].
  rewrite bind_run.
  rewrite (fill_gaps_run l key _ _ (sorted_by_position ks xs)) by apply lookup_insert_eq.
  rewrite !insert_insert_eq.
  destruct (fill_gaps key (dict_of_pairs pairs) (py_range 1 (top + 1))) as [filled [[]|e]];
    [|done].
  cbn [fst snd]. rewrite bind_run.
  rewrite (list_sort_run l (sorted_by_position ks xs ++ filled)) by apply lookup_insert_eq.
  destruct (map_result position_of _) as [ks'|e]; [|done].
  cbn. by rewrite insert_insert_eq.
Qed.

Lemma get_Period_data_run (Period : node) (length_ : Z) (h : heap) :
  let l := fresh (dom h) in
  let data := children_dict "" <$> xpath_child "Point" Period in
  exists xs,
    get_Period_data Period length_ h = (<[l := xs]> h, (fun _ => l) <$> padded data length_) /\
    (forall ys, padded data length_ = Ok ys -> xs = ys).
Proof.
  intros l data. unfold get_Period_data, padded. fold data.
  rewrite bind_run. unfold new_list. fold l.
  rewrite bind_run, (read_list_run l data) by apply lookup_insert_eq.
  rewrite bind_run. unfold lift at 1.
  destruct (py_index data 0 ≫= _) as [key|e]; [|by exists data].
  cbn [mbind result_bind].
  rewrite bind_run, (check_period_data_missing_run l key data) by apply lookup_insert_eq.
  rewrite insert_insert_eq.
  destruct (reconciled data key) as [xs [[]|e]]; cbn [fst snd fmap result_fmap];
    [|by exists xs].
  rewrite bind_run, (read_list_run l xs) by apply lookup_insert_eq.
  destruct (bool_decide _).
  - rewrite bind_run. unfold lift at 1.
    destruct (map_result _ _) as [new|e]; [|by exists xs].
    rewrite bind_run, (list_extend_run l new xs) by apply lookup_insert_eq.
    rewrite insert_insert_eq. exists (xs ++ new). split; [done|]. by intros ys [= <-].
  - exists xs. split; [done|]. by intros ys [= <-].
Qed.

(** The list returned by [get_Period_data] is [padded] of the records of
    the Points. *)
Lemma get_Period_data_returned (Period : node) (length_ : Z) :
  returned_list (get_Period_data Period length_) =
  padded (children_dict "" <$> xpath_child "Point" Period) length_.
Proof.
  unfold returned_list.
  destruct (get_Period_data_run Period length_ ∅) as [xs [Hrun Hxs]].
  rewrite Hrun.
  destruct (padded _ length_) as [ys|e]; [|done].
  cbn. rewrite lookup_insert_eq. cbn. by rewrite (Hxs ys eq_refl).
Qed.

(** ** Comprehensions *)

Lemma map_result_Ok {A B} (f : A -> result B) (d : B) (xs : list A) (ys : list B) :
  map_result f xs = Ok ys ->
  ys = (fun x => result_default d (f x)) <$> xs /\ Forall (fun x => exists y, f x = Ok y) xs.
Proof.
  revert ys. induction xs as [|x xs IH]; intros ys Hys.
  - injection Hys as <-. by split.
  - cbn in Hys. destruct (f x) as [y|] eqn:Hy; [|done]. cbn in Hys.
    destruct (map_result f xs) as [ys'|]; [|done]. injection Hys as <-.
    destruct (IH ys' eq_refl) as [-> Hall]. split.
    + cbn. by rewrite Hy.
    + apply Forall_cons. split; [by exists y|done].
Qed.

Lemma map_result_total {A B} (f : A -> result B) (d : B) (xs : list A) :
  Forall (fun x => exists y, f x = Ok y) xs ->
  map_result f xs = Ok ((fun x => result_default d (f x)) <$> xs).
Proof.
  induction 1 as [|x xs [y Hy] _ IH]; [done|].
  cbn. by rewrite Hy, IH.
Qed.

Lemma map_result_length {A B} (f : A -> result B) (xs : list A) (ys : list B) :
  map_result f xs = Ok ys -> length ys = length xs.
Proof.
  revert ys. induction xs as [|x xs IH]; intros ys Hys.
  - by injection Hys as <-.
  - cbn in Hys. destruct (f x); [|done]. cbn in Hys.
    destruct (map_result f xs) as [ys'|]; [|done]. injection Hys as <-.
    cbn. by rewrite (IH ys' eq_refl).
Qed.

(** ** The stable sort *)

Lemma insert_by_key_Permutation {A} (kx : Z * A) (l : list (Z * A)) :
  insert_by_key kx l ≡ₚ kx :: l.
Proof.
  induction l as [|ky l IH]; [done|]. cbn.
  destruct (kx.1 <=? ky.1); [done|]. by rewrite IH, Permutation_swap.
Qed.

Lemma stable_sort_Permutation {A} (l : list (Z * A)) : stable_sort l ≡ₚ l.
Proof.
  induction l as [|kx l IH]; [done|].
  unfold stable_sort in *. cbn [foldr]. by rewrite insert_by_key_Permutation, IH.
Qed.

Lemma stable_sort_sorted {A} (l : list (Z * A)) :
  Sorted (fun a b => a.1 <= b.1) l -> stable_sort l = l.
Proof.
  induction 1 as [|kx l Hl IH Hhd]; [done|].
  unfold stable_sort in *. cbn [foldr]. rewrite IH.
  destruct Hhd as [|ky l' Hle]; [done|].
  cbn. by rewrite (proj2 (Z.leb_le _ _) Hle).
Qed.

Lemma zip_Sorted {A} (ks : list Z) (xs : list A) :
  Sorted Z.le ks -> Sorted (fun a b : Z * A => a.1 <= b.1) (zip ks xs).
Proof.
  intros Hks. revert xs. induction Hks as [|k ks Hks IH Hhd]; intros xs; [constructor|].
  destruct xs as [|x xs]; [constructor|]. cbn. constructor; [apply IH|].
  destruct Hhd as [|k' ks' Hle]; [constructor|].
  destruct xs as [|x' xs]; constructor. done.
Qed.

Lemma seqZ_Sorted (m n : Z) : Sorted Z.le (seqZ m n).
Proof.
  destruct (decide (n <= 0)) as [Hn|Hn]; [rewrite seqZ_nil by done; constructor|].
  rewrite <- (Z2Nat.id n) by lia. generalize (Z.to_nat n) as k. clear. intros k.
  revert m. induction k as [|k IH]; intros m; [constructor|].
  rewrite seqZ_cons by lia. replace (Z.pred (Z.of_nat (S k))) with (Z.of_nat k) by lia.
  constructor; [apply IH|].
  destruct k as [|k]; [constructor|]. rewrite seqZ_cons by lia. constructor. lia.
Qed.

Lemma sorted_by_position_Permutation (ks : list Z) (xs : list record) :
  length ks = length xs -> sorted_by_position ks xs ≡ₚ xs.
Proof.
  intros Hlen. unfold sorted_by_position.
  rewrite stable_sort_Permutation. rewrite snd_zip by lia. done.
Qed.

Lemma sorted_by_position_sorted (ks : list Z) (xs : list record) :
  length ks = length xs -> Sorted Z.le ks -> sorted_by_position ks xs = xs.
Proof.
  intros Hlen Hks. unfold sorted_by_position.
  rewrite stable_sort_sorted by by apply zip_Sorted. apply snd_zip. lia.
Qed.

(** The sorted list is sorted by position, and records of one position
    keep their order. *)
Lemma insert_by_key_Sorted {A} (kx : Z * A) (l : list (Z * A)) :
  Sorted (fun a b => a.1 <= b.1) l -> Sorted (fun a b => a.1 <= b.1) (insert_by_key kx l).
Proof.
  induction 1 as [|ky l Hl IH Hhd]; [by repeat constructor|].
  cbn. destruct (kx.1 <=? ky.1) eqn:Hle.
  - apply Z.leb_le in Hle. by repeat constructor.
  - apply Z.leb_gt in Hle. constructor; [done|].
    destruct Hhd as [|kz l' Hz]; cbn.
    + constructor. lia.
    + destruct (kx.1 <=? kz.1); constructor; lia.
Qed.

Lemma stable_sort_Sorted {A} (l : list (Z * A)) :
  Sorted (fun a b => a.1 <= b.1) (stable_sort l).
Proof.
  induction l as [|kx l IH]; [constructor|].
  unfold stable_sort in *. cbn [foldr]. by apply insert_by_key_Sorted.
Qed.

(** ** Maxima *)

Lemma foldl_max_spec (k : Z) (keys : list Z) :
  foldl Z.max k keys ∈ k :: keys /\ Forall (fun x => x <= foldl Z.max k keys) (k :: keys).
Proof.
  revert k. induction keys as [|k' keys IH]; intros k.
  - cbn. split; [by left|]. by repeat constructor.
  - cbn [foldl]. destruct (IH (Z.max k k')) as [Hin Hall].
    apply Forall_cons in Hall as [Hmax Hall]. split.
    + apply elem_of_cons in Hin as [Heq|Hin]; [|by do 2 right].
      rewrite Heq. destruct (Z.max_spec k k') as [[_ ->]|[_ ->]];
        [right; by left | by left].
    + repeat apply Forall_cons_2; [lia|lia|done].
Qed.

Lemma py_max_spec (keys : list Z) (top : Z) :
  py_max keys = Ok top -> top ∈ keys /\ Forall (fun x => x <= top) keys.
Proof.
  destruct keys as [|k keys]; [done|]. intros [= <-]. apply foldl_max_spec.
Qed.

Lemma py_max_nonempty (keys : list Z) : keys <> [] -> exists top, py_max keys = Ok top.
Proof. destruct keys; [done|]. by eexists. Qed.

Lemma py_max_default_elem_of (d : Z) (keys : list Z) :
  keys <> [] -> py_max_default d keys ∈ keys.
Proof. destruct keys as [|k keys]; [done|]. intros _. apply foldl_max_spec. Qed.

(** ** Reconciliation in place *)

Lemma reconciled_submseteq (xs : list record) (key : string) :
  xs ⊆+ (reconciled xs key).1.
Proof.
  unfold reconciled.
  destruct (map_result position_of xs) as [ks|e] eqn:Hks; [|done].
  pose proof (sorted_by_position_Permutation ks xs (map_result_length _ _ _ Hks)) as Hperm.
  assert (xs ⊆+ sorted_by_position ks xs) as Hsub
    by (apply Permutation_submseteq; by symmetry).
  destruct (map_result _ (sorted_by_position ks xs)) as [pairs|e]; [|done].
  destruct (py_max _) as [top|e]; [|done].
  destruct (fill_gaps _ _ _) as [filled [[]|e]]; [|by apply submseteq_inserts_r].
  destruct (map_result position_of (sorted_by_position ks xs ++ filled)) as [ks'|e] eqn:Hks';
    [|by apply submseteq_inserts_r].
  cbn [fst]. etrans; [by apply (submseteq_inserts_r filled)|].
  apply Permutation_submseteq. symmetry.
  apply sorted_by_position_Permutation. by apply map_result_length in Hks'.
Qed.

Lemma zip_decorate {A} (f : A -> Z) (xs : list A) :
  zip (f <$> xs) xs = (fun x => (f x, x)) <$> xs.
Proof. induction xs as [|x xs IH]; [done|]. cbn. by rewrite IH. Qed.

(** After the sort the positions are in ascending order. *)
Lemma sorted_by_position_Sorted (xs : list record) :
  Sorted Z.le (position <$> sorted_by_position (position <$> xs) xs).
Proof.
  unfold sorted_by_position.
  assert (Forall (fun kx : Z * record => kx.1 = position kx.2)
            (stable_sort (zip (position <$> xs) xs))) as Hall.
  { rewrite stable_sort_Permutation, zip_decorate. by apply Forall_fmap, Forall_forall. }
  pose proof (stable_sort_Sorted (zip (position <$> xs) xs)) as Hsorted.
  revert Hall Hsorted. generalize (stable_sort (zip (position <$> xs) xs)). intros l.
  induction l as [|[k x] l IH]; intros Hall Hsorted; [constructor|].
  apply Forall_cons in Hall as [Hk Hall]. apply Sorted_inv in Hsorted as [Hsorted Hhd].
  cbn. constructor; [by apply IH|].
  destruct l as [|[k' x'] l]; [constructor|]. cbn. constructor.
  apply Forall_cons in Hall as [Hk' _]. apply HdRel_inv in Hhd. cbn in *. lia.
Qed.






(** ** The padding *)

(** C1: for positions 1 and 3 and a required length of 4 the values are
    a, a, c, c; the record added for the missing tail is numbered 1, not 4:
    the numbering of the padding starts again at 1. *)
Theorem padding_restarts_at_position_1 :
  returned_list
    (get_Period_data
       (period_node "2023-01-01T00:00Z" "2023-01-01T04:00Z" "PT60M"
          [point_node "1" "quantity" "a"; point_node "3" "quantity" "c"]) 4)
  = Ok [record_of "1" "quantity" "a"; record_of "2" "quantity" "a";
        record_of "3" "quantity" "c"; record_of "1" "quantity" "c"].
Proof. rewrite get_Period_data_returned. reflexivity. Qed.

(** C5 as stated fails: a Period without Points makes [get_Period_data]
    raise. *)
Lemma get_Period_data_without_points_raises :
  xpath_child "Point"
    (period_node "2023-01-01T00:00Z" "2023-01-01T02:00Z" "PT60M" []) = [] /\
  returned_list
    (get_Period_data
       (period_node "2023-01-01T00:00Z" "2023-01-01T02:00Z" "PT60M" []) 2)
  = Raise IndexError.
Proof. split; [reflexivity|]. rewrite get_Period_data_returned. reflexivity. Qed.

(** ** Records that can be read *)

Lemma position_of_position (x : record) (p : Z) : position_of x = Ok p -> position x = p.
Proof. intros Hp. unfold position. by rewrite Hp. Qed.

Lemma positions_readable (key : string) (xs : list record) :
  Forall (readable key) xs -> map_result position_of xs = Ok (position <$> xs).
Proof.
  intros Hxs. apply (map_result_total position_of 0).
  eapply Forall_impl; [exact Hxs|]. by intros x [Hp _].
Qed.

Lemma complete_pairs (key : string) (xs : list record) :
  Forall (readable key) xs ->
  map_result (fun pos => p ← position_of pos;
                         v ← dict_getitem key pos;
                         mret (p, v)) xs = Ok (position_value key <$> xs).
Proof.
  induction 1 as [|x xs [[p Hp] [v Hv]] _ IH]; [done|].
  cbn. rewrite IH. unfold position_value, position, dict_getitem. by rewrite Hp, Hv.
Qed.

Lemma complete_data_keys (key : string) (xs : list record) (k : Z) :
  k ∈ dict_keys (dict_of_pairs (position_value key <$> xs)) <-> k ∈ position <$> xs.
Proof.
  rewrite dict_keys_of_pairs, <- list_fmap_compose. done.
Qed.

Lemma dict_of_pairs_subseteq {K V} `{EqDecision K} (ps : list (K * V)) (kv : K * V) :
  kv ∈ dict_of_pairs ps -> kv ∈ ps.
Proof.
  destruct kv as [k v]. intros Hin.
  apply dict_get_elem_of_NoDup in Hin; [|apply dict_of_pairs_NoDup].
  rewrite dict_get_of_pairs in Hin. apply dict_get_elem_of in Hin.
  exact (proj1 (elem_of_reverse (k, v) ps) Hin).
Qed.

Lemma py_index_nonneg {A} (xs : list A) (i : nat) (x : A) :
  xs !! i = Some x -> py_index xs (Z.of_nat i) = Ok x.
Proof.
  intros Hx. pose proof (lookup_lt_Some _ _ _ Hx) as Hlt. unfold py_index.
  destruct (Z.of_nat i <? 0) eqn:Hneg; [apply Z.ltb_lt in Hneg; lia|].
  rewrite (proj2 (Z.leb_le _ _)) by lia. rewrite (proj2 (Z.ltb_lt _ _)) by lia.
  cbn. by rewrite Nat2Z.id, Hx.
Qed.

Lemma second_field (data : list record) (first : record) (key : string) :
  head data = Some first -> dict_keys first !! 1%nat = Some key ->
  (first ← py_index data 0; py_index (dict_keys first) 1) = Ok key.
Proof.
  intros Hfirst Hkey. rewrite head_lookup in Hfirst.
  change (py_index data 0) with (py_index data (Z.of_nat 0)).
  rewrite (py_index_nonneg data 0 first Hfirst). cbn [mbind result_bind].
  exact (py_index_nonneg (dict_keys first) 1 key Hkey).
Qed.

Lemma py_index_last {A} (xs : list A) :
  xs <> [] -> exists x, py_index xs (-1) = Ok x /\ x ∈ xs.
Proof.
  intros Hne. apply last_is_Some in Hne as [x Hx]. exists x.
  rewrite last_lookup in Hx. pose proof (lookup_lt_Some _ _ _ Hx) as Hlt.
  split; [|by eapply list_elem_of_lookup_2].
  unfold py_index. change (-1 <? 0) with true. cbv iota.
  rewrite (proj2 (Z.leb_le _ _)) by lia. rewrite (proj2 (Z.ltb_lt _ _)) by lia.
  cbn. replace (Z.to_nat (-1 + Z.of_nat (length xs))) with (pred (length xs)) by lia.
  by rewrite Hx.
Qed.

(** ** Dense input *)

Lemma fill_gaps_no_gap (key : string) (complete_data : pydict Z pyval) (ps : list Z) :
  Forall (fun p => p ∈ dict_keys complete_data) ps ->
  fill_gaps key complete_data ps = ([], Ok tt).
Proof.
  induction 1 as [|p ps Hp _ IH]; [done|].
  cbn. by rewrite (proj2 (dict_mem_keys _ _) Hp).
Qed.

Lemma reconciled_dense (data : list record) (key : string) :
  data <> [] ->
  map_result position_of data = Ok (seqZ 1 (Z.of_nat (length data))) ->
  Forall (fun x => is_Some (dict_get key x)) data ->
  reconciled data key = (data, Ok tt).
Proof.
  intros Hne Hpos Hkey.
  pose proof (map_result_Ok _ 0 _ _ Hpos) as [Hseq Hparse].
  change (fun x => result_default 0 (position_of x)) with position in Hseq.
  assert (Forall (readable key) data) as Hread.
  { apply Forall_forall. intros x Hx. rewrite Forall_forall in Hparse, Hkey.
    split; [by apply Hparse | by apply Hkey]. }
  assert (sorted_by_position (seqZ 1 (Z.of_nat (length data))) data = data) as Hsorted.
  { apply sorted_by_position_sorted; [|apply seqZ_Sorted].
    rewrite length_seqZ. lia. }
  unfold reconciled. rewrite Hpos, Hsorted, (complete_pairs _ _ Hread).
  assert (forall k, k ∈ dict_keys (dict_of_pairs (position_value key <$> data))
                    <-> 1 <= k <= Z.of_nat (length data)) as Hkeys.
  { intros k. rewrite complete_data_keys, <- Hseq, elem_of_seqZ. lia. }
  assert (0 < Z.of_nat (length data)) as Hlen by (destruct data; [done|cbn; lia]).
  destruct (py_max_nonempty (dict_keys (dict_of_pairs (position_value key <$> data))))
    as [top Htop].
  { intros Hnil. assert (1 ∈ @nil Z) as Hin; [|by apply elem_of_nil in Hin].
    rewrite <- Hnil. apply Hkeys. lia. }
  rewrite Htop. apply py_max_spec in Htop as [Hin Hall].
  assert (top = Z.of_nat (length data)) as ->.
  { apply Hkeys in Hin. rewrite Forall_forall in Hall.
    assert (Z.of_nat (length data) <= top) by (apply Hall, Hkeys; lia). lia. }
  rewrite fill_gaps_no_gap.
  - by rewrite app_nil_r, Hpos, Hsorted.
  - unfold py_range. apply Forall_forall. intros p Hp%elem_of_seqZ. apply Hkeys. lia.
Qed.

(** C8: when the Points are numbered 1..N in this order and each has the
    value field, the reconciliation for the length N returns their records
    as they are, and [check_period_data_missing] leaves the list and the
    store as they were. *)
Theorem reconciliation_idempotent_on_dense_input (data : list record) (key : string) :
  data <> [] ->
  map_result position_of data = Ok (seqZ 1 (Z.of_nat (length data))) ->
  Forall (fun x => is_Some (dict_get key x)) data ->
  (forall (h : heap) (l : loc),
      h !! l = Some data -> check_period_data_missing l key h = (h, Ok l)) /\
  (forall Period first,
      children_dict "" <$> xpath_child "Point" Period = data ->
      head data = Some first ->
      dict_keys first !! 1%nat = Some key ->
      returned_list (get_Period_data Period (Z.of_nat (length data))) = Ok data).
Proof.
  intros Hne Hpos Hkey. pose proof (reconciled_dense _ _ Hne Hpos Hkey) as Hrec. split.
  - intros h l Hl. rewrite (check_period_data_missing_run _ _ _ _ Hl), Hrec.
    cbn. by rewrite insert_id.
  - intros Period first Hdata Hfirst Hsecond.
    rewrite get_Period_data_returned, Hdata. unfold padded.
    rewrite (second_field _ _ _ Hfirst Hsecond).
    cbn [mbind result_bind]. rewrite Hrec. cbn [fst snd mbind result_bind].
    by rewrite bool_decide_eq_false_2 by (intros Hlen; by apply Hlen).
Qed.

Lemma reconciliation_idempotent_on_dense_input_witness :
  returned_list
    (get_Period_data
       (period_node "2023-01-01T00:00Z" "2023-01-01T03:00Z" "PT60M"
          [point_node "1" "quantity" "a"; point_node "2" "quantity" "b";
           point_node "3" "quantity" "c"]) 3)
  = Ok [record_of "1" "quantity" "a"; record_of "2" "quantity" "b";
        record_of "3" "quantity" "c"].
Proof.
  apply (proj2 (reconciliation_idempotent_on_dense_input
                  [record_of "1" "quantity" "a"; record_of "2" "quantity" "b";
                   record_of "3" "quantity" "c"] "quantity"
                  ltac:(discriminate) eq_refl
                  ltac:(repeat constructor; by eexists))
           (period_node "2023-01-01T00:00Z" "2023-01-01T03:00Z" "PT60M"
              [point_node "1" "quantity" "a"; point_node "2" "quantity" "b";
               point_node "3" "quantity" "c"])
           (record_of "1" "quantity" "a"));
    reflexivity.
Defined.

(** ** Sparse input *)

Lemma fill_gaps_total (key : string) (complete_data : pydict Z pyval) (ps : list Z) :
  1 ∈ dict_keys complete_data ->
  Forall (fun p => 1 <= p) ps ->
  exists filled,
    fill_gaps key complete_data ps = (filled, Ok tt) /\
    length filled = length (filter (fun p => p ∉ dict_keys complete_data) ps) /\
    Forall (fun r => exists p k v,
                r = dict_of_pairs [("position", VStr (py_str p)); (key, v)] /\
                (k, v) ∈ complete_data) filled.
Proof.
  intros Hone. induction 1 as [|p ps Hp _ [filled [Hfill [Hlen Hall]]]].
  - exists []. by split_and!.
  - cbn [fill_gaps]. rewrite filter_cons.
    destruct (decide (p ∈ dict_keys complete_data)) as [Hin|Hnin].
    + rewrite (proj2 (dict_mem_keys _ _) Hin). exists filled.
      rewrite decide_False by tauto. by split_and!.
    + destruct (dict_mem p complete_data) eqn:Hmem;
        [by apply dict_mem_keys in Hmem|].
      rewrite decide_True by done.
      assert (filter (fun x => x < p) (dict_keys complete_data) <> []) as Hne.
      { intros Hnil. assert (1 ∈ @nil Z) as Hin; [|by apply elem_of_nil in Hin].
        rewrite <- Hnil. apply list_elem_of_filter. split; [|done].
        assert (p <> 1) by (by intros ->). lia. }
      apply (py_max_default_elem_of 0) in Hne.
      apply list_elem_of_filter in Hne as [_ Hprev].
      apply dict_get_Some_keys in Hprev as [v Hv].
      unfold dict_getitem. rewrite Hv, Hfill. cbn.
      eexists. split_and!; [done|cbn; by rewrite Hlen|].
      apply Forall_cons. split; [|done]. eexists p, _, v. split; [done|].
      by apply dict_get_elem_of.
Qed.

Lemma gap_record_readable (key : string) (xs : list record) (p k : Z) (v : pyval) :
  Forall (readable key) xs ->
  (k, v) ∈ dict_of_pairs (position_value key <$> xs) ->
  readable key (dict_of_pairs [("position", VStr (py_str p)); (key, v)]).
Proof.
  intros Hxs Hkv. split.
  - unfold position_of, dict_getitem.
    destruct (decide (key = "position")) as [->|Hne].
    + rewrite (dict_get_of_pairs_last "position" v [("position", VStr (py_str p))] [])
        by apply not_elem_of_nil.
      cbn [of_option mbind result_bind].
      apply dict_of_pairs_subseteq, list_elem_of_fmap in Hkv as [x [[= -> ->] Hx]].
      rewrite Forall_forall in Hxs. destruct (Hxs x Hx) as [[q Hq] [w Hw]].
      unfold position_of, dict_getitem in Hq. rewrite Hw in *. by exists q.
    + exists p. cbn. rewrite decide_False by done. cbn.
      rewrite decide_True by done. cbn. apply py_int_py_str.
  - rewrite (dict_get_of_pairs_last key v [("position", VStr (py_str p))] [])
      by apply not_elem_of_nil.
    by eexists.
Qed.

Lemma count_gaps (keys : list Z) (top : Z) :
  NoDup keys ->
  Forall (fun k => 1 <= k <= top) keys ->
  (length (filter (fun p => p ∉ keys) (seqZ 1 top)) + length keys)%nat = Z.to_nat top.
Proof.
  intros Hnd Hall.
  pose proof (filter_app_complement (fun p => p ∈ keys) (seqZ 1 top)) as Hperm.
  apply Permutation_length in Hperm. rewrite List.length_app, length_seqZ in Hperm.
  assert (filter (fun p => p ∈ keys) (seqZ 1 top) ≡ₚ keys) as Hkeys.
  { apply NoDup_Permutation; [apply NoDup_filter, NoDup_seqZ|done|].
    intros k. rewrite list_elem_of_filter, elem_of_seqZ. split; [by intros [? _]|].
    intros Hk. split; [done|]. rewrite Forall_forall in Hall. specialize (Hall k Hk). lia. }
  apply Permutation_length in Hkeys. lia.
Qed.

Lemma reconciled_sparse (data : list record) (key : string) :
  Forall (readable key) data ->
  NoDup (position <$> data) ->
  1 ∈ position <$> data ->
  Forall (fun p => 1 <= p) (position <$> data) ->
  exists ys top,
    reconciled data key = (ys, Ok tt) /\
    Forall (readable key) ys /\
    length ys = Z.to_nat top /\
    top ∈ position <$> data.
Proof.
  intros Hread Hnd Hone Hpos.
  unfold reconciled. rewrite (positions_readable key data Hread).
  pose proof (sorted_by_position_Permutation (position <$> data) data
                (length_fmap _ _)) as Hperm.
  set (sorted := sorted_by_position (position <$> data) data) in *.
  assert (Forall (readable key) sorted) as Hsorted.
  { apply Forall_forall. intros x Hx. rewrite Hperm in Hx.
    rewrite Forall_forall in Hread. by apply Hread. }
  rewrite (complete_pairs key sorted Hsorted).
  set (complete_data := dict_of_pairs (position_value key <$> sorted)).
  assert (forall k, k ∈ dict_keys complete_data <-> k ∈ position <$> data) as Hkeys.
  { intros k. unfold complete_data. rewrite complete_data_keys. by rewrite Hperm. }
  assert (dict_keys complete_data ≡ₚ position <$> data) as Hkperm.
  { apply NoDup_Permutation; [apply dict_of_pairs_NoDup|done|done]. }
  destruct (py_max_nonempty (dict_keys complete_data)) as [top Htop].
  { intros Hnil. apply Hkeys in Hone. rewrite Hnil in Hone. by apply elem_of_nil in Hone. }
  rewrite Htop. apply py_max_spec in Htop as [Hin Hmax].
  destruct (fill_gaps_total key complete_data (py_range 1 (top + 1)))
    as [filled [Hfill [Hlen Hfilled]]].
  { by apply Hkeys. }
  { apply Forall_forall. intros p Hp%elem_of_seqZ. lia. }
  rewrite Hfill.
  assert (Forall (readable key) (sorted ++ filled)) as Hall.
  { apply Forall_app. split; [done|].
    eapply Forall_impl; [exact Hfilled|].
    intros r [p [k [v [-> Hkv]]]]. by eapply gap_record_readable. }
  rewrite (positions_readable key _ Hall).
  pose proof (sorted_by_position_Permutation (position <$> sorted ++ filled)
                (sorted ++ filled) (length_fmap _ _)) as Hfinal.
  exists (sorted_by_position (position <$> sorted ++ filled) (sorted ++ filled)), top.
  split_and!.
  - done.
  - apply Forall_forall. intros x Hx. rewrite Hfinal in Hx.
    rewrite Forall_forall in Hall. by apply Hall.
  - rewrite Hfinal, List.length_app, Hperm, Hlen.
    unfold py_range. replace (top + 1 - 1) with top by lia.
    pose proof (count_gaps (dict_keys complete_data) top) as Hcount.
    rewrite Hkperm, length_fmap in Hcount. rewrite <- Hcount; [lia|done|].
    apply Forall_forall. intros k Hk. split.
    + rewrite Forall_forall in Hpos. by apply Hpos.
    + rewrite Forall_forall in Hmax. by apply Hmax, Hkeys.
  - by apply Hkeys.
Qed.

(** C2, as the code has it: for Points whose positions are distinct
    integers from 1 on, with 1 among them and none beyond the required
    length, and which all carry the value field, [get_Period_data] returns
    a list, and the list has the required length. *)
Theorem get_Period_data_length
    (Period : node) (length_ : Z) (first : record) (key : string) :
  let data := children_dict "" <$> xpath_child "Point" Period in
  head data = Some first ->
  dict_keys first !! 1%nat = Some key ->
  Forall (readable key) data ->
  NoDup (position <$> data) ->
  1 ∈ position <$> data ->
  Forall (fun p => 1 <= p <= length_) (position <$> data) ->
  exists reconciled_data,
    returned_list (get_Period_data Period length_) = Ok reconciled_data /\
    Z.of_nat (length reconciled_data) = length_.
Proof.
  intros data Hfirst Hsecond Hread Hnd Hone Hrange.
  rewrite get_Period_data_returned. fold data. unfold padded.
  rewrite (second_field _ _ _ Hfirst Hsecond). cbn [mbind result_bind].
  destruct (reconciled_sparse data key) as [ys [top [Hrec [Hys [Hlen Htop]]]]];
    [done|done|done|by eapply Forall_impl; [exact Hrange|]; intros p []|].
  rewrite Hrec. cbn [fst snd mbind result_bind].
  rewrite Forall_forall in Hrange. specialize (Hrange top Htop).
  case_bool_decide as Hneq; [|exists ys; split; [done|]; by destruct (decide (length_ = Z.of_nat (length ys)))].
  eexists. split.
  - rewrite (map_result_total (B:=pydict string pyval) _ []); [reflexivity|].
    apply Forall_forall. intros i _.
    destruct (py_index_last ys) as [x [Hx Hin]].
    { intros ->. cbn in Hlen. lia. }
    rewrite Forall_forall in Hys. destruct (Hys x Hin) as [_ [v Hv]].
    rewrite Hx. cbn. unfold dict_getitem. rewrite Hv. by eexists.
  - rewrite List.length_app, length_fmap. unfold py_range. rewrite length_seqZ. lia.
Qed.

Lemma get_Period_data_length_witness :
  exists reconciled_data,
    returned_list
      (get_Period_data
         (period_node "2023-01-01T00:00Z" "2023-01-01T04:00Z" "PT60M"
            [point_node "3" "quantity" "c"; point_node "1" "quantity" "a"]) 4)
    = Ok reconciled_data /\
    Z.of_nat (length reconciled_data) = 4.
Proof.
  apply (get_Period_data_length
           (period_node "2023-01-01T00:00Z" "2023-01-01T04:00Z" "PT60M"
              [point_node "3" "quantity" "c"; point_node "1" "quantity" "a"])
           4 (record_of "3" "quantity" "c") "quantity").
  - reflexivity.
  - reflexivity.
  - change (Forall (readable "quantity")
              [record_of "3" "quantity" "c"; record_of "1" "quantity" "a"]).
    repeat constructor; by eexists.
  - change (NoDup [3; 1]). apply (bool_decide_unpack _). reflexivity.
  - change (1 ∈ [3; 1]). apply (bool_decide_unpack _). reflexivity.
  - change (Forall (fun p => 1 <= p <= 4) [3; 1]). repeat constructor; lia.
Defined.

(** C2 as stated fails: two Points at position 1 and a required length of
    1 give a list of two records. *)
Lemma duplicate_positions_exceed_length :
  let data := children_dict "" <$>
                xpath_child "Point"
                  (period_node "2023-01-01T00:00Z" "2023-01-01T01:00Z" "PT60M"
                     [point_node "1" "quantity" "a"; point_node "1" "quantity" "b"]) in
  data <> [] /\
  map_result position_of data = Ok [1; 1] /\
  returned_list
    (get_Period_data
       (period_node "2023-01-01T00:00Z" "2023-01-01T01:00Z" "PT60M"
          [point_node "1" "quantity" "a"; point_node "1" "quantity" "b"]) 1)
  = Ok [record_of "1" "quantity" "a"; record_of "1" "quantity" "b"] /\
  Z.of_nat (length [record_of "1" "quantity" "a"; record_of "1" "quantity" "b"]) <> 1.
Proof.
  intros data. split_and!; [discriminate|reflexivity| |discriminate].
  rewrite get_Period_data_returned. reflexivity.
Qed.

(** * Further properties of the parsers *)

(** ** Decomposition without loss *)

Lemma dict_set_new {K V} `{EqDecision K} (k : K) (v : V) (d : pydict K V) :
  k ∉ dict_keys d -> dict_set k v d = d ++ [(k, v)].
Proof.
  unfold dict_keys. induction d as [|[k' v'] d IH]; intros Hk; [done|].
  rewrite fmap_cons in Hk. apply not_elem_of_cons in Hk as [Hne Hk].
  cbn. rewrite decide_False by done. by rewrite (IH Hk).
Qed.

Lemma fold_set_new {K V} `{EqDecision K} (ps acc : list (K * V)) :
  NoDup ((acc ++ ps).*1) ->
  fold_left (fun d p => dict_set p.1 p.2 d) ps acc = acc ++ ps.
Proof.
  revert acc. induction ps as [|[k v] ps IH]; intros acc Hnd.
  - by rewrite app_nil_r.
  - cbn [fold_left fst snd]. rewrite dict_set_new.
    + rewrite IH; rewrite <- app_assoc; done.
    + rewrite fmap_app, fmap_cons in Hnd.
      apply NoDup_app in Hnd as (_ & Hdisj & _).
      intros Hin. apply (Hdisj k Hin). by left.
Qed.

(** Pairs with distinct keys are the dictionary they build. *)
Lemma dict_of_pairs_id {K V} `{EqDecision K} (ps : list (K * V)) :
  NoDup ps.*1 -> dict_of_pairs ps = ps.
Proof. intros Hnd. unfold dict_of_pairs. by rewrite fold_set_new. Qed.

Lemma node_induction (P : node -> Prop) :
  (forall tag text children, Forall P children -> P (Node tag text children)) ->
  forall n, P n.
Proof.
  intros Hnode. fix IH 1. intros [tag text children]. apply Hnode.
  induction children as [|c children IHc]; constructor; [apply IH | apply IHc].
Qed.

Lemma unfold_node_tags (children : list node) :
  (unfold_node <$> children).*1 = node_tag <$> children.
Proof.
  rewrite <- list_fmap_compose. apply list_fmap_ext. intros i c _. apply unfold_node_tag.
Qed.

(** X1: what [unfold_node] keeps. It reads the tag, the text and the
    children of an element, and nothing else of it (attributes and tail
    text are not read and are not in the result). Of a tree in which no
    element with children carries a text and siblings have distinct tags,
    the tags, the texts and the nesting are all kept: the tree of tags,
    texts and children is rebuilt from the pair returned. *)
Theorem unfold_node_lossless (n : node) :
  lossless n -> rebuild (unfold_node n).1 (unfold_node n).2 = n.
Proof.
  induction n as [tag text children IH] using node_induction.
  intros (Htext & Hnd & Hchildren).
  assert ((fix go (l : list (string * unfolded)) : list node :=
             match l with
             | [] => []
             | kv :: l' => rebuild kv.1 kv.2 :: go l'
             end) (unfold_node <$> children) = children) as Hgo.
  { clear Htext Hnd. induction IH as [|c cs Hc _ IHcs]; [done|].
    destruct Hchildren as [Hlc Hlcs].
    rewrite fmap_cons. by rewrite (Hc Hlc), (IHcs Hlcs). }
  destruct children as [|c children]; [done|].
  cbn [unfold_node fst snd]. rewrite dict_of_pairs_id by by rewrite unfold_node_tags.
  rewrite (Htext ltac:(done)). cbn [rebuild]. by rewrite Hgo.
Qed.

Lemma unfold_node_lossless_witness :
  rebuild "Period" (unfold_node (period_node "2023-01-01T00:00Z" "2023-01-01T02:00Z" "PT60M"
                                   [point_node "1" "quantity" "5"])).2
  = period_node "2023-01-01T00:00Z" "2023-01-01T02:00Z" "PT60M"
      [point_node "1" "quantity" "5"].
Proof.
  apply (unfold_node_lossless
           (period_node "2023-01-01T00:00Z" "2023-01-01T02:00Z" "PT60M"
              [point_node "1" "quantity" "5"])).
  cbn. repeat split; try done; apply (bool_decide_unpack _); reflexivity.
Defined.

(** ** Splitting a node *)

Lemma after_first_absent (sep : ascii) (s : string) :
  string_forall (fun c => negb (Ascii.eqb c sep)) s = true -> after_first sep s = "".
Proof.
  induction s as [|c s IH]; [done|]. cbn.
  intros [Hc Hs]%andb_true_iff. apply negb_true_iff in Hc. rewrite Hc. by apply IH.
Qed.

Lemma after_first_present (sep : ascii) (before after : string) :
  string_forall (fun c => negb (Ascii.eqb c sep)) before = true ->
  after_first sep (before +:+ String sep after) = after.
Proof.
  induction before as [|c s IH]; simpl.
  - by rewrite Ascii.eqb_refl.
  - intros [Hc Hs]%andb_true_iff. apply negb_true_iff in Hc. rewrite Hc. by apply IH.
Qed.

(** X2: without a sub-node tag ([None], the empty string or the empty
    list) [decompose_node] returns no metadata and one data mapping. Its
    key is what follows the first closing brace of the node's tag: the
    local name for a tag [{namespace}name], and the empty string for a tag
    without name space. *)
Theorem decompose_node_without_tag (n : node) (t : subnode_tag) :
  falsy t = true ->
  exists key,
    decompose_node n t =
      Returned [] [Data [(key, UDict (dict_of_pairs (unfold_node <$> getchildren n)))]] /\
    (string_forall (fun c => negb (Ascii.eqb c "}")) (node_tag n) = true -> key = "") /\
    (forall namespace name,
        string_forall (fun c => negb (Ascii.eqb c "}")) namespace = true ->
        node_tag n = "{" +:+ namespace +:+ "}" +:+ name -> key = name).
Proof.
  intros Ht. exists (after_first "}" (node_tag n)). split_and!.
  - unfold decompose_node. by rewrite Ht.
  - apply after_first_absent.
  - intros namespace name Hns ->. cbn. by apply after_first_present.
Qed.

Lemma decompose_node_without_tag_witness :
  exists key,
    decompose_node (Node "Publication_MarketDocument" None [Node "mRID" (Some "1") []])
      (TagName "") =
      Returned [] [Data [(key, UDict [("mRID", UText (Some "1"))])]] /\
    key = "".
Proof.
  destruct (decompose_node_without_tag
              (Node "Publication_MarketDocument" None [Node "mRID" (Some "1") []])
              (TagName "") eq_refl) as [key [Hd [Hkey _]]].
  exists key. split; [exact Hd | apply Hkey; reflexivity].
Defined.

(** X3: with a tag, the children are split in two and none is lost: the
    sub-nodes are the children of that tag, in their order, and the
    metadata mapping has exactly the tags of the other children as its
    keys, never the tag itself. A non-empty list of tags is refused. *)
Theorem decompose_node_with_tag (n : node) (name : string) :
  name <> "" ->
  (exists m,
      decompose_node n (TagName name) =
        Returned [(node_tag n, UDict m)] (Subnode <$> xpath_child name n) /\
      getchildren n ≡ₚ xpath_child name n ++ xpath_not_child name n /\
      (forall k, k ∈ dict_keys m <->
                 k <> name /\ exists c, c ∈ getchildren n /\ node_tag c = k) /\
      dict_get name m = None) /\
  (forall names, names <> [] -> decompose_node n (TagList names) = NotImplementedError).
Proof.
  intros Hname. split.
  - exists (dict_of_pairs (unfold_node <$> xpath_not_child name n)).
    assert (forall k, k ∈ dict_keys (dict_of_pairs (unfold_node <$> xpath_not_child name n))
                      <-> k <> name /\ exists c, c ∈ getchildren n /\ node_tag c = k) as Hkeys.
    { intros k. rewrite dict_keys_of_pairs, unfold_node_tags, list_elem_of_fmap.
      unfold xpath_not_child. split.
      - intros [c [-> [Hc Hin]%list_elem_of_filter]]. split; [done|by exists c].
      - intros [Hne [c [Hin <-]]]. exists c. split; [done|].
        by apply list_elem_of_filter. }
    split_and!.
    + unfold decompose_node, falsy. by rewrite bool_decide_eq_false_2.
    + symmetry. apply (filter_app_complement (fun c => node_tag c = name)).
    + done.
    + apply dict_get_None_keys. intros [Hne _]%Hkeys. done.
  - intros names Hnames. unfold decompose_node, falsy.
    by rewrite bool_decide_eq_false_2.
Qed.

Lemma decompose_node_with_tag_witness :
  exists m,
    decompose_node (period_node "2023-01-01T00:00Z" "2023-01-01T02:00Z" "PT60M"
                      [point_node "1" "quantity" "5"; point_node "2" "quantity" "7"])
      (TagName "Point") =
      Returned [("Period", UDict m)]
        [Subnode (point_node "1" "quantity" "5"); Subnode (point_node "2" "quantity" "7")] /\
    dict_get "Point" m = None.
Proof.
  destruct (proj1 (decompose_node_with_tag
                     (period_node "2023-01-01T00:00Z" "2023-01-01T02:00Z" "PT60M"
                        [point_node "1" "quantity" "5"; point_node "2" "quantity" "7"])
                     "Point" ltac:(discriminate)))
    as [m [Hd [_ [_ Hm]]]].
  exists m. split; [exact Hd | exact Hm].
Defined.

(** ** Financial prices *)

Lemma add_Financial_Price_entry (datum : pydict string pyval) (fp : node) :
  add_Financial_Price datum fp =
  (kv ← price_entry fp; mret (dict_set kv.1 kv.2 datum)).
Proof.
  unfold add_Financial_Price, price_entry.
  destruct (getattr "amount" fp) as [amount|]; [|done]. cbn.
  destruct (getattr "direction" fp) as [direction|]; [|done]. cbn.
  by destruct (direction_lookup _).
Qed.

Lemma fold_Financial_Price (fps : list node) (datum : pydict string pyval) :
  fold_result add_Financial_Price datum fps =
  (entries ← map_result price_entry fps;
   mret (fold_left (fun d p => dict_set p.1 p.2 d) entries datum)).
Proof.
  revert datum. induction fps as [|fp fps IH]; intros datum; [done|].
  cbn [fold_result map_result]. rewrite add_Financial_Price_entry.
  destruct (price_entry fp) as [kv|]; [|done]. cbn. rewrite IH.
  by destruct (map_result price_entry fps).
Qed.

Lemma getattr_tag (name : string) (n c : node) : getattr name n = Ok c -> node_tag c = name.
Proof.
  unfold getattr. destruct (head _) as [c'|] eqn:Hhead; [|done]. intros [= ->].
  apply head_Some_elem_of, list_elem_of_filter in Hhead. by destruct Hhead.
Qed.

Lemma price_entry_key (fp : node) (kv : string * pyval) :
  node_tag fp = "Financial_Price" -> price_entry fp = Ok kv ->
  kv.1 ∈ ["Financial_Price.up.amount"; "Financial_Price.down.amount";
          "Financial_Price.up_and_down.amount"].
Proof.
  intros Htag. unfold price_entry.
  destruct (getattr "amount" fp) as [amount|] eqn:Hamount; [|done]. cbn.
  destruct (getattr "direction" fp) as [direction|]; [|done]. cbn.
  destruct (direction_lookup _) as [name|] eqn:Hname; [|done]. cbn.
  intros [= <-]. cbn [fst]. rewrite Htag, (getattr_tag _ _ _ Hamount).
  destruct (node_text direction) as [d|]; [|done]. cbn in Hname.
  unfold dict_getitem, direction_map in Hname. cbn in Hname.
  repeat (case_decide; [injection Hname as <-; set_solver|]). done.
Qed.

Lemma dict_keys_fold_set {K V} `{EqDecision K} (k : K) (ps d : list (K * V)) :
  k ∈ dict_keys (fold_left (fun d p => dict_set p.1 p.2 d) ps d) <->
  k ∈ dict_keys d \/ k ∈ ps.*1.
Proof.
  rewrite <- !dict_get_Some_keys, dict_get_fold_set.
  assert (is_Some (dict_get k (reverse ps)) <-> k ∈ ps.*1) as Hps.
  { rewrite dict_get_Some_keys. unfold dict_keys. by rewrite fmap_reverse, elem_of_reverse. }
  destruct (dict_get k (reverse ps)) as [v|] eqn:Hv; cbn.
  - split; [intros _; right; apply Hps; by eexists | by eexists].
  - split; [by left|]. intros [?|Hin]; [done|]. apply Hps in Hin. by destruct Hin.
Qed.

Lemma dict_set_head {K V} `{EqDecision K} (k : K) (v : V) (d : pydict K V) :
  d <> [] -> head (dict_keys (dict_set k v d)) = head (dict_keys d).
Proof. destruct d as [|[k' v'] d]; [done|]. intros _. cbn. by case_decide. Qed.

Lemma fold_set_head {K V} `{EqDecision K} (ps d : list (K * V)) :
  d <> [] ->
  head (dict_keys (fold_left (fun d p => dict_set p.1 p.2 d) ps d)) = head (dict_keys d).
Proof.
  revert d. induction ps as [|p ps IH]; intros d Hd; [done|].
  cbn [fold_left]. rewrite IH, dict_set_head; [done|done|].
  destruct d as [|[k' v'] d]; [done|]. cbn. by case_decide.
Qed.

Lemma price_entries_keys (fps : list node) (entries : list (string * pyval)) :
  Forall (fun fp => node_tag fp = "Financial_Price") fps ->
  map_result price_entry fps = Ok entries ->
  Forall (fun k => k ∈ ["Financial_Price.up.amount"; "Financial_Price.down.amount";
                        "Financial_Price.up_and_down.amount"]) entries.*1.
Proof.
  intros Htags. revert entries. induction Htags as [|fp fps Hfp _ IH]; intros entries.
  - by intros [= <-].
  - cbn. destruct (price_entry fp) as [kv|] eqn:Hkv; [|done]. cbn.
    destruct (map_result price_entry fps) as [kvs|]; [|done]. intros [= <-].
    rewrite fmap_cons. apply Forall_cons. split; [by eapply price_entry_key|by apply IH].
Qed.

Lemma get_Point_Financial_Price_data_fold (Point position : node) :
  getattr "position" Point = Ok position ->
  xpath_child "Financial_Price" Point <> [] ->
  get_Point_Financial_Price_data Point =
  (entries ← map_result price_entry (xpath_child "Financial_Price" Point);
   mret (fold_left (fun d p => dict_set p.1 p.2 d) entries
           [("position", of_text (node_text position))])).
Proof.
  intros Hpos Hfps. unfold get_Point_Financial_Price_data. rewrite Hpos.
  cbn [mbind result_bind]. rewrite (getattr_tag _ _ _ Hpos).
  unfold getattr at 1. destruct (xpath_child "Financial_Price" Point) as [|fp fps] eqn:Hx;
    [done|].
  cbn [head of_option mbind result_bind]. apply fold_Financial_Price.
Qed.

(** X4: the row of a Point with prices starts with the position of the
    Point, and its other columns are among the three price columns, one per
    direction: a row never has more than four columns. *)
Theorem financial_price_row_columns (Point : node) (datum : pydict string pyval) :
  get_Point_Financial_Price_data Point = Ok datum ->
  head (dict_keys datum) = Some "position" /\
  (exists position, getattr "position" Point = Ok position /\
                    dict_get "position" datum = Some (of_text (node_text position))) /\
  NoDup (dict_keys datum) /\
  (forall k, k ∈ dict_keys datum -> k ∈ price_columns) /\
  (length datum <= 4)%nat.
Proof.
  intros Hdatum.
  destruct (getattr "position" Point) as [position|] eqn:Hpos;
    [|unfold get_Point_Financial_Price_data in Hdatum; by rewrite Hpos in Hdatum].
  destruct (decide (xpath_child "Financial_Price" Point = [])) as [Hnil|Hfps].
  { unfold get_Point_Financial_Price_data in Hdatum. rewrite Hpos in Hdatum.
    cbn in Hdatum. unfold getattr in Hdatum. by rewrite Hnil in Hdatum. }
  rewrite (get_Point_Financial_Price_data_fold _ _ Hpos Hfps) in Hdatum.
  destruct (map_result price_entry _) as [entries|] eqn:Hentries; [|done].
  injection Hdatum as <-.
  assert (Forall (fun k => k ∈ ["Financial_Price.up.amount"; "Financial_Price.down.amount";
                                "Financial_Price.up_and_down.amount"]) entries.*1) as Hkeys.
  { eapply price_entries_keys; [|done]. apply Forall_forall.
    intros fp Hfp. apply list_elem_of_filter in Hfp. by destruct Hfp. }
  assert (NoDup (dict_keys (fold_left (fun d p => dict_set p.1 p.2 d) entries
                   [("position", of_text (node_text position))]))) as Hnd.
  { apply fold_set_NoDup. cbn. apply NoDup_singleton. }
  assert (forall k, k ∈ dict_keys (fold_left (fun d p => dict_set p.1 p.2 d) entries
                         [("position", of_text (node_text position))]) ->
                    k ∈ price_columns) as Hcols.
  { intros k [Hk|Hk]%dict_keys_fold_set.
    - cbn in Hk. apply list_elem_of_singleton in Hk as ->. by left.
    - rewrite Forall_forall in Hkeys. right. by apply Hkeys. }
  split_and!.
  - by rewrite fold_set_head.
  - exists position. split; [done|]. rewrite dict_get_fold_set.
    assert (dict_get "position" (reverse entries) = None) as ->.
    { apply dict_get_None_keys. unfold dict_keys. rewrite fmap_reverse, elem_of_reverse.
      intros Hin. rewrite Forall_forall in Hkeys. specialize (Hkeys _ Hin).
      repeat (apply elem_of_cons in Hkeys as [Hkeys|Hkeys]; [discriminate|]).
      by apply elem_of_nil in Hkeys. }
    cbn. by rewrite decide_True.
  - done.
  - done.
  - change 4%nat with (length price_columns).
    rewrite <- (length_fmap fst). apply submseteq_length, NoDup_submseteq; done.
Qed.

Lemma financial_price_row_columns_witness :
  head (dict_keys [("position", VStr "1"); ("Financial_Price.up.amount", VStr "30");
                   ("Financial_Price.down.amount", VStr "20")]) = Some "position".
Proof.
  apply (financial_price_row_columns
           (price_point "1" [("A01", "10"); ("A02", "20"); ("A01", "30")])
           [("position", VStr "1"); ("Financial_Price.up.amount", VStr "30");
            ("Financial_Price.down.amount", VStr "20")]).
  reflexivity.
Defined.


Lemma map_result_first_error {A B} (f : A -> result B) (e : exn) (xs : list A) :
  Forall (fun x => (exists y, f x = Ok y) \/ f x = Raise e) xs ->
  Exists (fun x => f x = Raise e) xs ->
  map_result f xs = Raise e.
Proof.
  induction 1 as [|x xs Hx _ IH]; intros Hex; [by apply Exists_nil in Hex|].
  cbn. destruct Hx as [[y Hy]|Hx]; [|by rewrite Hx].
  rewrite Hy. cbn. apply Exists_cons in Hex as [Hex|Hex]; [congruence|].
  by rewrite (IH Hex).
Qed.

Lemma price_entry_outcome (fp amount direction : node) :
  getattr "amount" fp = Ok amount ->
  getattr "direction" fp = Ok direction ->
  price_entry fp =
  match direction_lookup (of_text (node_text direction)) with
  | Ok name => Ok (node_tag fp +:+ "." +:+ name +:+ "." +:+ node_tag amount,
                   of_text (node_text amount))
  | Raise _ => Raise KeyError
  end.
Proof.
  intros Ha Hd. unfold price_entry. rewrite Ha, Hd. cbn.
  destruct (direction_lookup _) as [name|e] eqn:Hname; [done|].
  cbn. f_equal. unfold direction_lookup, dict_getitem in Hname.
  destruct (of_text (node_text direction)); try congruence.
  destruct (dict_get _ direction_map); cbn [of_option] in Hname; congruence.
Qed.

(** X5: what makes the row of a Point with prices fail. Without a
    [position] or without any [Financial_Price] it is an [AttributeError].
    When every [Financial_Price] has its amount and direction, the row is
    built if all the direction codes are A01, A02 or A03, and a [KeyError]
    is raised if one of them is not. *)
Theorem financial_price_row_errors (Point : node) :
  (xpath_child "position" Point = [] \/ xpath_child "Financial_Price" Point = [] ->
   get_Point_Financial_Price_data Point = Raise AttributeError) /\
  (xpath_child "position" Point <> [] ->
   xpath_child "Financial_Price" Point <> [] ->
   Forall (fun fp => xpath_child "amount" fp <> [] /\ xpath_child "direction" fp <> [])
          (xpath_child "Financial_Price" Point) ->
   (Forall (fun fp => exists direction name,
                getattr "direction" fp = Ok direction /\
                direction_lookup (of_text (node_text direction)) = Ok name)
           (xpath_child "Financial_Price" Point) ->
    exists datum, get_Point_Financial_Price_data Point = Ok datum) /\
   (Exists (fun fp => exists direction,
                getattr "direction" fp = Ok direction /\
                direction_lookup (of_text (node_text direction)) = Raise KeyError)
           (xpath_child "Financial_Price" Point) ->
    get_Point_Financial_Price_data Point = Raise KeyError)).
Proof.
  split.
  - unfold get_Point_Financial_Price_data, getattr. intros [Hnil|Hnil].
    + by rewrite Hnil.
    + rewrite Hnil. by destruct (head (xpath_child "position" Point)).
  - intros Hpos Hfps Hall.
    destruct (getattr "position" Point) as [position|] eqn:Hposition.
    2:{ unfold getattr in Hposition. by destruct (xpath_child "position" Point). }
    rewrite (get_Point_Financial_Price_data_fold _ _ Hposition Hfps).
    assert (forall fp, fp ∈ xpath_child "Financial_Price" Point ->
              exists amount direction,
                getattr "amount" fp = Ok amount /\ getattr "direction" fp = Ok direction)
      as Hparts.
    { intros fp Hfp. rewrite Forall_forall in Hall. destruct (Hall fp Hfp) as [Ha Hd].
      unfold getattr. destruct (xpath_child "amount" fp); [done|].
      destruct (xpath_child "direction" fp); [done|]. by eexists _, _. }
    split.
    + intros Hknown. rewrite (map_result_total price_entry ("", VNone)); [by eexists|].
      apply Forall_forall. intros fp Hfp.
      destruct (Hparts fp Hfp) as (amount & direction & Ha & Hd).
      rewrite Forall_forall in Hknown.
      destruct (Hknown fp Hfp) as (direction' & name & Hd' & Hname).
      rewrite (price_entry_outcome _ _ _ Ha Hd).
      assert (direction' = direction) as -> by congruence. rewrite Hname. by eexists.
    + intros Hunknown. rewrite (map_result_first_error price_entry KeyError); [done| |].
      * apply Forall_forall. intros fp Hfp.
        destruct (Hparts fp Hfp) as (amount & direction & Ha & Hd).
        rewrite (price_entry_outcome _ _ _ Ha Hd).
        destruct (direction_lookup _); [left; by eexists | by right].
      * apply Exists_exists in Hunknown as (fp & Hfp & direction & Hd & Hname).
        apply Exists_exists. exists fp. split; [done|].
        destruct (Hparts fp Hfp) as (amount & direction' & Ha & Hd').
        rewrite (price_entry_outcome _ _ _ Ha Hd').
        assert (direction' = direction) as -> by congruence. by rewrite Hname.
Qed.

Lemma financial_price_row_errors_witness :
  get_Point_Financial_Price_data (price_point "1" [("A01", "10"); ("A09", "20")])
  = Raise KeyError.
Proof.
  apply (proj2 (financial_price_row_errors
                  (price_point "1" [("A01", "10"); ("A09", "20")]))).
  - discriminate.
  - discriminate.
  - repeat constructor; discriminate.
  - apply Exists_cons_tl, Exists_cons_hd.
    exists (Node "direction" (Some "A09") []). split; reflexivity.
Defined.

(** X6: a price column holds the amount of the last [Financial_Price] that
    gives this column: a later price in the same direction replaces the
    earlier one, without error. *)
Theorem financial_price_last_wins (Point : node) (datum : pydict string pyval)
    (before after : list node) (fp : node) (column : string) (amount : pyval) :
  get_Point_Financial_Price_data Point = Ok datum ->
  xpath_child "Financial_Price" Point = before ++ fp :: after ->
  price_entry fp = Ok (column, amount) ->
  (forall fp' kv, fp' ∈ after -> price_entry fp' = Ok kv -> kv.1 <> column) ->
  dict_get column datum = Some amount.
Proof.
  intros Hdatum Hsplit Hfp Hlast.
  destruct (getattr "position" Point) as [position|] eqn:Hpos;
    [|unfold get_Point_Financial_Price_data in Hdatum; by rewrite Hpos in Hdatum].
  rewrite (get_Point_Financial_Price_data_fold _ _ Hpos) in Hdatum
    by (rewrite Hsplit; by destruct before).
  destruct (map_result price_entry _) as [entries|] eqn:Hentries; [|done].
  injection Hdatum as <-. rewrite Hsplit in Hentries.
  apply (map_result_Ok _ ("", VNone)) in Hentries as [-> Hok].
  rewrite fmap_app, fmap_cons, Hfp. cbn [result_default].
  rewrite dict_get_fold_set, reverse_app, reverse_cons, !dict_get_app.
  assert (dict_get column
            (reverse ((fun x => result_default ("", VNone) (price_entry x)) <$> after))
          = None) as ->.
  { apply dict_get_None_keys. unfold dict_keys. rewrite fmap_reverse, elem_of_reverse.
    rewrite <- list_fmap_compose.
    intros [fp' [Hcol Hin]]%list_elem_of_fmap.
    apply Forall_app in Hok as [_ Hok]. apply Forall_cons in Hok as [_ Hok].
    rewrite Forall_forall in Hok. destruct (Hok fp' Hin) as [kv Hkv].
    apply (Hlast fp' kv Hin Hkv). cbn in Hcol. by rewrite Hkv in Hcol. }
  cbn. by destruct (decide (column = column)).
Qed.

Lemma financial_price_last_wins_witness :
  dict_get "Financial_Price.up.amount"
    [("position", VStr "1"); ("Financial_Price.up.amount", VStr "30");
     ("Financial_Price.down.amount", VStr "20")] = Some (VStr "30").
Proof.
  apply (financial_price_last_wins
           (price_point "1" [("A01", "10"); ("A02", "20"); ("A01", "30")])
           _
           [Node "Financial_Price" None
              [Node "amount" (Some "10") []; Node "direction" (Some "A01") []];
            Node "Financial_Price" None
              [Node "amount" (Some "20") []; Node "direction" (Some "A02") []]]
           []
           (Node "Financial_Price" None
              [Node "amount" (Some "30") []; Node "direction" (Some "A01") []])).
  - reflexivity.
  - reflexivity.
  - reflexivity.
  - intros fp' kv Hin. by apply elem_of_nil in Hin.
Defined.

(** X7: the prices of a Period are one row for each Point, in the order of
    the Points, each the row of its Point: nothing is filled in or padded
    here, and the first Point whose row fails makes the whole call fail. *)
Theorem financial_price_rows (Period : node) :
  (forall rows,
      get_Period_Financial_Price_data Period = Ok rows ->
      length rows = length (xpath_child "Point" Period) /\
      Forall2 (fun Point row => get_Point_Financial_Price_data Point = Ok row)
              (xpath_child "Point" Period) rows) /\
  (forall before Point after e,
      xpath_child "Point" Period = before ++ Point :: after ->
      Forall (fun p => exists row, get_Point_Financial_Price_data p = Ok row) before ->
      get_Point_Financial_Price_data Point = Raise e ->
      get_Period_Financial_Price_data Period = Raise e).
Proof.
  unfold get_Period_Financial_Price_data. split.
  - generalize (xpath_child "Point" Period). intros points.
    induction points as [|p points IH]; intros rows.
    + intros [= <-]. by split.
    + cbn. destruct (get_Point_Financial_Price_data p) as [row|] eqn:Hrow; [|done].
      cbn. destruct (map_result _ points) as [rows'|]; [|done]. intros [= <-].
      destruct (IH rows' eq_refl) as [Hlen Hall]. split; [cbn; by rewrite Hlen|].
      by constructor.
  - intros before Point after e -> Hbefore Hpoint.
    induction Hbefore as [|p before [row Hrow] _ IH]; cbn.
    + by rewrite Hpoint.
    + rewrite Hrow. cbn. by rewrite IH.
Qed.

Lemma financial_price_rows_witness :
  get_Period_Financial_Price_data
    (period_node "2023-01-01T00:00Z" "2023-01-01T02:00Z" "PT60M"
       [price_point "1" [("A01", "10")]; price_point "2" [("A07", "20")];
        price_point "3" []])
  = Raise KeyError.
Proof.
  apply (proj2 (financial_price_rows
                  (period_node "2023-01-01T00:00Z" "2023-01-01T02:00Z" "PT60M"
                     [price_point "1" [("A01", "10")]; price_point "2" [("A07", "20")];
                      price_point "3" []]))
           [price_point "1" [("A01", "10")]] (price_point "2" [("A07", "20")])
           [price_point "3" []] KeyError).
  - reflexivity.
  - repeat constructor. by eexists.
  - reflexivity.
Defined.

(** ** Forward fill *)

Lemma py_max_default_spec (d : Z) (keys : list Z) :
  keys <> [] ->
  py_max_default d keys ∈ keys /\ Forall (fun x => x <= py_max_default d keys) keys.
Proof. destruct keys as [|k keys]; [done|]. intros _. apply foldl_max_spec. Qed.

(** The position before a gap: the largest one below it. *)
Lemma previous_position (keys : list Z) (p : Z) :
  1 ∈ keys -> 1 <= p -> p ∉ keys ->
  let prev := py_max_default 0 (filter (fun x => x < p) keys) in
  prev ∈ keys /\ prev < p /\ (forall k, k ∈ keys -> k <= p -> k <= prev).
Proof.
  intros Hone Hp Hnin prev.
  assert (filter (fun x => x < p) keys <> []) as Hne.
  { intros Hnil. assert (1 ∈ @nil Z) as Hin; [|by apply elem_of_nil in Hin].
    rewrite <- Hnil. apply list_elem_of_filter. split; [|done].
    assert (p <> 1) by (by intros ->). lia. }
  destruct (py_max_default_spec 0 _ Hne) as [Hin Hmax]. fold prev in Hin, Hmax.
  apply list_elem_of_filter in Hin as [Hlt Hin]. split_and!; [done|done|].
  intros k Hk Hle. rewrite Forall_forall in Hmax. apply Hmax.
  apply list_elem_of_filter. split; [|done].
  assert (k <> p) by (by intros ->). lia.
Qed.

Lemma fill_gaps_filled (key : string) (complete_data : pydict Z pyval) (ps : list Z) :
  1 ∈ dict_keys complete_data ->
  Forall (fun p => 1 <= p) ps ->
  fill_gaps key complete_data ps =
  ((fun p =>
      dict_of_pairs
        [("position", VStr (py_str p));
         (key, default VNone
                 (dict_get (py_max_default 0 (filter (fun x => x < p)
                                                      (dict_keys complete_data)))
                           complete_data))])
     <$> filter (fun p => p ∉ dict_keys complete_data) ps, Ok tt).
Proof.
  intros Hone. induction 1 as [|p ps Hp _ IH]; [done|].
  cbn [fill_gaps]. rewrite filter_cons.
  destruct (decide (p ∈ dict_keys complete_data)) as [Hin|Hnin].
  - rewrite (proj2 (dict_mem_keys _ _) Hin). by rewrite decide_False by tauto.
  - destruct (dict_mem p complete_data) eqn:Hmem; [by apply dict_mem_keys in Hmem|].
    rewrite decide_True by done.
    destruct (previous_position _ p Hone Hp Hnin) as [Hprev _].
    apply dict_get_Some_keys in Hprev as [v Hv].
    rewrite fmap_cons. unfold dict_getitem. rewrite Hv, IH. reflexivity.
Qed.

Lemma gap_record_position (key : string) (p : Z) (v : pyval) :
  key <> "position" ->
  position_of (dict_of_pairs [("position", VStr (py_str p)); (key, v)]) = Ok p.
Proof.
  intros Hne. unfold position_of, dict_getitem. cbn.
  rewrite decide_False by done. cbn. rewrite decide_True by done. cbn.
  apply py_int_py_str.
Qed.

(** What the reconciliation leaves in the list, for Points with distinct
    positions from 1 on. *)
Lemma reconciled_forward_fill (data : list record) (key : string) :
  Forall (readable key) data ->
  NoDup (position <$> data) ->
  1 ∈ position <$> data ->
  Forall (fun p => 1 <= p) (position <$> data) ->
  key <> "position" ->
  exists ys top,
    reconciled data key = (ys, Ok tt) /\
    top ∈ position <$> data /\
    Forall (fun p => p <= top) (position <$> data) /\
    position <$> ys = seqZ 1 top /\
    Forall (readable key) ys /\
    Forall (fun y => exists x,
                x ∈ data /\ position x <= position y /\
                dict_get key y = dict_get key x /\
                (forall x', x' ∈ data -> position x' <= position y ->
                            position x' <= position x) /\
                (position x = position y -> y = x)) ys.
Proof.
  intros Hread Hnd Hone Hpos Hkey.
  unfold reconciled. rewrite (positions_readable key data Hread).
  pose proof (sorted_by_position_Permutation (position <$> data) data
                (length_fmap _ _)) as Hperm.
  set (sorted := sorted_by_position (position <$> data) data) in *.
  assert (Forall (readable key) sorted) as Hsorted.
  { apply Forall_forall. intros x Hx. rewrite Hperm in Hx.
    rewrite Forall_forall in Hread. by apply Hread. }
  rewrite (complete_pairs key sorted Hsorted).
  set (complete_data := dict_of_pairs (position_value key <$> sorted)).
  assert (forall k, k ∈ dict_keys complete_data <-> k ∈ position <$> data) as Hkeys.
  { intros k. unfold complete_data. rewrite complete_data_keys. by rewrite Hperm. }
  assert (dict_keys complete_data ≡ₚ position <$> data) as Hkperm.
  { apply NoDup_Permutation; [apply dict_of_pairs_NoDup|done|done]. }
  destruct (py_max_nonempty (dict_keys complete_data)) as [top Htop].
  { intros Hnil. apply Hkeys in Hone. rewrite Hnil in Hone. by apply elem_of_nil in Hone. }
  rewrite Htop. apply py_max_spec in Htop as [Hin Hmax].
  rewrite fill_gaps_filled;
    [|by apply Hkeys|apply Forall_forall; intros p Hp%elem_of_seqZ; lia].
  unfold py_range. replace (top + 1 - 1) with top by lia.
  set (gap := fun p : Z => dict_of_pairs [("position", VStr (py_str p)); _]).
  set (gaps := filter (fun p => p ∉ dict_keys complete_data) (seqZ 1 top)).
  assert (forall p, p ∈ gaps -> 1 <= p /\ p ∉ position <$> data) as Hgaps.
  { intros p [Hnin Hp%elem_of_seqZ]%list_elem_of_filter. split; [lia|].
    by rewrite <- Hkeys. }
  assert (forall p, position (gap p) = p) as Hgap.
  { intros p. apply position_of_position, gap_record_position, Hkey. }
  assert (forall p, p ∈ gaps ->
            exists x, x ∈ data /\ position x < p /\
                      dict_get key (gap p) = dict_get key x /\
                      (forall x', x' ∈ data -> position x' <= p ->
                                  position x' <= position x)) as Hvalue.
  { intros p Hp. destruct (Hgaps p Hp) as [Hp1 Hnin].
    destruct (previous_position (dict_keys complete_data) p) as (Hprev & Hlt & Hbest);
      [by apply Hkeys|done|by rewrite Hkeys|].
    cbv zeta in Hprev, Hlt, Hbest.
    set (prev := py_max_default 0 _) in *.
    pose proof Hprev as [v Hv]%dict_get_Some_keys.
    pose proof (dict_get_elem_of _ _ _ Hv) as Hpair.
    apply dict_of_pairs_subseteq, list_elem_of_fmap in Hpair as [x [[= Hx1 Hx2] Hx]].
    rewrite Hperm in Hx. exists x.
    rewrite Forall_forall in Hread. destruct (Hread x Hx) as [_ [w Hw]].
    split_and!.
    - done.
    - by rewrite <- Hx1.
    - unfold gap. fold prev. rewrite Hv. cbn [default].
      rewrite (dict_get_of_pairs_last key v [("position", VStr (py_str p))] [])
        by apply not_elem_of_nil.
      rewrite Hw in Hx2 |- *. cbn in Hx2. by rewrite Hx2.
    - intros x' Hx' Hle. rewrite <- Hx1. apply Hbest; [|done].
      apply Hkeys. by apply list_elem_of_fmap_2. }
  assert (Forall (readable key) (sorted ++ (gap <$> gaps))) as Hall.
  { apply Forall_app. split; [done|].
    apply Forall_fmap, Forall_forall. intros p Hp.
    destruct (Hvalue p Hp) as (x & Hx & _ & Hval & _).
    rewrite Forall_forall in Hread. destruct (Hread x Hx) as [_ Hw]. split.
    - exists p. by apply gap_record_position.
    - by rewrite Hval. }
  rewrite (positions_readable key _ Hall).
  pose proof (sorted_by_position_Permutation (position <$> sorted ++ (gap <$> gaps))
                (sorted ++ (gap <$> gaps)) (length_fmap _ _)) as Hfinal.
  set (ys := sorted_by_position _ (sorted ++ (gap <$> gaps))) in *.
  exists ys, top. split_and!.
  - done.
  - by apply Hkeys.
  - apply Forall_forall. intros k Hk. rewrite Forall_forall in Hmax. by apply Hmax, Hkeys.
  - apply (Sorted_unique Z.le); [apply sorted_by_position_Sorted|apply seqZ_Sorted|].
    fold ys. rewrite Hfinal, fmap_app, Hperm, <- list_fmap_compose.
    rewrite (list_fmap_ext (position ∘ gap) id gaps) by (intros; apply Hgap).
    rewrite list_fmap_id.
    rewrite <- (filter_app_complement (fun p => p ∈ dict_keys complete_data) (seqZ 1 top)).
    apply Permutation_app; [|done]. rewrite <- Hkperm.
    apply NoDup_Permutation; [apply dict_of_pairs_NoDup|apply NoDup_filter, NoDup_seqZ|].
    intros k. rewrite list_elem_of_filter, elem_of_seqZ. split; [|by intros [? _]].
    intros Hk. split; [done|].
    rewrite Forall_forall in Hpos, Hmax. specialize (Hmax k Hk).
    specialize (Hpos k (proj1 (Hkeys k) Hk)). lia.
  - apply Forall_forall. intros x Hx. rewrite Hfinal in Hx.
    rewrite Forall_forall in Hall. by apply Hall.
  - apply Forall_forall. intros y Hy. rewrite Hfinal in Hy.
    apply elem_of_app in Hy as [Hy|[p [-> Hp]]%list_elem_of_fmap].
    + rewrite Hperm in Hy. exists y. by split_and!.
    + destruct (Hvalue p Hp) as (x & Hx & Hlt & Hval & Hbest).
      exists x. rewrite Hgap. split_and!; [done|lia|done|done|lia].
Qed.

(** X8: forward fill. For a list of readable records with distinct
    positions from 1 on, position 1 among them, and a value field other
    than [position], [check_period_data_missing] returns, and leaves in the
    list exactly one record for each position from 1 to the largest one, in
    this order. Each record carries the value of the given record with the
    nearest position at or below its own, and is that given record when the
    positions are the same. *)
Theorem check_period_data_missing_forward_fill
    (h : heap) (l : loc) (data : list record) (key : string) :
  h !! l = Some data ->
  Forall (readable key) data ->
  NoDup (position <$> data) ->
  1 ∈ position <$> data ->
  Forall (fun p => 1 <= p) (position <$> data) ->
  key <> "position" ->
  exists ys top,
    check_period_data_missing l key h = (<[l := ys]> h, Ok l) /\
    top ∈ position <$> data /\
    Forall (fun p => p <= top) (position <$> data) /\
    position <$> ys = seqZ 1 top /\
    Forall (fun y => exists x,
                x ∈ data /\ position x <= position y /\
                dict_get key y = dict_get key x /\
                (forall x', x' ∈ data -> position x' <= position y ->
                            position x' <= position x) /\
                (position x = position y -> y = x)) ys.
Proof.
  intros Hl Hread Hnd Hone Hpos Hkey.
  destruct (reconciled_forward_fill data key Hread Hnd Hone Hpos Hkey)
    as (ys & top & Hrec & Htop & Hmax & Hseq & _ & Hfill).
  exists ys, top. rewrite (check_period_data_missing_run _ _ _ _ Hl), Hrec.
  by split_and!.
Qed.

Lemma check_period_data_missing_forward_fill_witness :
  exists ys top,
    check_period_data_missing 0%nat "quantity"
      {[ 0%nat := [record_of "4" "quantity" "d"; record_of "1" "quantity" "a"] ]}
    = (<[ 0%nat := ys ]>
         {[ 0%nat := [record_of "4" "quantity" "d"; record_of "1" "quantity" "a"] ]},
       Ok 0%nat) /\
    position <$> ys = seqZ 1 top.
Proof.
  destruct (check_period_data_missing_forward_fill
              {[ 0%nat := [record_of "4" "quantity" "d"; record_of "1" "quantity" "a"] ]}
              0%nat [record_of "4" "quantity" "d"; record_of "1" "quantity" "a"]
              "quantity")
    as (ys & top & Hrun & _ & _ & Hseq & _).
  - apply lookup_singleton_eq.
  - repeat constructor; by eexists.
  - change (NoDup [4; 1]). apply (bool_decide_unpack _). reflexivity.
  - change (1 ∈ [4; 1]). apply (bool_decide_unpack _). reflexivity.
  - change (Forall (fun p => 1 <= p) [4; 1]). repeat constructor; lia.
  - discriminate.
  - exists ys, top. split; [exact Hrun | exact Hseq].
Defined.

(** ** When the reconciliation raises *)

Lemma reconciled_unsortable (data : list record) (key : string) (e : exn) :
  map_result position_of data = Raise e -> reconciled data key = (data, Raise e).
Proof. intros He. unfold reconciled. by rewrite He. Qed.

Lemma reconciled_missing_value (data : list record) (key : string) (ks : list Z) :
  map_result position_of data = Ok ks ->
  Exists (fun x => dict_get key x = None) data ->
  reconciled data key = (sorted_by_position ks data, Raise KeyError).
Proof.
  intros Hks Hex. unfold reconciled. rewrite Hks.
  pose proof (sorted_by_position_Permutation ks data (map_result_length _ _ _ Hks)) as Hperm.
  apply (map_result_Ok _ 0) in Hks as [_ Hall].
  rewrite (map_result_first_error _ KeyError); [done| |].
  - apply Forall_forall. intros x Hx. rewrite Hperm in Hx.
    rewrite Forall_forall in Hall. destruct (Hall x Hx) as [p Hp].
    rewrite Hp. cbn. unfold dict_getitem.
    destruct (dict_get key x); [left; by eexists | by right].
  - apply Exists_exists in Hex as [x [Hx Hnone]]. apply Exists_exists.
    exists x. split; [by rewrite Hperm|].
    rewrite Forall_forall in Hall. destruct (Hall x Hx) as [p Hp].
    rewrite Hp. cbn. unfold dict_getitem. by rewrite Hnone.
Qed.

Lemma reconciled_without_first (data : list record) (key : string) :
  data <> [] ->
  Forall (readable key) data ->
  Forall (fun p => 1 < p) (position <$> data) ->
  reconciled data key = (sorted_by_position (position <$> data) data, Raise KeyError).
Proof.
  intros Hne Hread Hpos.
  unfold reconciled. rewrite (positions_readable key data Hread).
  pose proof (sorted_by_position_Permutation (position <$> data) data
                (length_fmap _ _)) as Hperm.
  set (sorted := sorted_by_position (position <$> data) data) in *.
  assert (Forall (readable key) sorted) as Hsorted.
  { apply Forall_forall. intros x Hx. rewrite Hperm in Hx.
    rewrite Forall_forall in Hread. by apply Hread. }
  rewrite (complete_pairs key sorted Hsorted).
  set (complete_data := dict_of_pairs (position_value key <$> sorted)).
  assert (forall k, k ∈ dict_keys complete_data <-> k ∈ position <$> data) as Hkeys.
  { intros k. unfold complete_data. rewrite complete_data_keys. by rewrite Hperm. }
  assert (forall k, k ∈ dict_keys complete_data -> 1 < k) as Hlow.
  { intros k Hk%Hkeys. rewrite Forall_forall in Hpos. by apply Hpos. }
  destruct (py_max_nonempty (dict_keys complete_data)) as [top Htop].
  { destruct data as [|x data]; [done|]. intros Hnil.
    assert (position x ∈ dict_keys complete_data) as Hin by (apply Hkeys; by left).
    rewrite Hnil in Hin. by apply elem_of_nil in Hin. }
  rewrite Htop. apply py_max_spec in Htop as [Hin _]. apply Hlow in Hin.
  unfold py_range. rewrite seqZ_cons by lia. cbn [fill_gaps].
  destruct (dict_mem 1 complete_data) eqn:Hmem.
  { apply dict_mem_keys, Hlow in Hmem. lia. }
  assert (filter (fun x => x < 1) (dict_keys complete_data) = []) as ->.
  { destruct (filter _ _) as [|k ks] eqn:Hf; [done|].
    assert (k ∈ filter (fun x => x < 1) (dict_keys complete_data)) as Hk
      by (rewrite Hf; by left).
    apply list_elem_of_filter in Hk as [Hlt Hk%Hlow]. lia. }
  cbn [py_max_default]. unfold dict_getitem.
  assert (dict_get 0 complete_data = None) as ->.
  { apply dict_get_None_keys. intros Hk%Hlow. lia. }
  cbn. by rewrite app_nil_r.
Qed.

(** X9: how [check_period_data_missing] fails, and what it leaves behind.
    An empty list gives [ValueError] (the maximum of no positions); a
    record whose position cannot be read gives the error of the reading,
    and the list keeps its order; when the positions can be read and a
    record has no value field, or when all the positions are above 1, the
    call raises [KeyError] and leaves the list sorted with nothing added. *)
Theorem check_period_data_missing_errors
    (h : heap) (l : loc) (data : list record) (key : string) :
  h !! l = Some data ->
  (data = [] -> check_period_data_missing l key h = (h, Raise ValueError)) /\
  (forall e, map_result position_of data = Raise e ->
             check_period_data_missing l key h = (h, Raise e)) /\
  (forall ks, map_result position_of data = Ok ks ->
              Exists (fun x => dict_get key x = None) data ->
              check_period_data_missing l key h =
              (<[l := sorted_by_position ks data]> h, Raise KeyError)) /\
  (data <> [] ->
   Forall (readable key) data ->
   Forall (fun p => 1 < p) (position <$> data) ->
   check_period_data_missing l key h =
   (<[l := sorted_by_position (position <$> data) data]> h, Raise KeyError)).
Proof.
  intros Hl. rewrite (check_period_data_missing_run _ _ _ _ Hl). split_and!.
  - intros ->. cbn. by rewrite insert_id.
  - intros e He. rewrite (reconciled_unsortable _ _ _ He). cbn. by rewrite insert_id.
  - intros ks Hks Hex. by rewrite (reconciled_missing_value _ _ _ Hks Hex).
  - intros Hne Hread Hpos. by rewrite (reconciled_without_first _ _ Hne Hread Hpos).
Qed.

Lemma check_period_data_missing_errors_witness :
  check_period_data_missing 0%nat "quantity"
    {[ 0%nat := [record_of "3" "quantity" "c"; record_of "2" "quantity" "b"] ]}
  = (<[ 0%nat := [record_of "2" "quantity" "b"; record_of "3" "quantity" "c"] ]>
       {[ 0%nat := [record_of "3" "quantity" "c"; record_of "2" "quantity" "b"] ]},
     Raise KeyError).
Proof.
  apply (proj2 (proj2 (proj2
           (check_period_data_missing_errors
              {[ 0%nat := [record_of "3" "quantity" "c"; record_of "2" "quantity" "b"] ]}
              0%nat [record_of "3" "quantity" "c"; record_of "2" "quantity" "b"]
              "quantity" (lookup_singleton_eq _ _))))).
  - discriminate.
  - repeat constructor; by eexists.
  - change (Forall (fun p => 1 < p) [3; 2]). repeat constructor; lia.
Defined.

(** ** The padding never shortens *)

Lemma py_index_last_Some {A} (xs : list A) (x : A) :
  py_index xs (-1) = Ok x -> last xs = Some x.
Proof.
  unfold py_index. change (-1 <? 0) with true. cbv iota.
  destruct (_ && _) eqn:Hrange; [|done].
  apply andb_true_iff in Hrange as [Hlo%Z.leb_le Hhi%Z.ltb_lt].
  replace (Z.to_nat (-1 + Z.of_nat (length xs))) with (pred (length xs)) by lia.
  rewrite last_lookup. by destruct (xs !! pred (length xs)); intros [= ->].
Qed.

Lemma padded_shape (data : list record) (length_ : Z) (ys : list record) :
  padded data length_ = Ok ys ->
  exists key xs v,
    (first ← py_index data 0; py_index (dict_keys first) 1) = Ok key /\
    reconciled data key = (xs, Ok tt) /\
    ys = xs ++ ((fun i => dict_of_pairs [("position", VStr (py_str (i + 1))); (key, v)])
                  <$> seqZ 0 (length_ - Z.of_nat (length xs))) /\
    (Z.of_nat (length xs) < length_ ->
     exists last_, last xs = Some last_ /\ dict_get key last_ = Some v).
Proof.
  unfold padded.
  destruct (py_index data 0 ≫= _) as [key|] eqn:Hkey; [|done].
  cbn [mbind result_bind].
  destruct (reconciled data key) as [xs [[]|e]] eqn:Hrec; [|done].
  cbn [fst snd mbind result_bind]. intros Hys. exists key, xs.
  destruct (decide (length_ - Z.of_nat (length xs) <= 0)) as [Hle|Hgt].
  - exists VNone. unfold py_range in Hys.
    rewrite seqZ_nil in Hys |- * by lia. cbn in Hys.
    split_and!; [done|done| |lia].
    rewrite !app_nil_r in *. by destruct (bool_decide _); injection Hys as <-.
  - rewrite bool_decide_eq_true_2 in Hys by lia.
    destruct (map_result _ _) as [new|] eqn:Hnew; [|done]. injection Hys as <-.
    unfold py_range in Hnew. replace (length_ - Z.of_nat (length xs) - 0)
      with (length_ - Z.of_nat (length xs)) in Hnew by lia.
    destruct (py_index xs (-1)) as [last_|] eqn:Hlast.
    2:{ rewrite seqZ_cons in Hnew by lia. by cbn in Hnew. }
    destruct (dict_get key last_) as [v|] eqn:Hv.
    2:{ rewrite seqZ_cons in Hnew by lia. cbn in Hnew.
        unfold dict_getitem in Hnew. by rewrite Hv in Hnew. }
    exists v. split_and!; [done|done| |].
    + f_equal. apply (map_result_Ok _ []) in Hnew as [-> _].
      apply list_fmap_ext. intros _ i _. cbn. unfold dict_getitem. by rewrite Hv.
    + intros _. exists last_. split; [by apply py_index_last_Some|done].
Qed.



(** ** The assertion of the Period parser *)

Lemma padded_sparse (data : list record) (length_ : Z) (first : record) (key : string) :
  head data = Some first ->
  dict_keys first !! 1%nat = Some key ->
  Forall (readable key) data ->
  NoDup (position <$> data) ->
  1 ∈ position <$> data ->
  Forall (fun p => 1 <= p) (position <$> data) ->
  key <> "position" ->
  exists ys top,
    padded data length_ = Ok ys /\
    top ∈ position <$> data /\
    Forall (fun p => p <= top) (position <$> data) /\
    Z.of_nat (length ys) = Z.max length_ top.
Proof.
  intros Hfirst Hsecond Hread Hnd Hone Hpos Hkey.
  destruct (reconciled_forward_fill data key Hread Hnd Hone Hpos Hkey)
    as (xs & top & Hrec & Htop & Hmax & Hseq & Hxs & _).
  assert (1 <= top) as Htop1.
  { rewrite Forall_forall in Hmax. by apply Hmax. }
  assert (Z.of_nat (length xs) = top) as Hlen.
  { rewrite <- (length_fmap position), Hseq, length_seqZ. lia. }
  unfold padded. rewrite (second_field _ _ _ Hfirst Hsecond).
  cbn [mbind result_bind]. rewrite Hrec. cbn [fst snd mbind result_bind].
  case_bool_decide as Hneq.
  - eexists _, top. split_and!; [|done|done|].
    + rewrite (map_result_total (B:=pydict string pyval) _ []); [reflexivity|].
      apply Forall_forall. intros i _.
      destruct (py_index_last xs) as [x [Hx Hin]].
      { intros ->. cbn in Hlen. lia. }
      rewrite Forall_forall in Hxs. destruct (Hxs x Hin) as [_ [v Hv]].
      rewrite Hx. cbn. unfold dict_getitem. rewrite Hv. by eexists.
    + rewrite List.length_app, length_fmap. unfold py_range. rewrite length_seqZ. lia.
  - exists xs, top. split_and!; [done|done|done|].
    destruct (decide (length_ = Z.of_nat (length xs))) as [->|Hne]; [lia|].
    by destruct Hneq.
Qed.

(** X11: the assertion of the Period parser. For a Period whose index can
    be built and whose Points have readable records with distinct positions
    from 1 on, the parser returns a table with the index and one row for
    each index entry when no position is beyond the length of the index;
    when a position is beyond it, the rows outnumber the index and the
    parser raises [AssertionError]. *)
Theorem StandardPeriodParser_assertion
    (date_range : pyval -> pyval -> string -> result (list timestamp))
    (json_normalize : list (string * unfolded) -> pydict string pyval)
    (Period : node) (index : list timestamp) (first : record) (key : string) :
  let data := children_dict "" <$> xpath_child "Point" Period in
  get_Period_index date_range Period = Ok index ->
  head data = Some first ->
  dict_keys first !! 1%nat = Some key ->
  key <> "position" ->
  Forall (readable key) data ->
  NoDup (position <$> data) ->
  1 ∈ position <$> data ->
  Forall (fun p => 1 <= p) (position <$> data) ->
  (Forall (fun p => p <= Z.of_nat (length index)) (position <$> data) ->
   exists df,
     StandardPeriodParser date_range json_normalize Period = Ok df /\
     df_index df = index /\
     length (df_data df) = length index /\
     data ⊆+ df_data df) /\
  (Exists (fun p => Z.of_nat (length index) < p) (position <$> data) ->
   StandardPeriodParser date_range json_normalize Period = Raise AssertionError).
Proof.
  intros data Hindex Hfirst Hsecond Hkey Hread Hnd Hone Hpos.
  destruct (padded_sparse data (Z.of_nat (length index)) first key
              Hfirst Hsecond Hread Hnd Hone Hpos Hkey)
    as (ys & top & Hys & Htop & Hmax & Hlen).
  unfold StandardPeriodParser, Period_to_DataFrame_fn.
  rewrite Hindex. cbn [mbind result_bind].
  rewrite get_Period_data_returned. fold data. rewrite Hys. cbn [mbind result_bind].
  split.
  - intros Hfit. rewrite Forall_forall in Hfit. specialize (Hfit top Htop).
    rewrite bool_decide_eq_true_2 by lia.
    eexists. split; [reflexivity|]. cbn [df_index df_data]. split_and!; [done|lia|].
    apply padded_shape in Hys as (key' & xs & v & _ & Hrec & -> & _).
    etrans; [apply (reconciled_submseteq data key')|]. rewrite Hrec. cbn [fst].
    by apply submseteq_inserts_r.
  - intros Hover. apply Exists_exists in Hover as [p [Hp Hlt]].
    rewrite Forall_forall in Hmax. specialize (Hmax p Hp).
    by rewrite bool_decide_eq_false_2 by lia.
Qed.

Lemma StandardPeriodParser_assertion_witness :
  StandardPeriodParser pd_date_range (fun _ => [])
    (period_node "2023-01-01T00:00Z" "2023-01-01T02:00Z" "PT60M"
       [point_node "1" "quantity" "a"; point_node "3" "quantity" "c"])
  = Raise AssertionError.
Proof.
  refine (proj2 (StandardPeriodParser_assertion pd_date_range (fun _ => [])
                   (period_node "2023-01-01T00:00Z" "2023-01-01T02:00Z" "PT60M"
                      [point_node "1" "quantity" "a"; point_node "3" "quantity" "c"])
                   [27875520; 27875580] (record_of "1" "quantity" "a") "quantity"
                   eq_refl eq_refl eq_refl _ _ _ _ _) _).
  - discriminate.
  - change (Forall (readable "quantity")
              [record_of "1" "quantity" "a"; record_of "3" "quantity" "c"]).
    repeat constructor; by eexists.
  - change (NoDup [1; 3]). apply (bool_decide_unpack _). reflexivity.
  - change (1 ∈ [1; 3]). apply (bool_decide_unpack _). reflexivity.
  - change (Forall (fun p => 1 <= p) [1; 3]). repeat constructor; lia.
  - change (Exists (fun p => 2 < p) [1; 3]).
    apply Exists_cons_tl, Exists_cons_hd. lia.
Defined.

(** ** The index of an outage series *)

Lemma map_result_Forall2 {A B} (f : A -> result B) (xs : list A) (ys : list B) :
  map_result f xs = Ok ys -> Forall2 (fun x y => f x = Ok y) xs ys.
Proof.
  revert ys. induction xs as [|x xs IH]; intros ys Hys.
  - injection Hys as <-. constructor.
  - cbn in Hys. destruct (f x) as [y|] eqn:Hy; [|done]. cbn in Hys.
    destruct (map_result f xs) as [ys'|]; [|done]. injection Hys as <-.
    constructor; [done|by apply IH].
Qed.

Lemma map_result_raises {A B} (f : A -> result B) (before after : list A) (x : A) (e : exn) :
  Forall (fun x => exists y, f x = Ok y) before ->
  f x = Raise e ->
  map_result f (before ++ x :: after) = Raise e.
Proof.
  intros Hbefore Hx. induction Hbefore as [|x' before [y Hy] _ IH]; cbn.
  - by rewrite Hx.
  - by rewrite Hy, IH.
Qed.

(** [xs[i]] counts from the end for a negative [i]: it is the entry
    [i mod len(xs)], for [i] from [-len(xs)] up to [len(xs) - 1]. *)
Lemma py_index_mod {A} (xs : list A) (i : Z) (x : A) :
  py_index xs i = Ok x <->
  - Z.of_nat (length xs) <= i < Z.of_nat (length xs) /\
  xs !! Z.to_nat (i mod Z.of_nat (length xs)) = Some x.
Proof.
  unfold py_index. set (n := Z.of_nat (length xs)).
  destruct (i <? 0) eqn:Hneg; [apply Z.ltb_lt in Hneg|apply Z.ltb_ge in Hneg].
  - destruct ((0 <=? i + n) && (i + n <? n)) eqn:Hrange.
    + apply andb_true_iff in Hrange as [Hlo%Z.leb_le Hhi%Z.ltb_lt].
      replace (i mod n) with (i + n).
      2:{ rewrite <- (Z_mod_plus_full i 1 n), Z.mod_small by lia. lia. }
      destruct (xs !! Z.to_nat (i + n)) as [y|]; cbn; split.
      * intros [= ->]. split; [lia|done].
      * by intros [_ [= ->]].
      * done.
      * by intros [_ ?].
    + apply andb_false_iff in Hrange as [Hlo%Z.leb_gt|Hhi%Z.ltb_ge];
        (split; [done|intros [? _]; lia]).
  - destruct ((0 <=? i) && (i <? n)) eqn:Hrange.
    + apply andb_true_iff in Hrange as [Hlo%Z.leb_le Hhi%Z.ltb_lt].
      rewrite Z.mod_small by lia.
      destruct (xs !! Z.to_nat i) as [y|]; cbn; split.
      * intros [= ->]. split; [lia|done].
      * by intros [_ [= ->]].
      * done.
      * by intros [_ ?].
    + apply andb_false_iff in Hrange as [Hlo%Z.leb_gt|Hhi%Z.ltb_ge];
        (split; [done|intros [? _]; lia]).
Qed.

Lemma py_index_out_of_range {A} (xs : list A) (i : Z) :
  i < - Z.of_nat (length xs) \/ Z.of_nat (length xs) <= i ->
  py_index xs i = Raise IndexError.
Proof.
  intros Hout. destruct (py_index xs i) as [x|e] eqn:Hx.
  - apply py_index_mod in Hx as [Hin _]. lia.
  - unfold py_index in Hx. destruct (_ && _); [|congruence].
    destruct (xs !! _); cbn in Hx; congruence.
Qed.

Lemma index_entry_position (index : list timestamp) (elem : record) :
  (position ← dict_getitem "position" elem;
   p ← py_int position;
   py_index index (p - 1)) =
  (p ← position_of elem; py_index index (p - 1)).
Proof.
  unfold position_of. destruct (dict_getitem "position" elem) as [v|]; [|done].
  cbn. by destruct (py_int v).
Qed.

(** X12: the index of the rows of an outage series with Points. The rows
    are the records of the Points, unchanged, and each row gets the entry
    of the generated index named by its position: position [p] takes entry
    [p - 1], and a position from [-(n - 1)] to 0 takes an entry counted from
    the end, where [n] is the length of the index. A position outside this
    range raises [IndexError]. *)
Theorem get_data_with_points
    (date_range : pyval -> pyval -> string -> result (list timestamp))
    (now_hour : timestamp) (Period : node) (index : list timestamp) :
  let data := children_dict "" <$>
                xpath_path ["TimeSeries"; "Available_Period"; "Point"] Period in
  data <> [] ->
  get_index date_range now_hour Period = Ok index ->
  (forall new_ind rows,
      get_data date_range now_hour Period = Ok (new_ind, rows) ->
      rows = data /\
      length new_ind = length rows /\
      Forall2 (fun elem t =>
                 exists p, position_of elem = Ok p /\
                           - Z.of_nat (length index) < p <= Z.of_nat (length index) /\
                           index !! Z.to_nat ((p - 1) mod Z.of_nat (length index)) = Some t)
              data new_ind) /\
  (forall before elem after p,
      data = before ++ elem :: after ->
      Forall (fun x => exists p t, position_of x = Ok p /\ py_index index (p - 1) = Ok t)
             before ->
      position_of elem = Ok p ->
      p <= - Z.of_nat (length index) \/ Z.of_nat (length index) < p ->
      get_data date_range now_hour Period = Raise IndexError).
Proof.
  intros data Hne Hindex. unfold get_data. rewrite Hindex. cbn [mbind result_bind].
  fold data. destruct data as [|first rest] eqn:Hdata; [done|]. rewrite <- Hdata.
  clear Hne. split.
  - intros new_ind rows Hget.
    destruct (map_result _ data) as [ts|] eqn:Hts; [|done]. injection Hget as <- <-.
    split; [done|]. split; [by apply map_result_length in Hts|].
    apply map_result_Forall2 in Hts.
    eapply Forall2_impl; [exact Hts|]. intros elem t Ht. cbn beta in Ht.
    rewrite index_entry_position in Ht.
    destruct (position_of elem) as [p|]; [|done]. cbn in Ht.
    apply py_index_mod in Ht as [Hrange Ht]. exists p. split_and!; [done|lia|lia|done].
  - intros before elem after p Hsplit Hbefore Hp Hout.
    rewrite Hsplit, (map_result_raises _ before after elem IndexError); [done| |].
    + eapply Forall_impl; [exact Hbefore|]. intros x (q & t & Hq & Ht).
      exists t. by rewrite index_entry_position, Hq.
    + rewrite index_entry_position, Hp. cbn. apply py_index_out_of_range. lia.
Qed.

Lemma get_data_with_points_witness :
  get_data pd_date_range 27875520
    (outage_document []
       [Node "resolution" (Some "PT60M") [];
        point_node "1" "quantity" "5"; point_node "3" "quantity" "7"])
  = Raise IndexError.
Proof.
  refine (proj2 (get_data_with_points pd_date_range 27875520
                   (outage_document []
                      [Node "resolution" (Some "PT60M") [];
                       point_node "1" "quantity" "5"; point_node "3" "quantity" "7"])
                   [27875520; 27875580] _ eq_refl)
            [record_of "1" "quantity" "5"] (record_of "3" "quantity" "7") [] 3
            eq_refl _ eq_refl _).
  - discriminate.
  - repeat constructor. by exists 1, 27875520.
  - right. change (2 < 3). lia.
Defined.

(** ** The exceptions of the outage parser *)

Lemma map_result_Raise_inv {A B} (f : A -> result B) (xs : list A) (e : exn) :
  map_result f xs = Raise e -> exists x, x ∈ xs /\ f x = Raise e.
Proof.
  induction xs as [|x xs IH]; [done|]. cbn.
  destruct (f x) as [y|e'] eqn:Hx; cbn.
  - destruct (map_result f xs) as [ys|e']; [done|]. intros [= ->].
    destruct (IH eq_refl) as [x' [Hin Hx']]. exists x'. split; [by right|done].
  - intros [= ->]. exists x. split; [by left|done].
Qed.

Lemma py_index_raises {A} (xs : list A) (i : Z) (e : exn) :
  py_index xs i = Raise e -> e = IndexError.
Proof.
  unfold py_index. destruct (_ && _); [|congruence].
  destruct (xs !! _); cbn; congruence.
Qed.

Lemma join_raises (sep : string) (values : list pyval) (e : exn) :
  join sep values = Raise e -> e = TypeError.
Proof.
  induction values as [|v values IH]; [done|]. cbn.
  destruct v; try congruence. destruct values as [|v' values]; [done|].
  destruct (join sep (v' :: values)); cbn; [done|]. intros [= ->]. by apply IH.
Qed.

Lemma join_not_string (sep : string) (values : list pyval) :
  VNone ∈ values -> join sep values = Raise TypeError.
Proof.
  induction values as [|v values IH]; intros Hin; [by apply elem_of_nil in Hin|].
  apply elem_of_cons in Hin as [<-|Hin]; [done|].
  cbn. destruct v; try done. destruct values as [|v' values];
    [by apply elem_of_nil in Hin|].
  by rewrite (IH Hin).
Qed.

Lemma resolution_lookup_raises (r : pyval) (e : exn) :
  resolution_lookup r = Raise e -> e = KeyError.
Proof.
  unfold resolution_lookup, dict_getitem. destruct r; try congruence.
  destruct (dict_get _ _); cbn; congruence.
Qed.

Lemma get_resource_raises (Period : node) (e : exn) :
  get_resource Period = Raise e -> e = TypeError.
Proof.
  unfold get_resource. destruct (head _); [|done].
  destruct (dict_map_result _ _) as [m|e'] eqn:Hm; [done|]. intros [= ->].
  apply map_result_Raise_inv in Hm as [[k values] [_ Hjoin]]. cbn in Hjoin.
  destruct (join ", " values) as [s|e'] eqn:Hs; [done|].
  injection Hjoin as <-. by apply join_raises in Hs.
Qed.

Lemma get_infos_raises (Period : node) (e : exn) :
  get_infos Period = Raise e -> e = IndexError.
Proof.
  unfold get_infos. destruct (py_index _ 0) as [data|e'] eqn:Hdata; [done|].
  intros [= ->]. by apply py_index_raises in Hdata.
Qed.

Lemma get_reason_raises (Period : node) (e : exn) :
  get_reason Period = Raise e -> e = IndexError.
Proof.
  unfold get_reason. destruct (py_index _ 0) as [data|e'] eqn:Hdata.
  - cbn. destruct (dict_get _ data); [case_decide|]; done.
  - intros [= ->]. by apply py_index_raises in Hdata.
Qed.

Lemma get_createdatetime_raises element_str (Period : node) (e : exn) :
  get_createdatetime element_str Period = Raise e -> e = KeyError.
Proof.
  unfold get_createdatetime.
  destruct (xpath_anywhere "TimeSeries" Period ≫= _) as [|r [|r' rs]]; try done.
  destruct (resolution_lookup _) as [freq|e'] eqn:Hfreq; [done|].
  intros [= ->]. by apply resolution_lookup_raises in Hfreq.
Qed.

(** The columns of an outage table never raise [AssertionError]. *)
Lemma outage_columns_raise (element_str : node -> string) (Period : node)
    (index : list timestamp) (data : list record) :
  (resource ← get_resource Period;
   infos ← get_infos Period;
   reason ← get_reason Period;
   created ← get_createdatetime element_str Period;
   match resource with
   | Some resource =>
       mret (mkDataFrame index data (dict_merge [resource; infos; reason; created]))
   | None =>
       mret (mkDataFrame index data (dict_merge [infos; reason; created]))
   end) <> Raise AssertionError.
Proof.
  destruct (get_resource Period) as [resource|e] eqn:Hresource; cbn;
    [|by intros [= ->]; apply get_resource_raises in Hresource].
  destruct (get_infos Period) as [infos|e] eqn:Hinfos; cbn;
    [|by intros [= ->]; apply get_infos_raises in Hinfos].
  destruct (get_reason Period) as [reason|e] eqn:Hreason; cbn;
    [|by intros [= ->]; apply get_reason_raises in Hreason].
  destruct (get_createdatetime element_str Period) as [created|e] eqn:Hcreated; cbn;
    [|by intros [= ->]; apply get_createdatetime_raises in Hcreated].
  by destruct resource.
Qed.

(** X13: the assertion of the outage parser fails for the sentinel row
    only. When the index of the series can be built, [outage_dataframe]
    raises [AssertionError] exactly when the document has no Point and the
    index does not have length 1: with Points every row has its index
    entry. *)
Theorem outage_dataframe_assertion
    (date_range : pyval -> pyval -> string -> result (list timestamp))
    (now_hour : timestamp) (element_str : node -> string)
    (Period : node) (index : list timestamp) :
  get_index date_range now_hour Period = Ok index ->
  outage_dataframe date_range now_hour element_str Period = Raise AssertionError <->
  xpath_path ["TimeSeries"; "Available_Period"; "Point"] Period = [] /\
  length index <> 1%nat.
Proof.
  intros Hindex. unfold outage_dataframe, get_data. rewrite Hindex.
  cbn [mbind result_bind].
  destruct (xpath_path ["TimeSeries"; "Available_Period"; "Point"] Period)
    as [|point points].
  - cbn [fmap list_fmap mret result_ret mbind result_bind length].
    case_bool_decide as Hlen.
    + split; [|by intros [_ Hne]].
      intros Hraise. by apply outage_columns_raise in Hraise.
    + split; [by intros _|done].
  - split; [|by intros [? _]]. rewrite fmap_cons.
    destruct (map_result _ _) as [new_ind|e] eqn:Hind.
    + cbn [mbind result_bind mret result_ret].
      apply map_result_length in Hind.
      rewrite bool_decide_eq_true_2 by done.
      intros Hraise. by apply outage_columns_raise in Hraise.
    + cbn. intros [= ->].
      apply map_result_Raise_inv in Hind as [elem [_ Helem]].
      rewrite index_entry_position in Helem.
      unfold position_of, dict_getitem in Helem.
      destruct (dict_get "position" elem) as [v|]; [|done]. cbn in Helem.
      destruct v as [|s|z]; cbn in Helem; [done| |].
      * destruct (int_of_str s); cbn in Helem; [|done].
        by apply py_index_raises in Helem.
      * by apply py_index_raises in Helem.
Qed.

Lemma outage_dataframe_assertion_witness :
  outage_dataframe pd_date_range 27875520 text_or_empty
    (outage_document [] [Node "resolution" (Some "PT60M") []])
  = Raise AssertionError.
Proof.
  apply (proj2 (outage_dataframe_assertion pd_date_range 27875520 text_or_empty
                  (outage_document [] [Node "resolution" (Some "PT60M") []])
                  [27875520; 27875580] eq_refl)).
  split; [reflexivity|discriminate].
Defined.

(** X14: the only exception of [get_resource] is the [TypeError] of the
    join, and it is raised as soon as a field of an affected resource has
    no text. *)
Theorem get_resource_type_error (Period : node) :
  let entries : list (pydict string pyval) :=
    children_dict "Asset_RegisteredResource."
      <$> xpath_path ["TimeSeries"; "Asset_RegisteredResource"] Period in
  (forall e, get_resource Period = Raise e -> e = TypeError) /\
  (Exists (fun entry => exists key, dict_get key entry = Some VNone) entries ->
   get_resource Period = Raise TypeError).
Proof.
  intros entries. split; [apply get_resource_raises|].
  intros Hex. apply Exists_exists in Hex as [entry [Hentry [key Hkey]]].
  assert (xpath_path ["TimeSeries"; "Asset_RegisteredResource"] Period <> []) as Hpts.
  { intros Hnil. unfold entries in Hentry. rewrite Hnil in Hentry.
    by apply elem_of_nil in Hentry. }
  rewrite (get_resource_entries _ Hpts). fold entries.
  assert (Forall (fun entry => NoDup (dict_keys entry)) entries) as Hnd.
  { apply Forall_fmap, Forall_forall. intros n _. apply children_dict_NoDup. }
  unfold dict_map_result.
  rewrite (map_result_first_error _ TypeError); [done| |].
  - apply Forall_forall. intros [k values] _. cbn.
    destruct (join ", " values) as [s|e] eqn:Hs; [left; by eexists|right].
    by apply join_raises in Hs as ->.
  - assert (VNone ∈ field_values key entries) as Hnone.
    { apply list_elem_of_omap. by exists entry. }
    pose proof (collected_fields entries key Hnd) as Hget.
    destruct (field_values key entries) as [|v values] eqn:Hvalues;
      [by apply elem_of_nil in Hnone|].
    apply dict_get_elem_of in Hget. apply Exists_exists.
    exists (key, v :: values). split; [done|].
    cbn [fst snd]. by rewrite (join_not_string _ _ Hnone).
Qed.

Lemma get_resource_type_error_witness :
  get_resource
    (outage_document
       [Node "Asset_RegisteredResource" None
          [Node "mRID" (Some "R1") []; Node "name" None []]] [])
  = Raise TypeError.
Proof.
  apply (proj2 (get_resource_type_error
                  (outage_document
                     [Node "Asset_RegisteredResource" None
                        [Node "mRID" (Some "R1") []; Node "name" None []]] []))).
  apply Exists_cons_hd. by exists "Asset_RegisteredResource.name".
Defined.

(** ** The columns taken from the document *)

Lemma py_index_head {A} (xs : list A) :
  py_index xs 0 = of_option IndexError (head xs).
Proof. by destruct xs. Qed.

Lemma dict_pop_get {K V} `{EqDecision K} (k k' : K) (d : pydict K V) :
  NoDup (dict_keys d) ->
  dict_get k (dict_pop k' d) = if decide (k = k') then None else dict_get k d.
Proof.
  unfold dict_keys. induction d as [|[k1 v1] d IH]; intros Hnd.
  - cbn. by case_decide.
  - rewrite fmap_cons in Hnd. apply NoDup_cons in Hnd as [Hk1 Hnd]. cbn [dict_pop].
    destruct (decide (k' = k1)) as [->|Hne].
    + cbn [dict_get]. destruct (decide (k = k1)) as [->|?]; [|done].
      by apply dict_get_None_keys.
    + cbn [dict_get]. rewrite (IH Hnd).
      destruct (decide (k = k1)) as [->|?]; [|done]. by rewrite decide_False.
Qed.

Lemma dict_pop_NoDup {K V} `{EqDecision K} (k' : K) (d : pydict K V) :
  NoDup (dict_keys d) -> NoDup (dict_keys (dict_pop k' d)).
Proof.
  unfold dict_keys. induction d as [|[k1 v1] d IH]; intros Hnd; [done|].
  rewrite fmap_cons in Hnd. apply NoDup_cons in Hnd as [Hk1 Hnd]. cbn [dict_pop].
  destruct (decide (k' = k1)) as [->|Hne]; [done|].
  rewrite fmap_cons. apply NoDup_cons. split; [|by apply IH].
  intros Hin. apply Hk1. by apply (dict_pop_keys _ k').
Qed.

(** X15: the reason of an outage. Only the first [Reason] element is
    read, and without one the call raises [IndexError]. The result always
    has the key [Reason.text]. Its value is the empty string when the
    element has no [text] child, or when the text of that child is the blank
    of an indented empty element; otherwise it is the text of the child as
    it is, which is [None] for an empty [text] child: [None] is not replaced
    by the empty string. Every other field is the one of the element. *)
Theorem get_reason_text (Period : node) :
  (xpath_child "Reason" Period = [] -> get_reason Period = Raise IndexError) /\
  (forall first rest,
      xpath_child "Reason" Period = first :: rest ->
      exists reason,
        get_reason Period = Ok reason /\
        dict_get "Reason.text" reason =
          Some (match dict_get "Reason.text" (children_dict "Reason." first) with
                | Some t => if decide (t = VStr reason_blank) then VStr "" else t
                | None => VStr ""
                end) /\
        dict_get "Reason.text" reason <> Some (VStr reason_blank) /\
        (forall key, key <> "Reason.text" ->
                     dict_get key reason = dict_get key (children_dict "Reason." first)) /\
        (dict_get "Reason.text" (children_dict "Reason." first) = Some VNone ->
         dict_get "Reason.text" reason = Some VNone) /\
        (forall text,
            dict_get "Reason.text" (children_dict "Reason." first) = Some (VStr text) ->
            text <> reason_blank ->
            dict_get "Reason.text" reason = Some (VStr text))).
Proof.
  unfold get_reason. split; [by intros ->|].
  intros first rest ->. rewrite fmap_cons, py_index_head. cbn [head of_option mbind result_bind].
  destruct (dict_get "Reason.text" (children_dict "Reason." first)) as [t|] eqn:Ht.
  - case_decide as Hblank; eexists; (split; [reflexivity|]); split_and!.
    + by rewrite dict_get_set, decide_True.
    + by rewrite dict_get_set, decide_True.
    + intros key Hkey. by rewrite dict_get_set, decide_False.
    + by intros [= ->].
    + intros text [= ->] Htext. by injection Hblank as ->.
    + done.
    + rewrite Ht. by intros [= ->].
    + done.
    + by intros [= ->].
    + by intros text [= ->] _.
  - eexists; (split; [reflexivity|]); split_and!.
    + by rewrite dict_get_set, decide_True.
    + by rewrite dict_get_set, decide_True.
    + intros key Hkey. by rewrite dict_get_set, decide_False.
    + done.
    + done.
Qed.

Lemma get_reason_text_witness :
  exists reason,
    get_reason
      (Node "Unavailability_MarketDocument" None
         [Node "Reason" None [Node "code" (Some "B19") []; Node "text" None []];
          Node "Reason" None [Node "code" (Some "B20") []]])
    = Ok reason /\
    dict_get "Reason.text" reason = Some VNone /\
    dict_get "Reason.code" reason = Some (VStr "B19").
Proof.
  destruct (proj2 (get_reason_text
                     (Node "Unavailability_MarketDocument" None
                        [Node "Reason" None
                           [Node "code" (Some "B19") []; Node "text" None []];
                         Node "Reason" None [Node "code" (Some "B20") []]]))
              (Node "Reason" None [Node "code" (Some "B19") []; Node "text" None []])
              [Node "Reason" None [Node "code" (Some "B20") []]] eq_refl)
    as (reason & Hreason & _ & _ & Hother & Hnone & _).
  exists reason. split; [exact Hreason|]. split; [exact (Hnone eq_refl)|].
  rewrite (Hother "Reason.code"); [reflexivity|discriminate].
Defined.

(** X16: the series fields of an outage. They are the fields of the first
    [TimeSeries] of the document, [IndexError] without one, with the
    resources, the available period and the reason left out and all the
    others kept as they are. *)
Theorem get_infos_fields (Period : node) :
  (xpath_anywhere "TimeSeries" Period = [] -> get_infos Period = Raise IndexError) /\
  (forall first rest,
      xpath_anywhere "TimeSeries" Period = first :: rest ->
      exists infos,
        get_infos Period = Ok infos /\
        NoDup (dict_keys infos) /\
        forall key,
          dict_get key infos =
          if decide (key ∈ ["TimeSeries.Asset_RegisteredResource";
                            "TimeSeries.Available_Period"; "TimeSeries.Reason"])
          then None
          else dict_get key (children_dict "TimeSeries." first)).
Proof.
  unfold get_infos. split; [by intros ->|].
  intros first rest ->. rewrite fmap_cons, py_index_head.
  cbn [head of_option mbind result_bind]. eexists. split; [reflexivity|].
  pose proof (children_dict_NoDup "TimeSeries." first) as Hnd.
  split; [by do 3 apply dict_pop_NoDup|].
  intros key. rewrite !dict_pop_get by (try done; by repeat apply dict_pop_NoDup).
  destruct (decide (key ∈ _)) as [Hkey|Hkey].
  - rewrite !elem_of_cons, elem_of_nil in Hkey.
    destruct Hkey as [->|[->|[->|[]]]]; by repeat case_decide.
  - rewrite !not_elem_of_cons in Hkey. destruct Hkey as (? & ? & ? & _).
    by rewrite !decide_False.
Qed.

Lemma get_infos_fields_witness :
  exists infos,
    get_infos two_resources_document = Ok infos /\
    dict_get "TimeSeries.Available_Period" infos = None /\
    dict_get "TimeSeries.businessType" infos = Some (VStr "A53").
Proof.
  destruct (proj2 (get_infos_fields two_resources_document) _ [] eq_refl)
    as (infos & Hinfos & _ & Hget).
  exists infos. split; [exact Hinfos|].
  split; [exact (Hget "TimeSeries.Available_Period") | exact (Hget "TimeSeries.businessType")].
Defined.

(** X17: the document fields of an outage. The result has the four keys
    CreatedDateTime, DocStatus, RevisionNumber and Resolution, in this
    order. The resolution is looked up only when the document declares
    exactly one: with none or several the field is [None] and nothing is
    raised; with one whose code is not in the table the call raises
    [KeyError]. *)
Theorem get_createdatetime_fields (element_str : node -> string) (Period : node) :
  let resolution := xpath_anywhere "TimeSeries" Period
                      ≫= xpath_path ["Available_Period"; "resolution"] in
  (forall created,
      get_createdatetime element_str Period = Ok created ->
      dict_keys created = ["CreatedDateTime"; "DocStatus"; "RevisionNumber"; "Resolution"]) /\
  (length resolution <> 1%nat ->
   exists created,
     get_createdatetime element_str Period = Ok created /\
     dict_get "Resolution" created = Some VNone) /\
  (forall r, resolution = [r] ->
     (forall freq, resolution_lookup (of_text (node_text r)) = Ok freq ->
        exists created,
          get_createdatetime element_str Period = Ok created /\
          dict_get "Resolution" created = Some (VStr freq)) /\
     ((forall code, code ∈ resolution_codes -> node_text r <> Some code) ->
      get_createdatetime element_str Period = Raise KeyError)).
Proof.
  intros resolution. unfold get_createdatetime. fold resolution. split_and!.
  - intros created.
    destruct (match resolution with [r] => _ | _ => _ end) as [resolved|]; [|done].
    by intros [= <-].
  - intros Hlen. destruct resolution as [|r [|r' rs]]; [|done|]; by eexists.
  - intros r ->. split.
    + intros freq ->. by eexists.
    + intros Hcode. by rewrite (resolution_lookup_unknown _ Hcode).
Qed.

Lemma get_createdatetime_fields_witness :
  get_createdatetime text_or_empty
    (outage_document [] [Node "resolution" (Some "PT5M") []])
  = Raise KeyError.
Proof.
  apply (proj2 (proj2 (proj2 (get_createdatetime_fields text_or_empty
                  (outage_document [] [Node "resolution" (Some "PT5M") []])))
           (Node "resolution" (Some "PT5M") []) eq_refl)).
  apply not_resolution_code. reflexivity.
Defined.

(** ** The merge of the outage columns *)

Lemma dict_map_result_keys {A B} (f : A -> result B) (d : pydict string A)
    (m : pydict string B) :
  dict_map_result f d = Ok m -> dict_keys m = dict_keys d.
Proof.
  unfold dict_map_result, dict_keys. revert m.
  induction d as [|[k a] d IH]; intros m Hm.
  - by injection Hm as <-.
  - cbn in Hm. destruct (f a) as [b|]; [|done]. cbn in Hm.
    destruct (map_result _ d) as [m'|]; [|done]. cbn in Hm. injection Hm as <-.
    rewrite !fmap_cons. cbn. by rewrite (IH m' eq_refl).
Qed.

Lemma get_resource_keys (Period : node) (resource : pydict string pyval) :
  get_resource Period = Ok (Some resource) ->
  NoDup (dict_keys resource) /\
  forall key, key ∈ dict_keys resource ->
              exists t, key = "Asset_RegisteredResource." +:+ t.
Proof.
  intros Hres.
  assert (xpath_path ["TimeSeries"; "Asset_RegisteredResource"] Period <> []) as Hpts.
  { intros Hnil. by rewrite (get_resource_none _ Hnil) in Hres. }
  rewrite (get_resource_entries _ Hpts) in Hres.
  destruct (dict_map_result _ _) as [m|] eqn:Hm; [|done]. injection Hres as ->.
  apply dict_map_result_keys in Hm. rewrite Hm. split; [apply collected_NoDup|].
  intros key Hkey. apply dict_get_Some_keys in Hkey as [values Hvalues].
  rewrite collected_fields in Hvalues
    by (apply Forall_fmap, Forall_forall; intros n _; apply children_dict_NoDup).
  destruct (field_values key _) as [|v vs] eqn:Hfield; [done|].
  assert (v ∈ field_values key
                (children_dict "Asset_RegisteredResource."
                   <$> xpath_path ["TimeSeries"; "Asset_RegisteredResource"] Period))
    as Hv by (rewrite Hfield; by left).
  apply list_elem_of_omap in Hv as [entry [Hentry Hget]].
  apply list_elem_of_fmap in Hentry as [n [-> _]].
  apply (children_dict_keys "Asset_RegisteredResource." n).
  apply dict_get_Some_keys. by eexists.
Qed.

Lemma dict_merge_disjoint {K V} `{EqDecision K} (ds : list (pydict K V)) :
  NoDup (concat ds).*1 -> dict_merge ds = concat ds.
Proof. apply dict_of_pairs_id. Qed.

Lemma get_reason_NoDup (Period : node) (reason : pydict string pyval) :
  get_reason Period = Ok reason -> NoDup (dict_keys reason).
Proof.
  unfold get_reason. destruct (py_index _ 0) as [data|] eqn:Hdata; [|done].
  apply py_index_elem_of, list_elem_of_fmap in Hdata as [n [-> _]].
  pose proof (children_dict_NoDup "Reason." n) as Hnd. cbn [mbind result_bind].
  destruct (dict_get _ _); [case_decide|]; intros [= <-];
    try done; by apply dict_set_NoDup.
Qed.

Lemma get_infos_NoDup (Period : node) (infos : pydict string pyval) :
  get_infos Period = Ok infos -> NoDup (dict_keys infos).
Proof.
  unfold get_infos. destruct (py_index _ 0) as [data|] eqn:Hdata; [|done].
  apply py_index_elem_of, list_elem_of_fmap in Hdata as [n [-> _]].
  intros [= <-]. do 3 apply dict_pop_NoDup. apply children_dict_NoDup.
Qed.

Lemma get_createdatetime_key_list element_str (Period : node)
    (created : pydict string pyval) :
  get_createdatetime element_str Period = Ok created ->
  dict_keys created = ["CreatedDateTime"; "DocStatus"; "RevisionNumber"; "Resolution"].
Proof.
  unfold get_createdatetime.
  destruct (match _ with [r] => _ | _ => _ end) as [resolved|]; [|done].
  by intros [= <-].
Qed.

(** X18: nothing is overwritten when the columns of an outage table are
    merged. The keys of the resources, of the series, of the reason and of
    the document are four separate families, so the columns assigned to the
    table are those of the four mappings, one after the other. *)
Theorem outage_dataframe_columns
    (date_range : pyval -> pyval -> string -> result (list timestamp))
    (now_hour : timestamp) (element_str : node -> string)
    (Period : node) (df : DataFrame) :
  outage_dataframe date_range now_hour element_str Period = Ok df ->
  exists resource infos reason created,
    get_resource Period = Ok resource /\
    get_infos Period = Ok infos /\
    get_reason Period = Ok reason /\
    get_createdatetime element_str Period = Ok created /\
    get_data date_range now_hour Period = Ok (df_index df, df_data df) /\
    df_assigned df = default [] resource ++ infos ++ reason ++ created /\
    NoDup (dict_keys (df_assigned df)).
Proof.
  unfold outage_dataframe.
  destruct (get_data _ _ _) as [[index data]|]; [|done]. cbn [mbind result_bind].
  destruct (bool_decide _); [|done].
  destruct (get_resource Period) as [resource|] eqn:Hresource; [|done].
  destruct (get_infos Period) as [infos|] eqn:Hinfos; [|done].
  destruct (get_reason Period) as [reason|] eqn:Hreason; [|done].
  destruct (get_createdatetime element_str Period) as [created|] eqn:Hcreated; [|done].
  cbn [mbind result_bind]. intros Hdf.
  exists resource, infos, reason, created.
  assert (df = mkDataFrame index data (dict_merge [default [] resource; infos; reason; created]))
    as ->.
  { destruct resource; by injection Hdf as <-. }
  cbn [df_index df_data df_assigned].
  assert (NoDup (concat [default [] resource; infos; reason; created]).*1) as Hnd.
  { cbn [concat]. rewrite app_nil_r, !fmap_app.
    pose proof (fun key => get_infos_keys _ _ key Hinfos) as Hts.
    pose proof (fun key => get_reason_keys _ _ key Hreason) as Hre.
    pose proof (fun key => get_createdatetime_keys _ _ _ key Hcreated) as Hcr.
    assert (forall key, key ∈ (default [] resource).*1 ->
                        exists t, key = "Asset_RegisteredResource." +:+ t) as Har.
    { destruct resource as [resource|]; [|by intros key Hkey%elem_of_nil].
      apply (get_resource_keys _ _ Hresource). }
    assert (forall key, key ∈ created.*1 ->
              (forall t, key <> "Asset_RegisteredResource." +:+ t) /\
              (forall t, key <> "TimeSeries." +:+ t) /\
              (forall t, key <> "Reason." +:+ t)) as Hfour.
    { intros key Hkey%Hcr. rewrite !elem_of_cons, elem_of_nil in Hkey.
      destruct Hkey as [->|[->|[->|[->|[]]]]]; split_and!; intros t; discriminate. }
    rewrite !NoDup_app. split_and!.
    - destruct resource as [resource|]; [|apply NoDup_nil_2].
      apply (get_resource_keys _ _ Hresource).
    - intros key [t ->]%Har. rewrite !elem_of_app.
      intros [[t' Ht']%Hts|[[t' Ht']%Hre|Hkey%Hfour]]; try discriminate.
      destruct Hkey as [Hkey _]. by apply (Hkey t).
    - by apply get_infos_NoDup in Hinfos.
    - intros key [t ->]%Hts. rewrite !elem_of_app.
      intros [[t' Ht']%Hre|Hkey%Hfour]; try discriminate.
      destruct Hkey as (_ & Hkey & _). by apply (Hkey t).
    - by apply get_reason_NoDup in Hreason.
    - intros key [t ->]%Hre Hkey%Hfour.
      destruct Hkey as (_ & _ & Hkey). by apply (Hkey t).
    - apply get_createdatetime_key_list in Hcreated. unfold dict_keys in Hcreated.
      rewrite Hcreated. apply (bool_decide_unpack _). reflexivity. }
  split_and!; try done.
  - rewrite (dict_merge_disjoint _ Hnd). cbn [concat]. by rewrite app_nil_r.
  - rewrite (dict_merge_disjoint _ Hnd). exact Hnd.
Qed.

Lemma outage_dataframe_columns_witness :
  exists resource infos reason created,
    get_resource two_resources_document = Ok resource /\
    get_infos two_resources_document = Ok infos /\
    get_reason two_resources_document = Ok reason /\
    get_createdatetime text_or_empty two_resources_document = Ok created /\
    [ ("Asset_RegisteredResource.mRID", VStr "R1, R2");
      ("Asset_RegisteredResource.name", VStr "Unit A, Unit B");
      ("TimeSeries.businessType", VStr "A53");
      ("Reason.code", VStr "B19"); ("Reason.text", VStr "");
      ("CreatedDateTime", VStr "2023-01-01T00:00:00Z");
      ("DocStatus", VNone); ("RevisionNumber", VNone); ("Resolution", VStr "60min") ]
    = default [] resource ++ infos ++ reason ++ created.
Proof.
  destruct (outage_dataframe_columns pd_date_range 27875520 text_or_empty
              two_resources_document
              (mkDataFrame [27875520; 27875580]
                 [record_of "1" "quantity" "5"; record_of "2" "quantity" "7"]
                 [ ("Asset_RegisteredResource.mRID", VStr "R1, R2");
                   ("Asset_RegisteredResource.name", VStr "Unit A, Unit B");
                   ("TimeSeries.businessType", VStr "A53");
                   ("Reason.code", VStr "B19"); ("Reason.text", VStr "");
                   ("CreatedDateTime", VStr "2023-01-01T00:00:00Z");
                   ("DocStatus", VNone); ("RevisionNumber", VNone);
                   ("Resolution", VStr "60min") ]))
    as (resource & infos & reason & created & H1 & H2 & H3 & H4 & _ & H5 & _).
  - reflexivity.
  - exists resource, infos, reason, created. by split_and!.
Defined.

(** ** What the index builders need *)

Lemma children_dict_has (t : string) (n : node) :
  is_Some (dict_get t (children_dict "" n)) <-> xpath_child t n <> [].
Proof.
  rewrite dict_get_Some_keys. unfold children_dict. rewrite dict_keys_of_pairs.
  rewrite <- list_fmap_compose. unfold xpath_child. split.
  - intros [c [Ht Hc]]%list_elem_of_fmap Hnil. cbn in Ht.
    assert (c ∈ filter (fun c' => node_tag c' = t) (getchildren n)) as Hin
      by (by apply list_elem_of_filter).
    rewrite Hnil in Hin. by apply elem_of_nil in Hin.
  - intros Hne. destruct (filter _ _) as [|c cs] eqn:Hf; [done|].
    assert (c ∈ filter (fun c => node_tag c = t) (getchildren n)) as Hin
      by (rewrite Hf; by left).
    apply list_elem_of_filter in Hin as [<- Hin].
    apply list_elem_of_fmap. by exists c.
Qed.

Lemma children_dict_lacks (t : string) (n : node) :
  xpath_child t n = [] -> dict_get t (children_dict "" n) = None.
Proof.
  intros Hnil. apply eq_None_not_Some. rewrite children_dict_has. by intros [].
Qed.

(** X19: what [get_index] needs. The index of an outage series is built
    from the first [unavailability_Time_Period.timeInterval] of the
    document: without one the call raises [IndexError], and when it has no
    [start] or no [end] the call raises [KeyError], also when no resolution
    is declared and the interval would not be used. A declared resolution
    that is not in the table raises [KeyError] as well. *)
Theorem get_index_requirements
    (date_range : pyval -> pyval -> string -> result (list timestamp))
    (now_hour : timestamp) (Period : node) :
  let intervals := xpath_child "unavailability_Time_Period.timeInterval" Period in
  (intervals = [] -> get_index date_range now_hour Period = Raise IndexError) /\
  (forall first rest,
      intervals = first :: rest ->
      xpath_child "start" first = [] \/ xpath_child "end" first = [] ->
      get_index date_range now_hour Period = Raise KeyError) /\
  (forall first rest r rs,
      intervals = first :: rest ->
      xpath_child "start" first <> [] ->
      xpath_child "end" first <> [] ->
      xpath_path ["TimeSeries"; "Available_Period"; "resolution"] Period = r :: rs ->
      (forall code, code ∈ resolution_codes -> node_text r <> Some code) ->
      get_index date_range now_hour Period = Raise KeyError).
Proof.
  intros intervals. unfold get_index. fold intervals. split_and!.
  - by intros ->.
  - intros first rest -> Hmissing. rewrite fmap_cons, py_index_head.
    cbn [head of_option mbind result_bind]. unfold dict_getitem.
    destruct (dict_get "start" (children_dict "" first)) as [start|] eqn:Hstart; [|done].
    cbn [of_option mbind result_bind].
    destruct Hmissing as [Hnil|Hnil].
    + by rewrite (children_dict_lacks _ _ Hnil) in Hstart.
    + by rewrite (children_dict_lacks _ _ Hnil).
  - intros first rest r rs -> [start Hstart]%children_dict_has [end_ Hend]%children_dict_has
      -> Hcode.
    rewrite fmap_cons, py_index_head. cbn [head of_option mbind result_bind].
    unfold dict_getitem. rewrite Hstart, Hend. cbn [of_option mbind result_bind].
    by rewrite (resolution_lookup_unknown _ Hcode).
Qed.

Lemma get_index_requirements_witness :
  get_index pd_date_range 27875520
    (Node "Unavailability_MarketDocument" None
       [Node "unavailability_Time_Period.timeInterval" None
          [Node "start" (Some "2023-01-01T00:00Z") []]])
  = Raise KeyError.
Proof.
  apply (proj1 (proj2 (get_index_requirements pd_date_range 27875520
                  (Node "Unavailability_MarketDocument" None
                     [Node "unavailability_Time_Period.timeInterval" None
                        [Node "start" (Some "2023-01-01T00:00Z") []]])))
           (Node "unavailability_Time_Period.timeInterval" None
              [Node "start" (Some "2023-01-01T00:00Z") []]) [] eq_refl).
  by right.
Defined.

(** X20: what [get_Period_index] needs. A Period without a time interval,
    with a time interval that has no start or no end, or without a
    resolution raises [AttributeError], and [date_range] is not asked. *)
Theorem get_Period_index_requirements
    (date_range : pyval -> pyval -> string -> result (list timestamp)) (Period : node) :
  xpath_child "timeInterval" Period = [] \/
  (exists interval, head (xpath_child "timeInterval" Period) = Some interval /\
                    (xpath_child "start" interval = [] \/
                     xpath_child "end" interval = [])) \/
  xpath_child "resolution" Period = [] ->
  get_Period_index date_range Period = Raise AttributeError.
Proof.
  unfold get_Period_index, getattr.
  destruct (xpath_child "timeInterval" Period) as [|interval rest]; [done|].
  intros [?|[(interval' & [= <-] & Hmissing)|Hnil]]; [done| |].
  - cbn [head of_option mbind result_bind].
    destruct (xpath_child "start" interval) as [|start starts]; [done|].
    destruct Hmissing as [?|Hnil]; [done|]. by rewrite Hnil.
  - rewrite Hnil. cbn [head of_option mbind result_bind].
    destruct (xpath_child "start" interval) as [|start starts]; [done|].
    by destruct (xpath_child "end" interval) as [|end_ ends].
Qed.

Lemma get_Period_index_requirements_witness :
  get_Period_index pd_date_range
    (Node "Period" None
       [Node "timeInterval" None
          [Node "start" (Some "2023-01-01T00:00Z") [];
           Node "end" (Some "2023-01-01T02:00Z") []];
        point_node "1" "quantity" "a"])
  = Raise AttributeError.
Proof.
  apply (get_Period_index_requirements pd_date_range
           (Node "Period" None
              [Node "timeInterval" None
                 [Node "start" (Some "2023-01-01T00:00Z") [];
                  Node "end" (Some "2023-01-01T02:00Z") []];
               point_node "1" "quantity" "a"])).
  right. right. reflexivity.
Defined.

(** ** The value field and the table of a Period *)

(** X21: the value field of a Period is the second field of its first
    Point. A Period without Points, or whose first Point has fewer than two
    fields of different names, makes [get_Period_data] raise [IndexError],
    whatever the required length. *)
Theorem get_Period_data_value_field (Period : node) (length_ : Z) :
  (xpath_child "Point" Period = [] ->
   returned_list (get_Period_data Period length_) = Raise IndexError) /\
  (forall point,
      head (xpath_child "Point" Period) = Some point ->
      (length (dict_keys (children_dict "" point)) < 2)%nat ->
      returned_list (get_Period_data Period length_) = Raise IndexError).
Proof.
  rewrite get_Period_data_returned. unfold padded. split.
  - by intros ->.
  - intros point Hpoint Hlen.
    destruct (xpath_child "Point" Period) as [|p points]; [done|].
    injection Hpoint as ->. rewrite fmap_cons, py_index_head.
    cbn [head of_option mbind result_bind].
    rewrite py_index_out_of_range; [done|]. right. lia.
Qed.

Lemma get_Period_data_value_field_witness :
  returned_list
    (get_Period_data
       (period_node "2023-01-01T00:00Z" "2023-01-01T02:00Z" "PT60M"
          [Node "Point" None [Node "position" (Some "1") []];
           point_node "2" "quantity" "b"]) 2)
  = Raise IndexError.
Proof.
  apply (proj2 (get_Period_data_value_field
                  (period_node "2023-01-01T00:00Z" "2023-01-01T02:00Z" "PT60M"
                     [Node "Point" None [Node "position" (Some "1") []];
                      point_node "2" "quantity" "b"]) 2)
           (Node "Point" None [Node "position" (Some "1") []]) eq_refl).
  change (1 < 2)%nat. lia.
Defined.

(** X22: the table of a Period, whatever function extracts the rows. When
    [Period_to_DataFrame] returns, the index is the one of
    [get_Period_index], there is one row for each index entry, and the
    columns assigned to all rows are the metadata that [decompose_node]
    gives for the tag [Point]: the Points themselves are never among
    them. *)
Theorem Period_to_DataFrame_table
    (date_range : pyval -> pyval -> string -> result (list timestamp))
    (json_normalize : list (string * unfolded) -> pydict string pyval)
    (get_rows : node -> Z -> M nat) (Period : node) (df : DataFrame) :
  Period_to_DataFrame_fn date_range json_normalize get_rows Period = Ok df ->
  get_Period_index date_range Period = Ok (df_index df) /\
  returned_list (get_rows Period (Z.of_nat (length (df_index df)))) = Ok (df_data df) /\
  length (df_data df) = length (df_index df) /\
  exists metadata,
    decompose_node Period (TagName "Point")
      = Returned [(node_tag Period, UDict metadata)]
                 (Subnode <$> xpath_child "Point" Period) /\
    df_assigned df = json_normalize [(node_tag Period, UDict metadata)] /\
    dict_get "Point" metadata = None.
Proof.
  unfold Period_to_DataFrame_fn.
  destruct (get_Period_index date_range Period) as [index|]; [|done].
  cbn [mbind result_bind].
  destruct (returned_list _) as [data|] eqn:Hdata; [|done]. cbn [mbind result_bind].
  case_bool_decide as Hlen; [|done]. intros [= <-]. cbn [df_index df_data df_assigned].
  split_and!; [done|done|done|].
  eexists. split_and!; [reflexivity|reflexivity|].
  apply dict_get_None_keys. rewrite dict_keys_of_pairs, unfold_node_tags.
  intros [c [Hc [Hne _]%list_elem_of_filter]]%list_elem_of_fmap. done.
Qed.

Lemma Period_to_DataFrame_table_witness :
  Period_to_DataFrame_fn pd_date_range (fun _ => []) get_Period_data
    (period_node "2023-01-01T00:00Z" "2023-01-01T02:00Z" "PT60M"
       [point_node "1" "quantity" "a"])
  = Ok (mkDataFrame [27875520; 27875580]
          [record_of "1" "quantity" "a"; record_of "1" "quantity" "a"] []) /\
  get_Period_index pd_date_range
    (period_node "2023-01-01T00:00Z" "2023-01-01T02:00Z" "PT60M"
       [point_node "1" "quantity" "a"])
  = Ok [27875520; 27875580].
Proof.
  assert (Period_to_DataFrame_fn pd_date_range (fun _ => []) get_Period_data
            (period_node "2023-01-01T00:00Z" "2023-01-01T02:00Z" "PT60M"
               [point_node "1" "quantity" "a"])
          = Ok (mkDataFrame [27875520; 27875580]
                  [record_of "1" "quantity" "a"; record_of "1" "quantity" "a"] []))
    as Hdf.
  { unfold Period_to_DataFrame_fn.
    change (get_Period_index pd_date_range _) with (Ok (A:=list Z) [27875520; 27875580]).
    cbn [mbind result_bind]. rewrite get_Period_data_returned. reflexivity. }
  split; [exact Hdf|].
  exact (proj1 (Period_to_DataFrame_table pd_date_range (fun _ => []) get_Period_data
                  _ _ Hdf)).
Defined.
